(** * Debug program buffer of the RISC-V target: model of [src/target/riscv/program.c]

    The file builds short instruction sequences in a capacity-limited
    buffer ([struct riscv_program]), allocates scratch registers, splits
    addresses into immediates and finally runs the buffer on the target,
    saving and restoring the registers the program dirtied.

    The embedding is shallow: every C function is a Rocq function of the
    same name.  A function that mutates [*p] takes the program and returns
    the mutated one; [abort()] and a failed [assert] are the outcome
    [Fatal]; a store outside an array is the outcome [Undefined]. *)

From Stdlib Require Import ZArith List String Bool Lia.
From stdpp Require Import base list.
Import ListNotations.

Local Open Scope nat_scope.

(** ** Outcomes of a C call *)

Inductive outcome (A : Type) : Type :=
| Ret (a : A)            (* the call returns *)
| Fatal (msg : string)   (* LOG_ERROR(msg) followed by abort(), or a failed assert *)
| Undefined.             (* a store outside the bounds of an array *)

Arguments Ret {A} a.
Arguments Fatal {A} msg.
Arguments Undefined {A}.

#[global] Instance outcome_ret : MRet outcome := fun A a => Ret a.
#[global] Instance outcome_bind : MBind outcome := fun A B f m =>
  match m with
  | Ret a => f a
  | Fatal msg => Fatal msg
  | Undefined => Undefined
  end.

Definition returns {A : Type} (m : outcome A) : Prop := exists a, m = Ret a.

(** ** Types and constants of the headers *)

(** Modelled from the spec: [gdb_regs.h] is not among the sources.  The
    general-purpose registers are X0..X31 with X0 hard-wired to zero, the
    scratch-eligible registers run from S0 (x8 in the RISC-V calling
    convention) to the last one, and the CSRs are a distinct identifier
    range above them. *)
Definition gdb_regno : Type := nat.
Definition GDB_REGNO_XPR0 : gdb_regno := 0.
Definition GDB_REGNO_X0 : gdb_regno := GDB_REGNO_XPR0 + 0.
Definition GDB_REGNO_S0 : gdb_regno := GDB_REGNO_XPR0 + 8.
Definition GDB_REGNO_XPR31 : gdb_regno := 31.
Definition GDB_REGNO_CSR0 : gdb_regno := 65.
Definition GDB_REGNO_CSR4095 : gdb_regno := GDB_REGNO_CSR0 + 4095.

(** Modelled from the spec: [program.h] is not among the sources.  The
    flag arrays are indexed by the general-purpose registers X0..X31 and
    the buffer is a fixed-capacity array of instruction words. *)
Definition RISCV_REGISTER_COUNT : nat := 32.
Definition RISCV_MAX_DEBUG_BUFFER_SIZE : nat := 32.

(** Modelled from the spec: the error codes of [helper/log.h], a success
    and a distinguishable failure indication. *)
Definition ERROR_OK : Z := 0%Z.
Definition ERROR_FAIL : Z := (-4)%Z.

(** Modelled from the spec: [riscv.h] is not among the sources.  An
    address is a signed, word-sized integer (int64_t), a register value an
    unsigned one (uint64_t); both are kept as [Z]. *)
Definition riscv_addr_t : Type := Z.
Definition riscv_reg_t : Type := Z.
Bind Scope Z_scope with riscv_addr_t riscv_reg_t.

(** Conversion to int32_t and int16_t (the parameters of
    [riscv_program_lui] and [riscv_program_addi]): wrap-around. *)
Definition to_int32 (z : Z) : Z := ((z + 2 ^ 31) mod 2 ^ 32 - 2 ^ 31)%Z.
Definition to_int16 (z : Z) : Z := ((z + 2 ^ 15) mod 2 ^ 16 - 2 ^ 15)%Z.

(** Modelled from the spec: the encoders of [asm.h] are not among the
    sources; each takes operands and returns an encoded instruction word
    and is treated as a pure function table.  An instruction word is kept
    symbolic, one constructor per encoder, with the operands the caller
    passes; [word] is a word that did not come from an encoder. *)
Inductive riscv_insn_t : Type :=
| word (w : Z)
| sw (s b : gdb_regno) (offset : Z)
| sh (s b : gdb_regno) (offset : Z)
| sb (s b : gdb_regno) (offset : Z)
| sd (s b : gdb_regno) (offset : Z)
| lw (d b : gdb_regno) (offset : Z)
| lh (d b : gdb_regno) (offset : Z)
| lb (d b : gdb_regno) (offset : Z)
| ld (d b : gdb_regno) (offset : Z)
| csrrs (d s : gdb_regno) (csr : nat)
| csrrw (d s : gdb_regno) (csr : nat)
| fence
| fence_i
| ebreak
| lui (d : gdb_regno) (u : Z)
| addi (d s : gdb_regno) (u : Z).

#[global] Instance riscv_insn_t_inhabited : Inhabited riscv_insn_t := populate (word 0).

(** Modelled from the spec: [struct target] and its queries
    ([riscv_debug_buffer_size], [riscv_xlen]) are not among the sources.
    The buffer capacity and the register width are fixed properties of a
    target instance. *)
Record struct_target : Type := {
  riscv_debug_buffer_size : nat;
  riscv_xlen : Z
}.

(** ** [struct riscv_program] *)

Record riscv_program : Type := {
  target : struct_target;
  debug_buffer : list riscv_insn_t;   (* uint32_t [RISCV_MAX_DEBUG_BUFFER_SIZE] *)
  instruction_count : nat;            (* size_t *)
  writes_xreg : list bool;            (* bool [RISCV_REGISTER_COUNT] *)
  writes_memory : bool;
  in_use : list bool;                 (* bool [RISCV_REGISTER_COUNT] *)
  target_xlen : Z
}.

Definition set_debug_buffer (p : riscv_program) (b : list riscv_insn_t) : riscv_program :=
  {| target := target p; debug_buffer := b;
     instruction_count := instruction_count p; writes_xreg := writes_xreg p;
     writes_memory := writes_memory p; in_use := in_use p;
     target_xlen := target_xlen p |}.

Definition set_instruction_count (p : riscv_program) (n : nat) : riscv_program :=
  {| target := target p; debug_buffer := debug_buffer p;
     instruction_count := n; writes_xreg := writes_xreg p;
     writes_memory := writes_memory p; in_use := in_use p;
     target_xlen := target_xlen p |}.

Definition set_writes_xreg (p : riscv_program) (w : list bool) : riscv_program :=
  {| target := target p; debug_buffer := debug_buffer p;
     instruction_count := instruction_count p; writes_xreg := w;
     writes_memory := writes_memory p; in_use := in_use p;
     target_xlen := target_xlen p |}.

Definition set_writes_memory (p : riscv_program) (b : bool) : riscv_program :=
  {| target := target p; debug_buffer := debug_buffer p;
     instruction_count := instruction_count p; writes_xreg := writes_xreg p;
     writes_memory := b; in_use := in_use p;
     target_xlen := target_xlen p |}.

Definition set_in_use (p : riscv_program) (u : list bool) : riscv_program :=
  {| target := target p; debug_buffer := debug_buffer p;
     instruction_count := instruction_count p; writes_xreg := writes_xreg p;
     writes_memory := writes_memory p; in_use := u;
     target_xlen := target_xlen p |}.

(** The arrays of a C program have their declared sizes; the lists of a
    model value may not.  [program_wf] selects the values that are C
    states. *)
Definition program_wf (p : riscv_program) : Prop :=
  length (debug_buffer p) = RISCV_MAX_DEBUG_BUFFER_SIZE /\
  length (writes_xreg p) = RISCV_REGISTER_COUNT /\
  length (in_use p) = RISCV_REGISTER_COUNT.

(** ** Program interface *)

Definition riscv_program_init (t : struct_target) : Z * riscv_program :=
  (ERROR_OK,
   {| target := t;
      debug_buffer := replicate RISCV_MAX_DEBUG_BUFFER_SIZE (word 0xFFFFFFFF);
      instruction_count := 0;
      writes_xreg := replicate RISCV_REGISTER_COUNT false;
      writes_memory := false;
      in_use := replicate RISCV_REGISTER_COUNT false;
      target_xlen := riscv_xlen t |}).

Definition riscv_program_insert (p : riscv_program) (i : riscv_insn_t)
  : outcome (Z * riscv_program) :=
  if riscv_debug_buffer_size (target p) <=? instruction_count p then
    Fatal "Unable to insert instruction:"
  else if RISCV_MAX_DEBUG_BUFFER_SIZE <=? instruction_count p then
    Undefined
  else
    Ret (ERROR_OK,
         set_instruction_count
           (set_debug_buffer p (<[instruction_count p := i]> (debug_buffer p)))
           (S (instruction_count p))).

(** ** Register allocator *)

Definition riscv_program_dont_restore_register (p : riscv_program) (r : gdb_regno)
  : outcome (Z * riscv_program) :=
  if r <? RISCV_REGISTER_COUNT then
    Ret (ERROR_OK, set_writes_xreg p (<[r := false]> (writes_xreg p)))
  else Fatal "assert(r < RISCV_REGISTER_COUNT)".

Definition riscv_program_do_restore_register (p : riscv_program) (r : gdb_regno)
  : outcome (Z * riscv_program) :=
  if r <? RISCV_REGISTER_COUNT then
    Ret (ERROR_OK, set_writes_xreg p (<[r := true]> (writes_xreg p)))
  else Fatal "assert(r < RISCV_REGISTER_COUNT)".

(** The loop of [riscv_program_gettemp]: [i] is the loop variable and [n]
    the number of iterations left before [i] passes GDB_REGNO_XPR31. *)
Fixpoint gettemp_loop (p : riscv_program) (i n : nat)
  : outcome (gdb_regno * riscv_program) :=
  match n with
  | 0 => Fatal "You've run out of temporary registers.  This is impossible."
  | S n' =>
      if (in_use p !!! i : bool) then gettemp_loop p (S i) n'
      else
        '(_, p1) ← riscv_program_do_restore_register p i;
        Ret (i, set_in_use p1 (<[i := true]> (in_use p1)))
  end.

Definition riscv_program_gettemp (p : riscv_program)
  : outcome (gdb_regno * riscv_program) :=
  gettemp_loop p GDB_REGNO_S0 (S GDB_REGNO_XPR31 - GDB_REGNO_S0).

Definition riscv_program_puttemp (p : riscv_program) (r : gdb_regno)
  : outcome riscv_program :=
  if r <? RISCV_REGISTER_COUNT then
    Ret (set_in_use p (<[r := false]> (in_use p)))
  else Fatal "assert(r < RISCV_REGISTER_COUNT)".

(** ** Address splitter *)

Definition riscv_program_gah (p : riscv_program) (addr : riscv_addr_t) : riscv_addr_t :=
  Z.shiftr addr 12.

Definition riscv_program_gal (p : riscv_program) (addr : riscv_addr_t) : riscv_addr_t :=
  if (0 <? addr)%Z then Z.land addr 0x7FF else 0%Z.

(** ** Instruction emitter *)

Definition riscv_program_swr (p : riscv_program) (d b : gdb_regno) (offset : Z)
  : outcome (Z * riscv_program) :=
  riscv_program_insert (set_writes_memory p true) (sw d b offset).

Definition riscv_program_shr (p : riscv_program) (d b : gdb_regno) (offset : Z)
  : outcome (Z * riscv_program) :=
  riscv_program_insert (set_writes_memory p true) (sh d b offset).

Definition riscv_program_sbr (p : riscv_program) (d b : gdb_regno) (offset : Z)
  : outcome (Z * riscv_program) :=
  riscv_program_insert (set_writes_memory p true) (sb d b offset).

Definition riscv_program_lwr (p : riscv_program) (d b : gdb_regno) (offset : Z)
  : outcome (Z * riscv_program) :=
  riscv_program_insert (set_writes_memory p true) (lw d b offset).

Definition riscv_program_lhr (p : riscv_program) (d b : gdb_regno) (offset : Z)
  : outcome (Z * riscv_program) :=
  riscv_program_insert (set_writes_memory p true) (lh d b offset).

Definition riscv_program_lbr (p : riscv_program) (d b : gdb_regno) (offset : Z)
  : outcome (Z * riscv_program) :=
  riscv_program_insert (set_writes_memory p true) (lb d b offset).

Definition riscv_program_lui (p : riscv_program) (d : gdb_regno) (u : Z)
  : outcome (Z * riscv_program) :=
  riscv_program_insert p (lui d u).

Definition riscv_program_addi (p : riscv_program) (d s : gdb_regno) (u : Z)
  : outcome (Z * riscv_program) :=
  riscv_program_insert p (addi d s u).

Definition riscv_program_li (p : riscv_program) (d : gdb_regno) (c : riscv_reg_t)
  : outcome (Z * riscv_program) :=
  '(rc, p1) ← riscv_program_lui p d (to_int32 (Z.shiftr c 12));
  if negb (rc =? ERROR_OK)%Z then Ret (ERROR_FAIL, p1) else
  '(rc, p2) ← riscv_program_addi p1 d d (to_int16 (Z.land c 0xFFF));
  if negb (rc =? ERROR_OK)%Z then Ret (ERROR_FAIL, p2) else
  Ret (ERROR_OK, p2).

Definition riscv_program_lah (p : riscv_program) (d : gdb_regno) (addr : riscv_addr_t)
  : outcome (Z * riscv_program) :=
  let ah := riscv_program_gah p addr in
  if (ah =? 0)%Z then Ret (ERROR_OK, p)
  else riscv_program_lui p d (to_int32 ah).

Definition riscv_program_lal (p : riscv_program) (d : gdb_regno) (addr : riscv_addr_t)
  : outcome (Z * riscv_program) :=
  let al := riscv_program_gal p addr in
  if (al =? 0)%Z then Ret (ERROR_OK, p)
  else riscv_program_addi p d d (to_int16 al).

(** The four address-relative loads differ in the encoder only;
    [riscv_program_lb] alone hands [t] instead of [d] to
    [riscv_program_lah]. *)
Definition riscv_program_ld (p : riscv_program) (d : gdb_regno) (addr : riscv_addr_t)
  : outcome (Z * riscv_program) :=
  let t := if (riscv_program_gah p addr =? 0)%Z then GDB_REGNO_X0 else d in
  '(rc, p1) ← riscv_program_lah p d addr;
  if negb (rc =? ERROR_OK)%Z then Ret (ERROR_FAIL, p1) else
  '(rc, p2) ← riscv_program_insert p1 (ld d t (riscv_program_gal p1 addr));
  if negb (rc =? ERROR_OK)%Z then Ret (ERROR_FAIL, p2) else
  Ret (ERROR_OK, p2).

Definition riscv_program_lw (p : riscv_program) (d : gdb_regno) (addr : riscv_addr_t)
  : outcome (Z * riscv_program) :=
  let t := if (riscv_program_gah p addr =? 0)%Z then GDB_REGNO_X0 else d in
  '(rc, p1) ← riscv_program_lah p d addr;
  if negb (rc =? ERROR_OK)%Z then Ret (ERROR_FAIL, p1) else
  '(rc, p2) ← riscv_program_insert p1 (lw d t (riscv_program_gal p1 addr));
  if negb (rc =? ERROR_OK)%Z then Ret (ERROR_FAIL, p2) else
  Ret (ERROR_OK, p2).

Definition riscv_program_lh (p : riscv_program) (d : gdb_regno) (addr : riscv_addr_t)
  : outcome (Z * riscv_program) :=
  let t := if (riscv_program_gah p addr =? 0)%Z then GDB_REGNO_X0 else d in
  '(rc, p1) ← riscv_program_lah p d addr;
  if negb (rc =? ERROR_OK)%Z then Ret (ERROR_FAIL, p1) else
  '(rc, p2) ← riscv_program_insert p1 (lh d t (riscv_program_gal p1 addr));
  if negb (rc =? ERROR_OK)%Z then Ret (ERROR_FAIL, p2) else
  Ret (ERROR_OK, p2).

Definition riscv_program_lb (p : riscv_program) (d : gdb_regno) (addr : riscv_addr_t)
  : outcome (Z * riscv_program) :=
  let t := if (riscv_program_gah p addr =? 0)%Z then GDB_REGNO_X0 else d in
  '(rc, p1) ← riscv_program_lah p t addr;
  if negb (rc =? ERROR_OK)%Z then Ret (ERROR_FAIL, p1) else
  '(rc, p2) ← riscv_program_insert p1 (lb d t (riscv_program_gal p1 addr));
  if negb (rc =? ERROR_OK)%Z then Ret (ERROR_FAIL, p2) else
  Ret (ERROR_OK, p2).

Definition riscv_program_lx (p : riscv_program) (d : gdb_regno) (addr : riscv_addr_t)
  : outcome (Z * riscv_program) :=
  if (target_xlen p =? 64)%Z then riscv_program_ld p d addr
  else if (target_xlen p =? 32)%Z then riscv_program_lw p d addr
  else Fatal "unknown xlen %d".

(** The choice of the base register of an address-relative store:
    X0, or a scratch register taken from the allocator. *)
Definition store_base (p : riscv_program) (addr : riscv_addr_t)
  : outcome (gdb_regno * riscv_program) :=
  if (riscv_program_gah p addr =? 0)%Z then Ret (GDB_REGNO_X0, p)
  else riscv_program_gettemp p.

Definition riscv_program_sd (p : riscv_program) (d : gdb_regno) (addr : riscv_addr_t)
  : outcome (Z * riscv_program) :=
  '(t, p0) ← store_base p addr;
  '(rc, p1) ← riscv_program_lah p0 t addr;
  if negb (rc =? ERROR_OK)%Z then Ret (ERROR_FAIL, p1) else
  '(rc, p2) ← riscv_program_insert p1 (sd d t (riscv_program_gal p1 addr));
  if negb (rc =? ERROR_OK)%Z then Ret (ERROR_FAIL, p2) else
  p3 ← riscv_program_puttemp p2 t;
  Ret (ERROR_OK, set_writes_memory p3 true).

Definition riscv_program_sw (p : riscv_program) (d : gdb_regno) (addr : riscv_addr_t)
  : outcome (Z * riscv_program) :=
  '(t, p0) ← store_base p addr;
  '(rc, p1) ← riscv_program_lah p0 t addr;
  if negb (rc =? ERROR_OK)%Z then Ret (ERROR_FAIL, p1) else
  '(rc, p2) ← riscv_program_insert p1 (sw d t (riscv_program_gal p1 addr));
  if negb (rc =? ERROR_OK)%Z then Ret (ERROR_FAIL, p2) else
  p3 ← riscv_program_puttemp p2 t;
  Ret (ERROR_OK, set_writes_memory p3 true).

Definition riscv_program_sh (p : riscv_program) (d : gdb_regno) (addr : riscv_addr_t)
  : outcome (Z * riscv_program) :=
  '(t, p0) ← store_base p addr;
  '(rc, p1) ← riscv_program_lah p0 t addr;
  if negb (rc =? ERROR_OK)%Z then Ret (ERROR_FAIL, p1) else
  '(rc, p2) ← riscv_program_insert p1 (sh d t (riscv_program_gal p1 addr));
  if negb (rc =? ERROR_OK)%Z then Ret (ERROR_FAIL, p2) else
  p3 ← riscv_program_puttemp p2 t;
  Ret (ERROR_OK, set_writes_memory p3 true).

Definition riscv_program_sb (p : riscv_program) (d : gdb_regno) (addr : riscv_addr_t)
  : outcome (Z * riscv_program) :=
  '(t, p0) ← store_base p addr;
  '(rc, p1) ← riscv_program_lah p0 t addr;
  if negb (rc =? ERROR_OK)%Z then Ret (ERROR_FAIL, p1) else
  '(rc, p2) ← riscv_program_insert p1 (sb d t (riscv_program_gal p1 addr));
  if negb (rc =? ERROR_OK)%Z then Ret (ERROR_FAIL, p2) else
  p3 ← riscv_program_puttemp p2 t;
  Ret (ERROR_OK, set_writes_memory p3 true).

Definition riscv_program_sx (p : riscv_program) (d : gdb_regno) (addr : riscv_addr_t)
  : outcome (Z * riscv_program) :=
  if (target_xlen p =? 64)%Z then riscv_program_sd p d addr
  else if (target_xlen p =? 32)%Z then riscv_program_sw p d addr
  else Fatal "unknown xlen %d".

Definition riscv_program_csrr (p : riscv_program) (d csr : gdb_regno)
  : outcome (Z * riscv_program) :=
  if (GDB_REGNO_CSR0 <=? csr) && (csr <=? GDB_REGNO_CSR4095) then
    riscv_program_insert p (csrrs d GDB_REGNO_X0 (csr - GDB_REGNO_CSR0))
  else Fatal "assert(csr >= GDB_REGNO_CSR0 && csr <= GDB_REGNO_CSR4095)".

Definition riscv_program_csrw (p : riscv_program) (s csr : gdb_regno)
  : outcome (Z * riscv_program) :=
  if GDB_REGNO_CSR0 <=? csr then
    riscv_program_insert p (csrrw GDB_REGNO_X0 s (csr - GDB_REGNO_CSR0))
  else Fatal "assert(csr >= GDB_REGNO_CSR0)".

Definition riscv_program_csrrw (p : riscv_program) (d s csr : gdb_regno)
  : outcome (Z * riscv_program) :=
  if GDB_REGNO_CSR0 <=? csr then
    riscv_program_insert p (csrrw d s (csr - GDB_REGNO_CSR0))
  else Fatal "assert(csr >= GDB_REGNO_CSR0)".

Definition riscv_program_fence_i (p : riscv_program) : outcome (Z * riscv_program) :=
  riscv_program_insert p fence_i.

Definition riscv_program_fence (p : riscv_program) : outcome (Z * riscv_program) :=
  riscv_program_insert p fence.

Definition riscv_program_ebreak (p : riscv_program) : outcome (Z * riscv_program) :=
  if instruction_count p =? riscv_debug_buffer_size (target p) then Ret (ERROR_OK, p)
  else riscv_program_insert p ebreak.

(** ** Execution on the target *)

(** Calls made to the target, in the order they are made. *)
Inductive event : Type :=
| EvKeepAlive
| EvGetRegister (i : gdb_regno) (v : riscv_reg_t)
| EvSetRegister (i : gdb_regno) (v : riscv_reg_t)
| EvWriteDebugBuffer (i : nat) (w : riscv_insn_t)
| EvExecuteDebugBuffer (rc : Z)
| EvReadDebugBuffer (i : nat) (w : riscv_insn_t).

Definition set_register_events (tr : list event) : list (gdb_regno * riscv_reg_t) :=
  omap (fun e => match e with EvSetRegister i v => Some (i, v) | _ => None end) tr.

Definition get_register_events (tr : list event) : list (gdb_regno * riscv_reg_t) :=
  omap (fun e => match e with EvGetRegister i v => Some (i, v) | _ => None end) tr.

Definition read_debug_buffer_events (tr : list event) : list (nat * riscv_insn_t) :=
  omap (fun e => match e with EvReadDebugBuffer i w => Some (i, w) | _ => None end) tr.

Section Exec.

(** Modelled from the spec: the transport of [riscv.c] is not among the
    sources.  [hart] is the state reached through [struct target *t];
    every call takes the state and returns the new one, and nothing is
    assumed about what a call does to it.  The program is run on its own
    target: [t] and [p->target] are the same target. *)
Variable hart : Type.
Variable riscv_get_register : hart -> gdb_regno -> riscv_reg_t * hart.
Variable riscv_set_register : hart -> gdb_regno -> riscv_reg_t -> hart.
Variable riscv_write_debug_buffer : hart -> nat -> riscv_insn_t -> Z * hart.
Variable riscv_execute_debug_buffer : hart -> Z * hart.
Variable riscv_read_debug_buffer : hart -> nat -> riscv_insn_t * hart.

(** The loop of [riscv_program_write], from slot [i], [n] slots left. *)
Fixpoint write_loop (p : riscv_program) (t : hart) (i n : nat)
  : Z * hart * list event :=
  match n with
  | 0 => (ERROR_OK, t, [])
  | S n' =>
      let w := debug_buffer p !!! i in
      let '(rc, t1) := riscv_write_debug_buffer t i w in
      if negb (rc =? ERROR_OK)%Z then (ERROR_FAIL, t1, [EvWriteDebugBuffer i w])
      else
        let '(rc', t2, tr) := write_loop p t1 (S i) n' in
        (rc', t2, EvWriteDebugBuffer i w :: tr)
  end.

Definition riscv_program_write (p : riscv_program) (t : hart)
  : Z * hart * list event :=
  write_loop p t 0 (instruction_count p).

(** First loop of [riscv_program_exec]: [saved] is the array
    [saved_registers]. *)
Fixpoint save_loop (p : riscv_program) (t : hart) (saved : list riscv_reg_t)
  (i n : nat) : list riscv_reg_t * hart * list event :=
  match n with
  | 0 => (saved, t, [])
  | S n' =>
      if (writes_xreg p !!! i : bool) then
        let '(v, t1) := riscv_get_register t i in
        let '(saved', t2, tr) := save_loop p t1 (<[i := v]> saved) (S i) n' in
        (saved', t2, EvGetRegister i v :: tr)
      else save_loop p t saved (S i) n'
  end.

(** Read-back loop of [riscv_program_exec]. *)
Fixpoint readback_loop (p : riscv_program) (t : hart) (i n : nat)
  : outcome (riscv_program * hart * list event) :=
  match n with
  | 0 => Ret (p, t, [])
  | S n' =>
      if riscv_debug_buffer_size (target p) <=? i then
        let '(w, t1) := riscv_read_debug_buffer t i in
        if RISCV_MAX_DEBUG_BUFFER_SIZE <=? i then Undefined
        else
          '(p', t2, tr) ← readback_loop
             (set_debug_buffer p (<[i := w]> (debug_buffer p))) t1 (S i) n';
          Ret (p', t2, EvReadDebugBuffer i w :: tr)
      else readback_loop p t (S i) n'
  end.

(** Last loop of [riscv_program_exec]. *)
Fixpoint restore_loop (p : riscv_program) (saved : list riscv_reg_t) (t : hart)
  (i n : nat) : hart * list event :=
  match n with
  | 0 => (t, [])
  | S n' =>
      if (writes_xreg p !!! i : bool) then
        let v := saved !!! i in
        let '(t2, tr) := restore_loop p saved (riscv_set_register t i v) (S i) n' in
        (t2, EvSetRegister i v :: tr)
      else restore_loop p saved t (S i) n'
  end.

(** [saved_registers] is an automatic array that the function does not
    initialise: its contents at entry are indeterminate and are an
    argument of the model. *)
Definition riscv_program_exec (p : riscv_program) (t : hart)
  (saved_registers : list riscv_reg_t)
  : outcome (Z * riscv_program * hart * list event) :=
  let '(saved, t1, tr_save) :=
    save_loop p t saved_registers (GDB_REGNO_XPR0 + 1)
      (GDB_REGNO_XPR31 - GDB_REGNO_XPR0) in
  '(rc, p1) ← (if writes_memory p then riscv_program_fence p
               else Ret (ERROR_OK, p));
  if negb (rc =? ERROR_OK)%Z then Fatal "Unable to write fence" else
  '(rc, p2) ← riscv_program_ebreak p1;
  if negb (rc =? ERROR_OK)%Z then Fatal "Unable to write ebreak" else
  let '(rc, t2, tr_write) := riscv_program_write p2 t1 in
  if negb (rc =? ERROR_OK)%Z then
    Ret (ERROR_FAIL, p2, t2, EvKeepAlive :: tr_save ++ tr_write)
  else
  let '(rc, t3) := riscv_execute_debug_buffer t2 in
  if negb (rc =? ERROR_OK)%Z then
    Ret (ERROR_FAIL, p2, t3,
         EvKeepAlive :: tr_save ++ tr_write ++ [EvExecuteDebugBuffer rc])
  else
  '(p3, t4, tr_read) ← readback_loop p2 t3 0 (riscv_debug_buffer_size (target p2));
  let '(t5, tr_restore) :=
    restore_loop p3 saved t4 GDB_REGNO_XPR0 (S GDB_REGNO_XPR31 - GDB_REGNO_XPR0) in
  Ret (ERROR_OK, p3, t5,
       EvKeepAlive :: tr_save ++ tr_write ++ [EvExecuteDebugBuffer rc]
         ++ tr_read ++ tr_restore).

End Exec.

Arguments riscv_program_write {hart} _ _ _.
Arguments riscv_program_exec {hart} _ _ _ _ _ _ _ _.

(** ** A simulated target

    A register file and a program buffer; every transport call succeeds
    and x0 is hard-wired.  Running the buffer is taken at its worst: it
    overwrites every other register and every buffer slot. *)

Record sim_hart : Type := {
  sim_xregs : list riscv_reg_t;
  sim_progbuf : list riscv_insn_t
}.

Definition sim_get_register (t : sim_hart) (i : gdb_regno) : riscv_reg_t * sim_hart :=
  (sim_xregs t !!! i, t).

Definition sim_set_register (t : sim_hart) (i : gdb_regno) (v : riscv_reg_t) : sim_hart :=
  {| sim_xregs := if i =? 0 then sim_xregs t else <[i := v]> (sim_xregs t);
     sim_progbuf := sim_progbuf t |}.

Definition sim_write_debug_buffer (t : sim_hart) (i : nat) (w : riscv_insn_t)
  : Z * sim_hart :=
  (ERROR_OK, {| sim_xregs := sim_xregs t; sim_progbuf := <[i := w]> (sim_progbuf t) |}).

Definition sim_execute_debug_buffer (t : sim_hart) : Z * sim_hart :=
  (ERROR_OK,
   {| sim_xregs := <[0 := 0%Z]> (map (fun _ => 0xDEAD%Z) (sim_xregs t));
      sim_progbuf := map (fun _ => word 0x13) (sim_progbuf t) |}).

Definition sim_read_debug_buffer (t : sim_hart) (i : nat) : riscv_insn_t * sim_hart :=
  (sim_progbuf t !!! i, t).

Definition sim_exec (p : riscv_program) (t : sim_hart) (saved_registers : list riscv_reg_t)
  : outcome (Z * riscv_program * sim_hart * list event) :=
  riscv_program_exec sim_get_register sim_set_register sim_write_debug_buffer
    sim_execute_debug_buffer sim_read_debug_buffer p t saved_registers.

(** x0 holding 0, x1..x31 holding 101, ..., 131 and an empty buffer of
    [n] slots. *)
Definition sim_reset (n : nat) : sim_hart :=
  {| sim_xregs := 0%Z :: map (fun i => (100 + Z.of_nat i)%Z) (seq 1 31);
     sim_progbuf := replicate n (word 0) |}.

(** ** Notions used by the statements *)

(** The target never reports more slots than the buffer array has. *)
Definition target_wf (t : struct_target) : Prop :=
  riscv_debug_buffer_size t <= RISCV_MAX_DEBUG_BUFFER_SIZE.

(** Allocation implies must-restore. *)
Definition in_use_implies_dirtied (p : riscv_program) : Prop :=
  forall r, r < RISCV_REGISTER_COUNT ->
    in_use p !!! r = true -> writes_xreg p !!! r = true.

(** Emission of a sequence of instruction words, one
    [riscv_program_insert] each. *)
Fixpoint insert_all (p : riscv_program) (l : list riscv_insn_t)
  : outcome riscv_program :=
  match l with
  | [] => Ret p
  | i :: l' => '(_, p1) ← riscv_program_insert p i; insert_all p1 l'
  end.

(** The access widths of the address-relative macros, with the macro and
    the encoder of each. *)
Inductive width : Type := Byte | Half | Word | Double.

Definition load_insn (w : width) : gdb_regno -> gdb_regno -> Z -> riscv_insn_t :=
  match w with Byte => lb | Half => lh | Word => lw | Double => ld end.

Definition store_insn (w : width) : gdb_regno -> gdb_regno -> Z -> riscv_insn_t :=
  match w with Byte => sb | Half => sh | Word => sw | Double => sd end.

Definition riscv_program_load (w : width)
  : riscv_program -> gdb_regno -> riscv_addr_t -> outcome (Z * riscv_program) :=
  match w with
  | Byte => riscv_program_lb | Half => riscv_program_lh
  | Word => riscv_program_lw | Double => riscv_program_ld
  end.

Definition riscv_program_store (w : width)
  : riscv_program -> gdb_regno -> riscv_addr_t -> outcome (Z * riscv_program) :=
  match w with
  | Byte => riscv_program_sb | Half => riscv_program_sh
  | Word => riscv_program_sw | Double => riscv_program_sd
  end.

(** The code shape of [riscv_program_lw], [riscv_program_lh] and
    [riscv_program_ld], for any encoder [enc]: the destination [d] is what
    [riscv_program_lah] receives. *)
Definition load_code_shape (enc : gdb_regno -> gdb_regno -> Z -> riscv_insn_t)
  (p : riscv_program) (d : gdb_regno) (addr : riscv_addr_t)
  : outcome (Z * riscv_program) :=
  let t := if (riscv_program_gah p addr =? 0)%Z then GDB_REGNO_X0 else d in
  '(rc, p1) ← riscv_program_lah p d addr;
  if negb (rc =? ERROR_OK)%Z then Ret (ERROR_FAIL, p1) else
  '(rc, p2) ← riscv_program_insert p1 (enc d t (riscv_program_gal p1 addr));
  if negb (rc =? ERROR_OK)%Z then Ret (ERROR_FAIL, p2) else
  Ret (ERROR_OK, p2).

(** The code shape shared by [riscv_program_sd], [riscv_program_sw],
    [riscv_program_sh] and [riscv_program_sb], for any encoder [enc]. *)
Definition store_code_shape (enc : gdb_regno -> gdb_regno -> Z -> riscv_insn_t)
  (p : riscv_program) (d : gdb_regno) (addr : riscv_addr_t)
  : outcome (Z * riscv_program) :=
  '(t, p0) ← store_base p addr;
  '(rc, p1) ← riscv_program_lah p0 t addr;
  if negb (rc =? ERROR_OK)%Z then Ret (ERROR_FAIL, p1) else
  '(rc, p2) ← riscv_program_insert p1 (enc d t (riscv_program_gal p1 addr));
  if negb (rc =? ERROR_OK)%Z then Ret (ERROR_FAIL, p2) else
  p3 ← riscv_program_puttemp p2 t;
  Ret (ERROR_OK, set_writes_memory p3 true).

(** The program after the emission of the word [i]. *)
Definition appended (p : riscv_program) (i : riscv_insn_t) : riscv_program :=
  set_instruction_count
    (set_debug_buffer p (<[instruction_count p := i]> (debug_buffer p)))
    (S (instruction_count p)).

(** The registers marked dirtied among the [n] registers from [i] on, in
    ascending order. *)
Definition dirtied_between (p : riscv_program) (i n : nat) : list gdb_regno :=
  List.filter (fun j => writes_xreg p !!! j) (seq i n).

(** The calls of a run that goes through: the snapshots of the registers
    [lg], the transfer of the slots [lw] of [buf], the execution, and the
    write-back of the registers [ls]; [vals] is [saved_registers]. *)
Definition run_trace (vals : list riscv_reg_t) (buf : list riscv_insn_t)
  (lg lw ls : list nat) (rc : Z) : list event :=
  EvKeepAlive
  :: map (fun j => EvGetRegister j (vals !!! j)) lg
  ++ map (fun j => EvWriteDebugBuffer j (buf !!! j)) lw
  ++ [EvExecuteDebugBuffer rc]
  ++ map (fun j => EvSetRegister j (vals !!! j)) ls.

(** The operations a caller has on a program under construction. *)
Inductive op : Type :=
| OpInsert (i : riscv_insn_t)
| OpSwr (d b : gdb_regno) (offset : Z)
| OpShr (d b : gdb_regno) (offset : Z)
| OpSbr (d b : gdb_regno) (offset : Z)
| OpLwr (d b : gdb_regno) (offset : Z)
| OpLhr (d b : gdb_regno) (offset : Z)
| OpLbr (d b : gdb_regno) (offset : Z)
| OpLx (d : gdb_regno) (addr : riscv_addr_t)
| OpLoad (w : width) (d : gdb_regno) (addr : riscv_addr_t)
| OpSx (d : gdb_regno) (addr : riscv_addr_t)
| OpStore (w : width) (d : gdb_regno) (addr : riscv_addr_t)
| OpCsrr (d csr : gdb_regno)
| OpCsrw (s csr : gdb_regno)
| OpCsrrw (d s csr : gdb_regno)
| OpFenceI
| OpFence
| OpEbreak
| OpLui (d : gdb_regno) (u : Z)
| OpAddi (d s : gdb_regno) (u : Z)
| OpLi (d : gdb_regno) (c : riscv_reg_t)
| OpLah (d : gdb_regno) (addr : riscv_addr_t)
| OpLal (d : gdb_regno) (addr : riscv_addr_t)
| OpDontRestoreRegister (r : gdb_regno)
| OpDoRestoreRegister (r : gdb_regno)
| OpGettemp
| OpPuttemp (r : gdb_regno).

(** The program a call leaves behind, its return value dropped. *)
Definition program_of {A : Type} (m : outcome (A * riscv_program))
  : outcome riscv_program :=
  '(_, p) ← m; Ret p.

Definition run_op (o : op) (p : riscv_program) : outcome riscv_program :=
  match o with
  | OpInsert i => program_of (riscv_program_insert p i)
  | OpSwr d b offset => program_of (riscv_program_swr p d b offset)
  | OpShr d b offset => program_of (riscv_program_shr p d b offset)
  | OpSbr d b offset => program_of (riscv_program_sbr p d b offset)
  | OpLwr d b offset => program_of (riscv_program_lwr p d b offset)
  | OpLhr d b offset => program_of (riscv_program_lhr p d b offset)
  | OpLbr d b offset => program_of (riscv_program_lbr p d b offset)
  | OpLx d addr => program_of (riscv_program_lx p d addr)
  | OpLoad w d addr => program_of (riscv_program_load w p d addr)
  | OpSx d addr => program_of (riscv_program_sx p d addr)
  | OpStore w d addr => program_of (riscv_program_store w p d addr)
  | OpCsrr d csr => program_of (riscv_program_csrr p d csr)
  | OpCsrw s csr => program_of (riscv_program_csrw p s csr)
  | OpCsrrw d s csr => program_of (riscv_program_csrrw p d s csr)
  | OpFenceI => program_of (riscv_program_fence_i p)
  | OpFence => program_of (riscv_program_fence p)
  | OpEbreak => program_of (riscv_program_ebreak p)
  | OpLui d u => program_of (riscv_program_lui p d u)
  | OpAddi d s u => program_of (riscv_program_addi p d s u)
  | OpLi d c => program_of (riscv_program_li p d c)
  | OpLah d addr => program_of (riscv_program_lah p d addr)
  | OpLal d addr => program_of (riscv_program_lal p d addr)
  | OpDontRestoreRegister r => program_of (riscv_program_dont_restore_register p r)
  | OpDoRestoreRegister r => program_of (riscv_program_do_restore_register p r)
  | OpGettemp => program_of (riscv_program_gettemp p)
  | OpPuttemp r => riscv_program_puttemp p r
  end.

Fixpoint run_ops (l : list op) (p : riscv_program) : outcome riscv_program :=
  match l with
  | [] => Ret p
  | o :: l' => p1 ← run_op o p; run_ops l' p1
  end.

Definition is_dont_restore (o : op) : bool :=
  match o with OpDontRestoreRegister _ => true | _ => false end.

(** The invariant of §3 on the instruction count. *)
Definition count_within_capacity (p : riscv_program) : Prop :=
  instruction_count p <= riscv_debug_buffer_size (target p).

(** The two invariants of a program under construction, each on top of
    the array sizes. *)
Definition shape_ok (p : riscv_program) : Prop :=
  program_wf p /\ count_within_capacity p.

Definition allocation_ok (p : riscv_program) : Prop :=
  program_wf p /\ in_use_implies_dirtied p.

(** The program after a successful allocation of [r]. *)
Definition allocated (p : riscv_program) (r : gdb_regno) : riscv_program :=
  set_in_use (set_writes_xreg p (<[r := true]> (writes_xreg p)))
    (<[r := true]> (in_use p)).

(** [n] allocations in a row, with the registers they return. *)
Fixpoint gettemp_n (n : nat) (p : riscv_program)
  : outcome (list gdb_regno * riscv_program) :=
  match n with
  | 0 => Ret ([], p)
  | S n' =>
      '(r, p1) ← riscv_program_gettemp p;
      '(l, p2) ← gettemp_n n' p1;
      Ret (r :: l, p2)
  end.

(** The operations whose code assigns [writes_memory]. *)
Definition op_writes_memory (o : op) : bool :=
  match o with
  | OpSwr _ _ _ | OpShr _ _ _ | OpSbr _ _ _
  | OpLwr _ _ _ | OpLhr _ _ _ | OpLbr _ _ _
  | OpSx _ _ | OpStore _ _ _ => true
  | _ => false
  end.

(** The slots transferred to the target, in the order of the calls. *)
Definition write_debug_buffer_events (tr : list event) : list (nat * riscv_insn_t) :=
  omap (fun e => match e with EvWriteDebugBuffer i w => Some (i, w) | _ => None end) tr.

(** The registers below S0 are not in use. *)
Definition scratch_from_s0 (p : riscv_program) : Prop :=
  forall r, r < GDB_REGNO_S0 -> in_use p !!! r = false.

(** The slots from [instruction_count] on hold what
    [riscv_program_init] put there. *)
Definition unused_slots_untouched (p : riscv_program) : Prop :=
  forall j, instruction_count p <= j ->
    debug_buffer p !! j =
      replicate RISCV_MAX_DEBUG_BUFFER_SIZE (word 0xFFFFFFFF) !! j.

(** [q] extends [p]: it has at least as many instructions and the same
    words in the slots [p] had filled. *)
Definition extends_buffer (p q : riscv_program) : Prop :=
  instruction_count p <= instruction_count q /\
  forall j, j < instruction_count p -> debug_buffer q !! j = debug_buffer p !! j.

(** [q] has the target, the width and the flag arrays of [p]. *)
Definition same_bookkeeping (p q : riscv_program) : Prop :=
  target q = target p /\ target_xlen q = target_xlen p /\
  writes_xreg q = writes_xreg p /\ in_use q = in_use p /\
  writes_memory q = writes_memory p.

(** The program [riscv_program_exec] transfers: the fence of a program
    that writes memory, then the breakpoint unless the buffer is full. *)
Definition with_fence (p : riscv_program) : riscv_program :=
  if writes_memory p then appended p fence else p.

Definition with_ebreak (p : riscv_program) : riscv_program :=
  if instruction_count p =? riscv_debug_buffer_size (target p) then p
  else appended p ebreak.

(** A target with a buffer of four slots and a program freshly initialised
    for it, used where a concrete program is needed. *)
Definition example_target : struct_target :=
  {| riscv_debug_buffer_size := 4; riscv_xlen := 64 |}.

Definition example_program : riscv_program :=
  snd (riscv_program_init example_target).

(** * Properties *)

(** ** The outcome monad *)

Lemma bind_Ret_inv {A B : Type} (m : outcome A) (f : A -> outcome B) (b : B) :
  m ≫= f = Ret b -> exists a, m = Ret a /\ f a = Ret b.
Proof. destruct m as [a| |]; simpl; intros H; try discriminate. eauto. Qed.

Lemma bind_Fatal_inv {A B : Type} (m : outcome A) (f : A -> outcome B) (msg : string) :
  m ≫= f = Fatal msg -> m = Fatal msg \/ exists a, m = Ret a /\ f a = Fatal msg.
Proof.
  destruct m as [a|msg'|]; simpl; intros H.
  - right. eauto.
  - left. injection H as ->. reflexivity.
  - discriminate.
Qed.

Lemma program_of_Ret_inv {A : Type} (m : outcome (A * riscv_program)) p' :
  program_of m = Ret p' -> exists a, m = Ret (a, p').
Proof.
  unfold program_of. intros H. apply bind_Ret_inv in H as ([a q] & -> & H).
  injection H as ->. eauto.
Qed.

(** Inversion of a computation that returned: splits binds, branches and
    pairs until only primitive calls are left. *)
Ltac outcome_inv :=
  repeat match goal with
  | H : Ret _ = Ret _ |- _ => injection H as H; subst
  | H : (_, _) = (_, _) |- _ => injection H as H; subst
  | H : Fatal _ = Ret _ |- _ => discriminate H
  | H : Undefined = Ret _ |- _ => discriminate H
  | H : program_of _ = Ret _ |- _ => apply program_of_Ret_inv in H as (? & H)
  | H : _ ≫= _ = Ret _ |- _ =>
      let a := fresh "a" in let E := fresh "E" in
      apply bind_Ret_inv in H as (a & E & H);
      try match type of a with (_ * _)%type => destruct a as [? ?] end
  | H : (if ?b then _ else _) = Ret _ |- _ => destruct b eqn:?
  end.

(** The comparison of ERROR_OK with ERROR_OK. *)
Lemma guard_ok {A : Type} (k1 k2 : outcome A) :
  (if negb (ERROR_OK =? ERROR_OK)%Z then k1 else k2) = k2.
Proof. reflexivity. Qed.

(** ** The example program *)

Lemma example_program_wf : program_wf example_program.
Proof. repeat split. Qed.

Lemma example_target_wf : target_wf (target example_program).
Proof. unfold target_wf. simpl. unfold RISCV_MAX_DEBUG_BUFFER_SIZE. lia. Qed.

(** ** [riscv_program_insert] *)

Lemma insert_Ret_inv p i rc p' :
  riscv_program_insert p i = Ret (rc, p') ->
  rc = ERROR_OK /\
  instruction_count p < riscv_debug_buffer_size (target p) /\
  instruction_count p < RISCV_MAX_DEBUG_BUFFER_SIZE /\
  p' = set_instruction_count
         (set_debug_buffer p (<[instruction_count p := i]> (debug_buffer p)))
         (S (instruction_count p)).
Proof.
  unfold riscv_program_insert.
  destruct (Nat.leb_spec (riscv_debug_buffer_size (target p)) (instruction_count p));
    [discriminate|].
  destruct (Nat.leb_spec RISCV_MAX_DEBUG_BUFFER_SIZE (instruction_count p));
    [discriminate|].
  intros H1. injection H1 as <- <-. auto.
Qed.

Lemma insert_below_capacity p i :
  target_wf (target p) ->
  instruction_count p < riscv_debug_buffer_size (target p) ->
  riscv_program_insert p i =
    Ret (ERROR_OK,
         set_instruction_count
           (set_debug_buffer p (<[instruction_count p := i]> (debug_buffer p)))
           (S (instruction_count p))).
Proof.
  unfold target_wf, riscv_program_insert. intros Hwf Hlt.
  destruct (Nat.leb_spec (riscv_debug_buffer_size (target p)) (instruction_count p));
    [lia|].
  destruct (Nat.leb_spec RISCV_MAX_DEBUG_BUFFER_SIZE (instruction_count p));
    [lia|reflexivity].
Qed.

Lemma insert_at_capacity p i :
  riscv_debug_buffer_size (target p) <= instruction_count p ->
  riscv_program_insert p i = Fatal "Unable to insert instruction:".
Proof.
  unfold riscv_program_insert. intros Hle.
  destruct (Nat.leb_spec (riscv_debug_buffer_size (target p)) (instruction_count p));
    [reflexivity|lia].
Qed.

Lemma insert_Fatal_inv p i msg :
  riscv_program_insert p i = Fatal msg ->
  msg = "Unable to insert instruction:"%string /\
  riscv_debug_buffer_size (target p) <= instruction_count p.
Proof.
  unfold riscv_program_insert.
  destruct (Nat.leb_spec (riscv_debug_buffer_size (target p)) (instruction_count p)).
  - intros H1. injection H1 as <-. auto.
  - destruct (RISCV_MAX_DEBUG_BUFFER_SIZE <=? instruction_count p); discriminate.
Qed.

Lemma insert_all_app p l1 l2 :
  insert_all p (l1 ++ l2) = (insert_all p l1 ≫= fun p1 => insert_all p1 l2).
Proof.
  revert p. induction l1 as [|i l1 IH]; intros p; simpl; [reflexivity|].
  destruct (riscv_program_insert p i) as [[rc p1]| |]; simpl; auto.
Qed.

(** Inserting [l] into a program with room for it: the words land in
    order from slot [instruction_count p] on. *)
Lemma insert_all_fits l : forall p,
  program_wf p -> target_wf (target p) ->
  instruction_count p + length l <= riscv_debug_buffer_size (target p) ->
  exists p',
    insert_all p l = Ret p' /\
    program_wf p' /\
    target p' = target p /\
    instruction_count p' = instruction_count p + length l /\
    (forall j, j < length l ->
       debug_buffer p' !! (instruction_count p + j) = l !! j) /\
    (forall j, j < instruction_count p ->
       debug_buffer p' !! j = debug_buffer p !! j).
Proof.
  induction l as [|i l IH]; intros p Hwf Ht Hlen; simpl in *.
  - exists p. split; [reflexivity|]. split; [exact Hwf|].
    split; [reflexivity|]. split; [lia|]. split; [intros; lia|reflexivity].
  - rewrite insert_below_capacity by (auto; lia). simpl.
    set (p1 := set_instruction_count _ _).
    destruct (IH p1) as (p' & Hrun & Hwf' & Htg & Hcnt & Hnew & Hold).
    + destruct Hwf as (Hb & Hw & Hu). repeat split; simpl; auto.
      rewrite length_insert. exact Hb.
    + exact Ht.
    + simpl. lia.
    + exists p'. split; [exact Hrun|]. split; [exact Hwf'|].
      split; [exact Htg|]. split; [simpl in Hcnt; lia|]. split.
      * intros [|j] Hj.
        -- rewrite Nat.add_0_r, Hold by (simpl; lia). simpl.
           apply list_lookup_insert_eq. destruct Hwf as (Hb & _).
           unfold target_wf in Ht. lia.
        -- replace (instruction_count p + S j) with (instruction_count p1 + j)
             by (simpl; lia).
           rewrite Hnew by lia. reflexivity.
      * intros j Hj. rewrite Hold by (simpl; lia). simpl.
        apply list_lookup_insert_ne. lia.
Qed.

(** ** Register allocator *)

Lemma do_restore_register_Ret_inv p r rc p' :
  riscv_program_do_restore_register p r = Ret (rc, p') ->
  rc = ERROR_OK /\ r < RISCV_REGISTER_COUNT /\
  p' = set_writes_xreg p (<[r := true]> (writes_xreg p)).
Proof.
  unfold riscv_program_do_restore_register.
  destruct (Nat.ltb_spec r RISCV_REGISTER_COUNT); [|discriminate].
  intros H1. injection H1 as <- <-. auto.
Qed.

Lemma dont_restore_register_Ret_inv p r rc p' :
  riscv_program_dont_restore_register p r = Ret (rc, p') ->
  rc = ERROR_OK /\ r < RISCV_REGISTER_COUNT /\
  p' = set_writes_xreg p (<[r := false]> (writes_xreg p)).
Proof.
  unfold riscv_program_dont_restore_register.
  destruct (Nat.ltb_spec r RISCV_REGISTER_COUNT); [|discriminate].
  intros H1. injection H1 as <- <-. auto.
Qed.

Lemma puttemp_Ret_inv p r p' :
  riscv_program_puttemp p r = Ret p' ->
  r < RISCV_REGISTER_COUNT /\ p' = set_in_use p (<[r := false]> (in_use p)).
Proof.
  unfold riscv_program_puttemp.
  destruct (Nat.ltb_spec r RISCV_REGISTER_COUNT); [|discriminate].
  intros H1. injection H1 as <-. auto.
Qed.

Lemma gettemp_loop_Ret_inv p n : forall i r p',
  gettemp_loop p i n = Ret (r, p') ->
  i <= r < i + n /\ r < RISCV_REGISTER_COUNT /\
  in_use p !!! r = false /\
  (forall j, i <= j < r -> in_use p !!! j = true) /\
  p' = allocated p r.
Proof.
  induction n as [|n IH]; intros i r p'; simpl; [discriminate|].
  destruct (in_use p !!! i) eqn:Hi.
  - intros H. apply IH in H as (Hr & Hlt & Hfree & Hbusy & ->).
    split; [lia|]. split; [exact Hlt|]. split; [exact Hfree|]. split; [|reflexivity].
    intros j Hj. destruct (decide (j = i)) as [->|Hne]; [exact Hi|].
    apply Hbusy. lia.
  - intros H. apply bind_Ret_inv in H as ([rc p1] & E & H).
    apply do_restore_register_Ret_inv in E as (_ & Hlt & ->).
    injection H as <- <-.
    split; [lia|]. split; [exact Hlt|]. split; [exact Hi|]. split; [|reflexivity].
    intros j Hj. lia.
Qed.

Lemma gettemp_loop_first_free p n : forall i r,
  i <= r < i + n -> r < RISCV_REGISTER_COUNT ->
  in_use p !!! r = false ->
  (forall j, i <= j < r -> in_use p !!! j = true) ->
  gettemp_loop p i n = Ret (r, allocated p r).
Proof.
  induction n as [|n IH]; intros i r Hr Hlt Hfree Hbusy; simpl; [lia|].
  destruct (decide (r = i)) as [->|Hne].
  - rewrite Hfree. unfold riscv_program_do_restore_register.
    destruct (Nat.ltb_spec i RISCV_REGISTER_COUNT); [reflexivity|lia].
  - rewrite (Hbusy i) by lia. apply IH; auto; try lia.
    intros j Hj. apply Hbusy. lia.
Qed.

Lemma gettemp_loop_some_free p n : forall i,
  i + n <= RISCV_REGISTER_COUNT ->
  (exists r, i <= r < i + n /\ in_use p !!! r = false) ->
  returns (gettemp_loop p i n).
Proof.
  induction n as [|n IH]; intros i Hb (r & Hr & Hfree); simpl; [lia|].
  destruct (in_use p !!! i) eqn:Hi.
  - apply IH; [lia|]. exists r. split; [|exact Hfree].
    destruct (decide (r = i)) as [->|Hne]; [congruence|lia].
  - unfold riscv_program_do_restore_register.
    destruct (Nat.ltb_spec i RISCV_REGISTER_COUNT); [|lia].
    simpl. eexists. reflexivity.
Qed.

Lemma gettemp_loop_none_free p n : forall i,
  (forall j, i <= j < i + n -> in_use p !!! j = true) ->
  gettemp_loop p i n =
    Fatal "You've run out of temporary registers.  This is impossible.".
Proof.
  induction n as [|n IH]; intros i Hbusy; simpl; [reflexivity|].
  rewrite (Hbusy i) by lia. apply IH. intros j Hj. apply Hbusy. lia.
Qed.

Lemma allocated_in_use p r j :
  r < length (in_use p) ->
  in_use (allocated p r) !!! j = if decide (r = j) then true else in_use p !!! j.
Proof.
  intros Hlt. simpl. destruct (decide (r = j)) as [->|Hne].
  - apply list_lookup_total_insert_eq. exact Hlt.
  - apply list_lookup_total_insert_ne. exact Hne.
Qed.

Lemma allocated_writes_xreg p r j :
  r < length (writes_xreg p) ->
  writes_xreg (allocated p r) !!! j =
    if decide (r = j) then true else writes_xreg p !!! j.
Proof.
  intros Hlt. simpl. destruct (decide (r = j)) as [->|Hne].
  - apply list_lookup_total_insert_eq. exact Hlt.
  - apply list_lookup_total_insert_ne. exact Hne.
Qed.

(** C7: [riscv_program_gettemp] scans S0..XPR31 in ascending order and
    returns the first register that is not in use, marking it in use and
    dirtied and leaving every other flag alone.  So the register it returns
    was not in use, a second allocation right after it returns a different
    register, releasing the register and allocating again returns the same
    register, an allocation succeeds whenever some scratch register is
    free, and it is fatal when none is. *)
Theorem riscv_program_gettemp_first_free (p : riscv_program) :
  program_wf p ->
  (forall r p', riscv_program_gettemp p = Ret (r, p') ->
     GDB_REGNO_S0 <= r <= GDB_REGNO_XPR31 /\
     in_use p !!! r = false /\
     (forall j, GDB_REGNO_S0 <= j < r -> in_use p !!! j = true) /\
     in_use p' !!! r = true /\
     writes_xreg p' !!! r = true /\
     (forall j, j <> r ->
        in_use p' !!! j = in_use p !!! j /\
        writes_xreg p' !!! j = writes_xreg p !!! j) /\
     (forall r2 p2, riscv_program_gettemp p' = Ret (r2, p2) -> r2 <> r) /\
     (exists p1 p2,
        riscv_program_puttemp p' r = Ret p1 /\
        riscv_program_gettemp p1 = Ret (r, p2))) /\
  ((exists r, GDB_REGNO_S0 <= r <= GDB_REGNO_XPR31 /\ in_use p !!! r = false) ->
   returns (riscv_program_gettemp p)) /\
  ((forall r, GDB_REGNO_S0 <= r <= GDB_REGNO_XPR31 -> in_use p !!! r = true) ->
   riscv_program_gettemp p =
     Fatal "You've run out of temporary registers.  This is impossible.").
Proof.
  intros (Hb & Hw & Hu).
  unfold riscv_program_gettemp, GDB_REGNO_S0, GDB_REGNO_XPR31, GDB_REGNO_XPR0 in *.
  unfold RISCV_REGISTER_COUNT in *.
  split; [|split].
  - intros r p' H.
    apply gettemp_loop_Ret_inv in H as (Hr & Hlt & Hfree & Hbusy & ->).
    split; [lia|]. split; [exact Hfree|]. split; [exact Hbusy|].
    assert (Hru : r < length (in_use p)) by lia.
    assert (Hrw : r < length (writes_xreg p)) by lia.
    split; [rewrite allocated_in_use by exact Hru; rewrite decide_True; auto|].
    split; [rewrite allocated_writes_xreg by exact Hrw; rewrite decide_True; auto|].
    split; [|split].
    + intros j Hj. rewrite allocated_in_use, allocated_writes_xreg by assumption.
      rewrite !decide_False by congruence. auto.
    + intros r2 p2 H2.
      apply gettemp_loop_Ret_inv in H2 as (_ & _ & Hfree2 & _).
      intros ->. rewrite allocated_in_use, decide_True in Hfree2 by auto.
      discriminate.
    + unfold riscv_program_puttemp.
      destruct (Nat.ltb_spec r RISCV_REGISTER_COUNT); [|unfold RISCV_REGISTER_COUNT in *; lia].
      eexists. eexists. split; [reflexivity|].
      apply gettemp_loop_first_free; auto.
      * simpl. apply list_lookup_total_insert_eq. rewrite length_insert. exact Hru.
      * intros j Hj. simpl.
        rewrite !list_lookup_total_insert_ne by lia. apply Hbusy. exact Hj.
  - intros (r & Hr & Hfree). apply gettemp_loop_some_free.
    + unfold RISCV_REGISTER_COUNT. lia.
    + exists r. split; [lia|exact Hfree].
  - intros Hbusy. apply gettemp_loop_none_free. intros j Hj. apply Hbusy. lia.
Qed.

(** The theorem at the example program, where every scratch register is
    free. *)
Lemma riscv_program_gettemp_first_free_witness :
  program_wf example_program /\
  returns (riscv_program_gettemp example_program).
Proof.
  split; [exact example_program_wf|].
  apply (riscv_program_gettemp_first_free example_program example_program_wf).
  exists GDB_REGNO_S0. split; [vm_compute; lia|reflexivity].
Defined.

(** C6: the upper part of an address is the address shifted right by 12
    bits, arithmetically (the floor of the division by 4096, negative for a
    negative address); the lower part of a positive address is its low
    bitfield [a & 0x7FF] (the remainder modulo 2048), and the lower part of
    a non-positive address is 0. *)
Theorem riscv_program_gah_gal_split (p : riscv_program) (a : riscv_addr_t) :
  riscv_program_gah p a = Z.shiftr a 12 /\
  riscv_program_gah p a = (a / 4096)%Z /\
  ((a < 0)%Z -> (riscv_program_gah p a < 0)%Z) /\
  ((0 < a)%Z ->
     riscv_program_gal p a = Z.land a 0x7FF /\
     riscv_program_gal p a = (a mod 2048)%Z) /\
  ((a <= 0)%Z -> riscv_program_gal p a = 0%Z).
Proof.
  unfold riscv_program_gah, riscv_program_gal.
  assert (Hdiv : Z.shiftr a 12 = (a / 4096)%Z).
  { rewrite Z.shiftr_div_pow2 by lia. reflexivity. }
  split; [reflexivity|]. split; [exact Hdiv|]. split; [|split].
  - intros Hneg. rewrite Hdiv. apply Z.div_lt_upper_bound; lia.
  - intros Hpos. destruct (Z.ltb_spec 0 a); [|lia].
    split; [reflexivity|].
    change 0x7FF%Z with (Z.ones 11). rewrite Z.land_ones by lia. reflexivity.
  - intros Hle. destruct (Z.ltb_spec 0 a); [lia|reflexivity].
Qed.

(** The theorem at the address 0x2804: upper part 2, lower part 4. *)
Lemma riscv_program_gah_gal_split_witness :
  (0 < 0x2804)%Z /\
  riscv_program_gah example_program 0x2804 = 2%Z /\
  riscv_program_gal example_program 0x2804 = 4%Z.
Proof.
  destruct (riscv_program_gah_gal_split example_program 0x2804)
    as (Hup & _ & _ & Hpos & _).
  split; [lia|]. split; [rewrite Hup; reflexivity|].
  destruct Hpos as (Hlow & _); [lia|]. rewrite Hlow. reflexivity.
Defined.

(** ** What the operations preserve *)

Section Preservation.

(** A property of programs that the primitive steps preserve is
    preserved by every operation built from them. *)
Variable P : riscv_program -> Prop.
Hypothesis P_insert : forall p i rc p',
  P p -> riscv_program_insert p i = Ret (rc, p') -> P p'.
Hypothesis P_writes_memory : forall p b, P p -> P (set_writes_memory p b).
Hypothesis P_gettemp : forall p r p',
  P p -> riscv_program_gettemp p = Ret (r, p') -> P p'.
Hypothesis P_puttemp : forall p r p',
  P p -> riscv_program_puttemp p r = Ret p' -> P p'.
Hypothesis P_do_restore : forall p r rc p',
  P p -> riscv_program_do_restore_register p r = Ret (rc, p') -> P p'.

(** Carries [P] forward along the primitive calls in the context. *)
Ltac forward_primitives :=
  repeat match goal with
  | HP : P ?p, H : riscv_program_insert ?p _ = Ret (_, _) |- _ =>
      pose proof (P_insert _ _ _ _ HP H); clear H
  | HP : P ?p, H : riscv_program_insert (set_writes_memory ?p ?b) _ = Ret (_, _) |- _ =>
      pose proof (P_insert _ _ _ _ (P_writes_memory p b HP) H); clear H
  | HP : P ?p, H : riscv_program_gettemp ?p = Ret (_, _) |- _ =>
      pose proof (P_gettemp _ _ _ HP H); clear H
  | HP : P ?p, H : riscv_program_puttemp ?p _ = Ret _ |- _ =>
      pose proof (P_puttemp _ _ _ HP H); clear H
  | HP : P ?p, H : riscv_program_do_restore_register ?p _ = Ret (_, _) |- _ =>
      pose proof (P_do_restore _ _ _ _ HP H); clear H
  end;
  try assumption; try (apply P_writes_memory; assumption).

Lemma lah_preserves p d addr rc p' :
  P p -> riscv_program_lah p d addr = Ret (rc, p') -> P p'.
Proof.
  unfold riscv_program_lah, riscv_program_lui. intros HP H.
  outcome_inv; forward_primitives.
Qed.

Lemma store_base_preserves p addr t p' :
  P p -> store_base p addr = Ret (t, p') -> P p'.
Proof. unfold store_base. intros HP H. outcome_inv; forward_primitives. Qed.

Ltac forward_macros :=
  repeat match goal with
  | HP : P ?p, H : riscv_program_lah ?p _ _ = Ret (_, _) |- _ =>
      pose proof (lah_preserves _ _ _ _ _ HP H); clear H
  | HP : P ?p, H : store_base ?p _ = Ret (_, _) |- _ =>
      pose proof (store_base_preserves _ _ _ _ HP H); clear H
  | _ => progress forward_primitives
  end.

Lemma load_preserves w p d addr rc p' :
  P p -> riscv_program_load w p d addr = Ret (rc, p') -> P p'.
Proof.
  intros HP H.
  destruct w; simpl in H;
    unfold riscv_program_lb, riscv_program_lh, riscv_program_lw,
      riscv_program_ld in H;
    outcome_inv; forward_macros.
Qed.

Lemma store_preserves w p d addr rc p' :
  P p -> riscv_program_store w p d addr = Ret (rc, p') -> P p'.
Proof.
  intros HP H.
  destruct w; simpl in H;
    unfold riscv_program_sb, riscv_program_sh, riscv_program_sw,
      riscv_program_sd in H;
    outcome_inv; forward_macros.
Qed.

Lemma run_op_preserves o p p' :
  is_dont_restore o = false -> P p -> run_op o p = Ret p' -> P p'.
Proof.
  intros Ho HP H. destruct o; simpl in H; try discriminate Ho;
    unfold riscv_program_swr, riscv_program_shr, riscv_program_sbr,
      riscv_program_lwr, riscv_program_lhr, riscv_program_lbr,
      riscv_program_lx, riscv_program_sx, riscv_program_csrr,
      riscv_program_csrw, riscv_program_csrrw, riscv_program_fence_i,
      riscv_program_fence, riscv_program_ebreak, riscv_program_li,
      riscv_program_lal, riscv_program_lui, riscv_program_addi in H;
    outcome_inv;
    first
      [ forward_macros; fail
      | eapply load_preserves; eassumption
      | eapply store_preserves; eassumption
      | eapply (load_preserves Double); eassumption
      | eapply (load_preserves Word); eassumption
      | eapply (store_preserves Double); eassumption
      | eapply (store_preserves Word); eassumption ].
Qed.

Lemma run_ops_preserves l : forall p p',
  forallb (fun o => negb (is_dont_restore o)) l = true ->
  P p -> run_ops l p = Ret p' -> P p'.
Proof.
  induction l as [|o l IH]; intros p p' Hl HP H; simpl in *.
  - injection H as <-. exact HP.
  - apply andb_prop in Hl as [Ho Hl]. apply negb_true_iff in Ho.
    apply bind_Ret_inv in H as (p1 & E & H).
    eapply IH; [exact Hl| |exact H]. eapply run_op_preserves; eassumption.
Qed.

End Preservation.

(** *** The array sizes and the bound on the instruction count *)

Lemma shape_ok_insert p i rc p' :
  shape_ok p -> riscv_program_insert p i = Ret (rc, p') -> shape_ok p'.
Proof.
  intros ((Hb & Hw & Hu) & Hc) H.
  apply insert_Ret_inv in H as (_ & Hlt & _ & ->).
  unfold shape_ok, program_wf, count_within_capacity in *. simpl.
  rewrite length_insert. repeat split; auto.
Qed.

Lemma shape_ok_writes_memory p b : shape_ok p -> shape_ok (set_writes_memory p b).
Proof. intros H. exact H. Qed.

Lemma shape_ok_do_restore p r rc p' :
  shape_ok p -> riscv_program_do_restore_register p r = Ret (rc, p') -> shape_ok p'.
Proof.
  intros ((Hb & Hw & Hu) & Hc) H.
  apply do_restore_register_Ret_inv in H as (_ & _ & ->).
  unfold shape_ok, program_wf, count_within_capacity in *. simpl.
  rewrite length_insert. repeat split; auto.
Qed.

Lemma shape_ok_dont_restore p r rc p' :
  shape_ok p -> riscv_program_dont_restore_register p r = Ret (rc, p') -> shape_ok p'.
Proof.
  intros ((Hb & Hw & Hu) & Hc) H.
  apply dont_restore_register_Ret_inv in H as (_ & _ & ->).
  unfold shape_ok, program_wf, count_within_capacity in *. simpl.
  rewrite length_insert. repeat split; auto.
Qed.

Lemma shape_ok_gettemp p r p' :
  shape_ok p -> riscv_program_gettemp p = Ret (r, p') -> shape_ok p'.
Proof.
  intros ((Hb & Hw & Hu) & Hc) H.
  apply gettemp_loop_Ret_inv in H as (_ & _ & _ & _ & ->).
  unfold shape_ok, program_wf, count_within_capacity in *. simpl.
  rewrite !length_insert. repeat split; auto.
Qed.

Lemma shape_ok_puttemp p r p' :
  shape_ok p -> riscv_program_puttemp p r = Ret p' -> shape_ok p'.
Proof.
  intros ((Hb & Hw & Hu) & Hc) H.
  apply puttemp_Ret_inv in H as (_ & ->).
  unfold shape_ok, program_wf, count_within_capacity in *. simpl.
  rewrite length_insert. repeat split; auto.
Qed.

Lemma shape_ok_run_op o p p' :
  shape_ok p -> run_op o p = Ret p' -> shape_ok p'.
Proof.
  intros HP H. destruct (is_dont_restore o) eqn:Ho.
  - destruct o; try discriminate Ho. simpl in H.
    apply program_of_Ret_inv in H as (rc & H).
    eapply shape_ok_dont_restore; eassumption.
  - eapply (run_op_preserves shape_ok); eauto using shape_ok_insert,
      shape_ok_writes_memory, shape_ok_gettemp, shape_ok_puttemp,
      shape_ok_do_restore.
Qed.

Lemma shape_ok_run_ops l : forall p p',
  shape_ok p -> run_ops l p = Ret p' -> shape_ok p'.
Proof.
  induction l as [|o l IH]; intros p p' HP H; simpl in H.
  - injection H as <-. exact HP.
  - apply bind_Ret_inv in H as (p1 & E & H).
    eapply IH; [|exact H]. eapply shape_ok_run_op; eassumption.
Qed.

Lemma shape_ok_init t : shape_ok (snd (riscv_program_init t)).
Proof.
  unfold shape_ok, program_wf, count_within_capacity, riscv_program_init.
  cbn [snd debug_buffer writes_xreg in_use instruction_count].
  rewrite !length_replicate. repeat split; auto. lia.
Qed.

(** *** Allocation implies must-restore *)

Lemma allocation_ok_insert p i rc p' :
  allocation_ok p -> riscv_program_insert p i = Ret (rc, p') -> allocation_ok p'.
Proof.
  intros ((Hb & Hw & Hu) & Hinv) H.
  apply insert_Ret_inv in H as (_ & _ & _ & ->).
  unfold allocation_ok, program_wf, in_use_implies_dirtied in *. simpl.
  rewrite length_insert. repeat split; auto.
Qed.

Lemma allocation_ok_writes_memory p b :
  allocation_ok p -> allocation_ok (set_writes_memory p b).
Proof. intros H. exact H. Qed.

Lemma allocation_ok_do_restore p r rc p' :
  allocation_ok p -> riscv_program_do_restore_register p r = Ret (rc, p') ->
  allocation_ok p'.
Proof.
  intros ((Hb & Hw & Hu) & Hinv) H.
  apply do_restore_register_Ret_inv in H as (_ & Hr & ->).
  unfold allocation_ok, program_wf, in_use_implies_dirtied in *. simpl.
  rewrite length_insert. repeat split; auto.
  intros j Hj Hin. destruct (decide (r = j)) as [->|Hne].
  - apply list_lookup_total_insert_eq. lia.
  - rewrite list_lookup_total_insert_ne by exact Hne. auto.
Qed.

Lemma allocation_ok_gettemp p r p' :
  allocation_ok p -> riscv_program_gettemp p = Ret (r, p') -> allocation_ok p'.
Proof.
  intros ((Hb & Hw & Hu) & Hinv) H.
  apply gettemp_loop_Ret_inv in H as (_ & Hr & _ & _ & ->).
  unfold allocation_ok, program_wf, in_use_implies_dirtied in *.
  split; [simpl; rewrite !length_insert; auto|].
  intros j Hj. rewrite allocated_in_use, allocated_writes_xreg by lia.
  repeat case_decide; auto; congruence.
Qed.

Lemma allocation_ok_puttemp p r p' :
  allocation_ok p -> riscv_program_puttemp p r = Ret p' -> allocation_ok p'.
Proof.
  intros ((Hb & Hw & Hu) & Hinv) H.
  apply puttemp_Ret_inv in H as (Hr & ->).
  unfold allocation_ok, program_wf, in_use_implies_dirtied in *. simpl.
  rewrite length_insert. repeat split; auto.
  intros j Hj. destruct (decide (r = j)) as [->|Hne].
  - rewrite list_lookup_total_insert_eq by lia. discriminate.
  - rewrite list_lookup_total_insert_ne by exact Hne. auto.
Qed.

Lemma allocation_ok_init t : allocation_ok (snd (riscv_program_init t)).
Proof.
  unfold allocation_ok, program_wf, in_use_implies_dirtied, riscv_program_init.
  cbn [snd debug_buffer writes_xreg in_use].
  rewrite !length_replicate. repeat split; auto.
Qed.

(** ** The capacity of the buffer *)

(** Every emitter of one word is [riscv_program_insert] of that word (the
    register-offset accesses set [writes_memory] first, the CSR accesses
    check their assertion first). *)
Lemma single_word_emitters_insert p :
  riscv_program_fence p = riscv_program_insert p fence /\
  riscv_program_fence_i p = riscv_program_insert p fence_i /\
  (forall d u, riscv_program_lui p d u = riscv_program_insert p (lui d u)) /\
  (forall d s u, riscv_program_addi p d s u = riscv_program_insert p (addi d s u)) /\
  (forall d b o,
     riscv_program_swr p d b o = riscv_program_insert (set_writes_memory p true) (sw d b o) /\
     riscv_program_shr p d b o = riscv_program_insert (set_writes_memory p true) (sh d b o) /\
     riscv_program_sbr p d b o = riscv_program_insert (set_writes_memory p true) (sb d b o) /\
     riscv_program_lwr p d b o = riscv_program_insert (set_writes_memory p true) (lw d b o) /\
     riscv_program_lhr p d b o = riscv_program_insert (set_writes_memory p true) (lh d b o) /\
     riscv_program_lbr p d b o = riscv_program_insert (set_writes_memory p true) (lb d b o)) /\
  (forall d s csr, GDB_REGNO_CSR0 <= csr <= GDB_REGNO_CSR4095 ->
     riscv_program_csrr p d csr =
       riscv_program_insert p (csrrs d GDB_REGNO_X0 (csr - GDB_REGNO_CSR0)) /\
     riscv_program_csrw p s csr =
       riscv_program_insert p (csrrw GDB_REGNO_X0 s (csr - GDB_REGNO_CSR0)) /\
     riscv_program_csrrw p d s csr =
       riscv_program_insert p (csrrw d s (csr - GDB_REGNO_CSR0))).
Proof.
  repeat split; try reflexivity.
  - unfold riscv_program_csrr.
    destruct (Nat.leb_spec GDB_REGNO_CSR0 csr); [|lia].
    destruct (Nat.leb_spec csr GDB_REGNO_CSR4095); [reflexivity|lia].
  - unfold riscv_program_csrw.
    destruct (Nat.leb_spec GDB_REGNO_CSR0 csr); [reflexivity|lia].
  - unfold riscv_program_csrrw.
    destruct (Nat.leb_spec GDB_REGNO_CSR0 csr); [reflexivity|lia].
Qed.

(** C5: the emission of an instruction word has the precondition
    [instruction_count < capacity].  When it holds the word is stored at
    index [instruction_count], no other slot changes and the count grows by
    one, staying within the capacity; when the count has reached the
    capacity the emission is fatal.  Emitting exactly [capacity] words into
    a fresh program succeeds and one more word is fatal, and no sequence of
    operations takes the count above the capacity. *)
Theorem riscv_program_insert_capacity (p : riscv_program) (i : riscv_insn_t) :
  program_wf p -> target_wf (target p) ->
  (instruction_count p < riscv_debug_buffer_size (target p) ->
     exists p',
       riscv_program_insert p i = Ret (ERROR_OK, p') /\
       debug_buffer p' !! instruction_count p = Some i /\
       (forall j, j <> instruction_count p ->
          debug_buffer p' !! j = debug_buffer p !! j) /\
       instruction_count p' = S (instruction_count p) /\
       count_within_capacity p') /\
  (riscv_debug_buffer_size (target p) <= instruction_count p ->
     riscv_program_insert p i = Fatal "Unable to insert instruction:") /\
  (forall l, length l = riscv_debug_buffer_size (target p) ->
     (exists p',
        insert_all (snd (riscv_program_init (target p))) l = Ret p' /\
        instruction_count p' = riscv_debug_buffer_size (target p) /\
        (forall j, j < length l -> debug_buffer p' !! j = l !! j)) /\
     insert_all (snd (riscv_program_init (target p))) (l ++ [i]) =
       Fatal "Unable to insert instruction:") /\
  (forall ops p',
     count_within_capacity p -> run_ops ops p = Ret p' ->
     count_within_capacity p').
Proof.
  intros Hwf Ht. split; [|split; [|split]].
  - intros Hlt. eexists. split; [apply insert_below_capacity; assumption|].
    destruct Hwf as (Hb & _). unfold target_wf in Ht.
    unfold count_within_capacity. simpl.
    split; [apply list_lookup_insert_eq; lia|].
    split; [intros j Hj; apply list_lookup_insert_ne; congruence|].
    split; [reflexivity|lia].
  - apply insert_at_capacity.
  - intros l Hl.
    destruct (insert_all_fits l (snd (riscv_program_init (target p))))
      as (p' & Hrun & _ & Htg & Hcnt & Hnew & _).
    + apply shape_ok_init.
    + exact Ht.
    + simpl. lia.
    + simpl in Hcnt, Hnew, Htg. split.
      * exists p'. split; [exact Hrun|]. split; [lia|exact Hnew].
      * rewrite insert_all_app, Hrun. simpl.
        rewrite insert_at_capacity; [reflexivity|]. rewrite Htg. simpl. lia.
  - intros ops p' Hc H.
    apply (shape_ok_run_ops ops p p'); [split; assumption|exact H].
Qed.

(** The theorem at the example program: its first emission lands in slot 0. *)
Lemma riscv_program_insert_capacity_witness :
  program_wf example_program /\ target_wf (target example_program) /\
  exists p', riscv_program_insert example_program ebreak = Ret (ERROR_OK, p') /\
             instruction_count p' = 1.
Proof.
  split; [exact example_program_wf|]. split; [exact example_target_wf|].
  destruct (riscv_program_insert_capacity example_program ebreak
              example_program_wf example_target_wf) as (Hok & _).
  destruct Hok as (p' & Hrun & _ & _ & Hcnt & _); [vm_compute; lia|].
  exists p'. split; [exact Hrun|exact Hcnt].
Defined.

(** ** The invariant between [in_use] and [writes_xreg] *)

(** C8, as stated, fails: [riscv_program_dont_restore_register] clears the
    dirtied flag of a register that is in use.  A fresh program allocates
    S0, which is then in use and dirtied; opting S0 out of restoration
    leaves it in use and not dirtied. *)
Lemma dont_restore_register_breaks_in_use_implies_dirtied :
  exists p1 p2,
    run_op OpGettemp example_program = Ret p1 /\
    in_use_implies_dirtied p1 /\
    run_op (OpDontRestoreRegister GDB_REGNO_S0) p1 = Ret p2 /\
    in_use p2 !!! GDB_REGNO_S0 = true /\
    writes_xreg p2 !!! GDB_REGNO_S0 = false /\
    ~ in_use_implies_dirtied p2.
Proof.
  eexists. eexists. split; [reflexivity|]. split; [|split; [reflexivity|]].
  - eapply allocation_ok_gettemp; [apply allocation_ok_init|reflexivity].
  - split; [reflexivity|]. split; [reflexivity|].
    intros Hinv. specialize (Hinv GDB_REGNO_S0).
    assert (Hf : false = true); [|discriminate Hf].
    apply Hinv; [vm_compute; lia|reflexivity].
Qed.

(** C8, amended: a fresh program satisfies the invariant "in use implies
    dirtied", and every sequence of operations without
    [riscv_program_dont_restore_register] preserves it.
    [riscv_program_puttemp] clears [in_use] of the released register and
    leaves [writes_xreg] as it is, so an allocated and released register is
    dirtied without being in use. *)
Theorem in_use_implies_dirtied_preserved (ops : list op) (p p' : riscv_program) :
  program_wf p -> in_use_implies_dirtied p ->
  forallb (fun o => negb (is_dont_restore o)) ops = true ->
  run_ops ops p = Ret p' ->
  in_use_implies_dirtied (snd (riscv_program_init (target p))) /\
  in_use_implies_dirtied p' /\
  (forall r p'', riscv_program_puttemp p' r = Ret p'' ->
     in_use p'' !!! r = false /\
     writes_xreg p'' = writes_xreg p' /\
     in_use_implies_dirtied p'') /\
  (forall r p1 p2,
     riscv_program_gettemp p' = Ret (r, p1) ->
     riscv_program_puttemp p1 r = Ret p2 ->
     writes_xreg p2 !!! r = true /\ in_use p2 !!! r = false).
Proof.
  intros Hwf Hinv Hops Hrun.
  assert (Hok : allocation_ok p') .
  { apply (run_ops_preserves allocation_ok) with (l := ops) (p := p);
      eauto using allocation_ok_insert, allocation_ok_writes_memory,
        allocation_ok_gettemp, allocation_ok_puttemp, allocation_ok_do_restore.
    split; assumption. }
  split; [apply allocation_ok_init|]. split; [apply Hok|]. split.
  - intros r p'' Hput.
    pose proof (allocation_ok_puttemp _ _ _ Hok Hput) as (_ & Hinv'').
    apply puttemp_Ret_inv in Hput as (Hr & ->). simpl.
    split; [|split; [reflexivity|exact Hinv'']].
    apply list_lookup_total_insert_eq. destruct Hok as ((_ & _ & Hu) & _). lia.
  - intros r p1 p2 Hget Hput.
    apply gettemp_loop_Ret_inv in Hget as (_ & Hr & _ & _ & ->).
    apply puttemp_Ret_inv in Hput as (_ & ->). simpl.
    destruct Hok as ((_ & Hw & Hu) & _).
    split; apply list_lookup_total_insert_eq; rewrite ?length_insert; lia.
Qed.

(** The theorem at an allocation, a store through a scratch register and a
    release on the example program. *)
Lemma in_use_implies_dirtied_preserved_witness :
  program_wf example_program /\
  in_use_implies_dirtied example_program /\
  exists p',
    run_ops [OpGettemp; OpStore Word 5 0x2004%Z; OpPuttemp GDB_REGNO_S0]
      example_program = Ret p' /\
    in_use_implies_dirtied p'.
Proof.
  split; [exact example_program_wf|].
  split; [apply allocation_ok_init|].
  eexists. split; [reflexivity|].
  refine (proj1 (proj2 (in_use_implies_dirtied_preserved
    [OpGettemp; OpStore Word 5 0x2004%Z; OpPuttemp GDB_REGNO_S0]
    example_program _ example_program_wf _ _ _))).
  - apply allocation_ok_init.
  - reflexivity.
  - reflexivity.
Defined.

(** ** Return codes *)

Lemma insert_returns_ok p i rc p' :
  riscv_program_insert p i = Ret (rc, p') -> rc = ERROR_OK.
Proof. intros H. apply insert_Ret_inv in H as (-> & _). reflexivity. Qed.

Lemma lui_returns_ok p d u rc p' :
  riscv_program_lui p d u = Ret (rc, p') -> rc = ERROR_OK.
Proof. apply insert_returns_ok. Qed.

Lemma addi_returns_ok p d s u rc p' :
  riscv_program_addi p d s u = Ret (rc, p') -> rc = ERROR_OK.
Proof. apply insert_returns_ok. Qed.

Lemma lah_returns_ok p d addr rc p' :
  riscv_program_lah p d addr = Ret (rc, p') -> rc = ERROR_OK.
Proof.
  unfold riscv_program_lah. intros H. outcome_inv; [reflexivity|].
  eapply lui_returns_ok; eassumption.
Qed.

Lemma lal_returns_ok p d addr rc p' :
  riscv_program_lal p d addr = Ret (rc, p') -> rc = ERROR_OK.
Proof.
  unfold riscv_program_lal. intros H. outcome_inv; [reflexivity|].
  eapply addi_returns_ok; eassumption.
Qed.

Lemma ebreak_returns_ok p rc p' :
  riscv_program_ebreak p = Ret (rc, p') -> rc = ERROR_OK.
Proof.
  unfold riscv_program_ebreak. intros H. outcome_inv; [reflexivity|].
  eapply insert_returns_ok; eassumption.
Qed.

(** Closes a branch taken on a return code other than ERROR_OK when the
    call that produced the code is in the context. *)
Ltac failure_branch_dead :=
  match goal with
  | Hne : negb (?rc =? ERROR_OK)%Z = true |- _ =>
      let Hok := fresh "Hok" in
      assert (Hok : rc = ERROR_OK) by
        (first [ eapply insert_returns_ok; eassumption
               | eapply lui_returns_ok; eassumption
               | eapply addi_returns_ok; eassumption
               | eapply lah_returns_ok; eassumption
               | eapply ebreak_returns_ok; eassumption ]);
      rewrite Hok in Hne; discriminate Hne
  end.

Lemma li_returns_ok p d c rc p' :
  riscv_program_li p d c = Ret (rc, p') -> rc = ERROR_OK.
Proof.
  unfold riscv_program_li. intros H.
  outcome_inv; first [reflexivity | failure_branch_dead].
Qed.

Lemma load_returns_ok w p d addr rc p' :
  riscv_program_load w p d addr = Ret (rc, p') -> rc = ERROR_OK.
Proof.
  intros H.
  destruct w; simpl in H;
    unfold riscv_program_lb, riscv_program_lh, riscv_program_lw,
      riscv_program_ld in H;
    outcome_inv; first [reflexivity | failure_branch_dead].
Qed.

Lemma store_returns_ok w p d addr rc p' :
  riscv_program_store w p d addr = Ret (rc, p') -> rc = ERROR_OK.
Proof.
  intros H.
  destruct w; simpl in H;
    unfold riscv_program_sb, riscv_program_sh, riscv_program_sw,
      riscv_program_sd in H;
    outcome_inv; first [reflexivity | failure_branch_dead].
Qed.

Lemma ebreak_returns p :
  target_wf (target p) -> count_within_capacity p ->
  exists p', riscv_program_ebreak p = Ret (ERROR_OK, p').
Proof.
  unfold riscv_program_ebreak, count_within_capacity. intros Ht Hc.
  destruct (Nat.eqb_spec (instruction_count p) (riscv_debug_buffer_size (target p))).
  - eexists. reflexivity.
  - eexists. apply insert_below_capacity; [exact Ht|lia].
Qed.

Section ExecReturnCodes.

Variable hart : Type.
Variable get_register : hart -> gdb_regno -> riscv_reg_t * hart.
Variable set_register : hart -> gdb_regno -> riscv_reg_t -> hart.
Variable write_debug_buffer : hart -> nat -> riscv_insn_t -> Z * hart.
Variable execute_debug_buffer : hart -> Z * hart.
Variable read_debug_buffer : hart -> nat -> riscv_insn_t * hart.

Lemma readback_loop_not_fatal n : forall p t i msg,
  readback_loop hart read_debug_buffer p t i n <> Fatal msg.
Proof.
  induction n as [|n IH]; intros p t i msg; cbn [readback_loop]; [discriminate|].
  destruct (riscv_debug_buffer_size (target p) <=? i); [|apply IH].
  destruct (read_debug_buffer t i) as [w t1].
  destruct (RISCV_MAX_DEBUG_BUFFER_SIZE <=? i); [discriminate|].
  intros H. apply bind_Fatal_inv in H as [H|([[p' t2] tr] & _ & H)].
  - exact (IH _ _ _ _ H).
  - discriminate H.
Qed.

(** Every fatal exit of [riscv_program_exec] is the one of
    [riscv_program_insert]. *)
Lemma exec_Fatal_inv p t saved msg :
  riscv_program_exec get_register set_register write_debug_buffer
    execute_debug_buffer read_debug_buffer p t saved = Fatal msg ->
  msg = "Unable to insert instruction:"%string.
Proof.
  unfold riscv_program_exec.
  destruct (save_loop _ _ _ _ _ _ _) as [[saved' t1] tr_save].
  intros H. apply bind_Fatal_inv in H as [H|([rc p1] & E1 & H)].
  - revert H. destruct (writes_memory p); intros H; [|discriminate H].
    apply insert_Fatal_inv in H as (-> & _). reflexivity.
  - assert (Hrc : rc = ERROR_OK).
    { revert E1. destruct (writes_memory p); intros E1.
      - eapply insert_returns_ok; exact E1.
      - injection E1 as <- _. reflexivity. }
    subst rc. cbv beta iota in H. rewrite guard_ok in H.
    apply bind_Fatal_inv in H as [H|([rc p2] & E2 & H)].
    + revert H. unfold riscv_program_ebreak.
      destruct (instruction_count p1 =? _); intros H; [discriminate H|].
      apply insert_Fatal_inv in H as (-> & _). reflexivity.
    + apply ebreak_returns_ok in E2 as ->.
      cbv beta iota in H. rewrite guard_ok in H. revert H.
      destruct (riscv_program_write _ p2 t1) as [[rc t2] tr_write].
      destruct (negb (rc =? ERROR_OK)%Z); [discriminate|].
      destruct (execute_debug_buffer t2) as [rc' t3].
      destruct (negb (rc' =? ERROR_OK)%Z); [discriminate|].
      intros H. apply bind_Fatal_inv in H as [H|([[p3 t4] tr_read] & _ & H)].
      * exfalso. exact (readback_loop_not_fatal _ _ _ _ _ H).
      * revert H. destruct (restore_loop _ _ _ _ _ _ _) as [t5 tr_restore].
        discriminate.
Qed.

End ExecReturnCodes.

(** C9: [riscv_program_insert] never returns a failure: on a program of a
    well-formed target it is either fatal or appends the word and returns
    ERROR_OK.  Hence the calls whose result the emitters compare with
    ERROR_OK ([riscv_program_insert], [riscv_program_lui],
    [riscv_program_addi], [riscv_program_lah]) only ever return ERROR_OK,
    no emitter returns anything else, [riscv_program_ebreak] returns
    ERROR_OK whenever the count is within the capacity, and
    [riscv_program_exec] never takes the exit "Unable to write ebreak" (nor
    "Unable to write fence"), whatever the target does. *)
Theorem riscv_program_insert_never_fails :
  (forall p i rc p', riscv_program_insert p i = Ret (rc, p') -> rc = ERROR_OK) /\
  (forall p i, target_wf (target p) ->
     riscv_program_insert p i = Fatal "Unable to insert instruction:" \/
     exists p', riscv_program_insert p i = Ret (ERROR_OK, p') /\
                debug_buffer p' = <[instruction_count p := i]> (debug_buffer p) /\
                instruction_count p' = S (instruction_count p)) /\
  (forall p d u rc p', riscv_program_lui p d u = Ret (rc, p') -> rc = ERROR_OK) /\
  (forall p d s u rc p', riscv_program_addi p d s u = Ret (rc, p') -> rc = ERROR_OK) /\
  (forall p d addr rc p', riscv_program_lah p d addr = Ret (rc, p') -> rc = ERROR_OK) /\
  (forall p d c rc p', riscv_program_li p d c = Ret (rc, p') -> rc = ERROR_OK) /\
  (forall w p d addr rc p',
     riscv_program_load w p d addr = Ret (rc, p') -> rc = ERROR_OK) /\
  (forall w p d addr rc p',
     riscv_program_store w p d addr = Ret (rc, p') -> rc = ERROR_OK) /\
  (forall p rc p', riscv_program_ebreak p = Ret (rc, p') -> rc = ERROR_OK) /\
  (forall p, target_wf (target p) -> count_within_capacity p ->
     exists p', riscv_program_ebreak p = Ret (ERROR_OK, p')) /\
  (forall (hart : Type) get_register set_register write_debug_buffer
          execute_debug_buffer read_debug_buffer p (t : hart) saved,
     riscv_program_exec get_register set_register write_debug_buffer
       execute_debug_buffer read_debug_buffer p t saved
       <> Fatal "Unable to write ebreak" /\
     riscv_program_exec get_register set_register write_debug_buffer
       execute_debug_buffer read_debug_buffer p t saved
       <> Fatal "Unable to write fence").
Proof.
  split; [exact insert_returns_ok|].
  split.
  { intros p i Ht.
    destruct (Nat.le_gt_cases (riscv_debug_buffer_size (target p)) (instruction_count p)).
    - left. apply insert_at_capacity. assumption.
    - right. eexists. split; [apply insert_below_capacity; assumption|].
      split; reflexivity. }
  split; [exact lui_returns_ok|]. split; [exact addi_returns_ok|].
  split; [exact lah_returns_ok|]. split; [exact li_returns_ok|].
  split; [exact load_returns_ok|]. split; [exact store_returns_ok|].
  split; [exact ebreak_returns_ok|]. split; [exact ebreak_returns|].
  intros hart g s w e r p t saved.
  split; intros H; apply exec_Fatal_inv in H; discriminate H.
Qed.

(** The theorem at the example program: the breakpoint is emitted. *)
Lemma riscv_program_insert_never_fails_witness :
  target_wf (target example_program) /\
  count_within_capacity example_program /\
  exists p', riscv_program_ebreak example_program = Ret (ERROR_OK, p').
Proof.
  pose proof riscv_program_insert_never_fails
    as (_ & _ & _ & _ & _ & _ & _ & _ & _ & Hebreak & _).
  split; [exact example_target_wf|].
  split; [apply shape_ok_init|].
  apply Hebreak; [exact example_target_wf|apply shape_ok_init].
Defined.

(** ** Address-relative loads and stores *)

Lemma load_is_code_shape w p d addr :
  riscv_program_load w p d addr = load_code_shape (load_insn w) p d addr.
Proof.
  destruct w; try reflexivity. simpl.
  unfold riscv_program_lb, load_code_shape, riscv_program_lah.
  destruct (riscv_program_gah p addr =? 0)%Z; reflexivity.
Qed.

Lemma store_is_code_shape w p d addr :
  riscv_program_store w p d addr = store_code_shape (store_insn w) p d addr.
Proof. destruct w; reflexivity. Qed.

Lemma insert_appended p i :
  target_wf (target p) ->
  instruction_count p < riscv_debug_buffer_size (target p) ->
  riscv_program_insert p i = Ret (ERROR_OK, appended p i).
Proof. apply insert_below_capacity. Qed.

Lemma appended_lookup p i j :
  program_wf p -> instruction_count p < RISCV_MAX_DEBUG_BUFFER_SIZE ->
  debug_buffer (appended p i) !! j =
    if decide (j = instruction_count p) then Some i else debug_buffer p !! j.
Proof.
  intros (Hb & _) Hlt. simpl. case_decide as Hj.
  - subst j. apply list_lookup_insert_eq. lia.
  - apply list_lookup_insert_ne. congruence.
Qed.

Lemma appended_wf p i : program_wf p -> program_wf (appended p i).
Proof.
  intros (Hb & Hw & Hu). unfold program_wf. simpl. rewrite length_insert. auto.
Qed.

Lemma lah_upper_zero p d addr :
  riscv_program_gah p addr = 0%Z -> riscv_program_lah p d addr = Ret (ERROR_OK, p).
Proof. unfold riscv_program_lah. intros ->. reflexivity. Qed.

Lemma lah_upper_nonzero p d addr :
  riscv_program_gah p addr <> 0%Z ->
  riscv_program_lah p d addr =
    riscv_program_insert p (lui d (to_int32 (riscv_program_gah p addr))).
Proof.
  unfold riscv_program_lah, riscv_program_lui. intros Hne.
  destruct (Z.eqb_spec (riscv_program_gah p addr) 0); [contradiction|reflexivity].
Qed.

(** C10: [riscv_program_lb], which hands [t] to [riscv_program_lah], is the
    same function as the code shape of its siblings, which hand it [d]:
    when the upper part is not zero [t] is [d], and when it is zero
    [riscv_program_lah] emits nothing whatever register it is given.  The
    three siblings are that code shape by definition. *)
Theorem riscv_program_lb_same_as_siblings (p : riscv_program) (d : gdb_regno)
  (addr : riscv_addr_t) :
  riscv_program_lb p d addr = load_code_shape lb p d addr /\
  riscv_program_lw p d addr = load_code_shape lw p d addr /\
  riscv_program_lh p d addr = load_code_shape lh p d addr /\
  riscv_program_ld p d addr = load_code_shape ld p d addr /\
  (if (riscv_program_gah p addr =? 0)%Z
   then forall r, riscv_program_lah p r addr = Ret (ERROR_OK, p)
   else (if (riscv_program_gah p addr =? 0)%Z then GDB_REGNO_X0 else d) = d).
Proof.
  split; [exact (load_is_code_shape Byte p d addr)|].
  split; [reflexivity|]. split; [reflexivity|]. split; [reflexivity|].
  destruct (Z.eqb_spec (riscv_program_gah p addr) 0) as [Hz|Hnz].
  - intros r. apply lah_upper_zero. exact Hz.
  - reflexivity.
Qed.

(** Runs a bind whose first call has been rewritten to its result, and
    passes the comparison of ERROR_OK with ERROR_OK. *)
Ltac run_bind := cbn [mbind outcome_bind]; cbv beta iota; rewrite ?guard_ok.

(** The address-relative load: one word when the upper part is zero, a
    [lui] and the access otherwise. *)
Lemma load_code_shape_upper_zero enc p d addr :
  target_wf (target p) ->
  riscv_program_gah p addr = 0%Z ->
  instruction_count p < riscv_debug_buffer_size (target p) ->
  load_code_shape enc p d addr =
    Ret (ERROR_OK, appended p (enc d GDB_REGNO_X0 (riscv_program_gal p addr))).
Proof.
  intros Ht Hz Hlt. unfold load_code_shape.
  rewrite lah_upper_zero by exact Hz. rewrite Hz. run_bind.
  rewrite insert_appended by assumption. run_bind. reflexivity.
Qed.

Lemma load_code_shape_upper_nonzero enc p d addr :
  target_wf (target p) ->
  riscv_program_gah p addr <> 0%Z ->
  instruction_count p + 2 <= riscv_debug_buffer_size (target p) ->
  load_code_shape enc p d addr =
    Ret (ERROR_OK,
         appended (appended p (lui d (to_int32 (riscv_program_gah p addr))))
           (enc d d (riscv_program_gal p addr))).
Proof.
  intros Ht Hnz Hlt. unfold load_code_shape.
  rewrite lah_upper_nonzero by exact Hnz.
  destruct (Z.eqb_spec (riscv_program_gah p addr) 0) as [Hz|_]; [contradiction|].
  rewrite insert_appended by (auto; lia). run_bind.
  rewrite insert_appended by (auto; simpl; lia). run_bind. reflexivity.
Qed.

Lemma store_code_shape_upper_zero enc p d addr :
  target_wf (target p) ->
  riscv_program_gah p addr = 0%Z ->
  instruction_count p < riscv_debug_buffer_size (target p) ->
  store_code_shape enc p d addr =
    Ret (ERROR_OK,
         set_writes_memory
           (set_in_use
              (appended p (enc d GDB_REGNO_X0 (riscv_program_gal p addr)))
              (<[GDB_REGNO_X0 := false]> (in_use p)))
           true).
Proof.
  intros Ht Hz Hlt. unfold store_code_shape, store_base.
  rewrite Hz. cbn [Z.eqb]. run_bind.
  rewrite lah_upper_zero by exact Hz. run_bind.
  rewrite insert_appended by assumption. run_bind. reflexivity.
Qed.

Lemma store_code_shape_upper_nonzero enc p d addr t :
  target_wf (target p) ->
  riscv_program_gah p addr <> 0%Z ->
  instruction_count p + 2 <= riscv_debug_buffer_size (target p) ->
  riscv_program_gettemp p = Ret (t, allocated p t) ->
  store_code_shape enc p d addr =
    Ret (ERROR_OK,
         set_writes_memory
           (set_in_use
              (appended
                 (appended (allocated p t)
                    (lui t (to_int32 (riscv_program_gah p addr))))
                 (enc d t (riscv_program_gal p addr)))
              (<[t := false]> (<[t := true]> (in_use p))))
           true).
Proof.
  intros Ht Hnz Hlt Hget. unfold store_code_shape, store_base.
  destruct (Z.eqb_spec (riscv_program_gah p addr) 0) as [Hz|_]; [contradiction|].
  rewrite Hget. run_bind.
  assert (Hlt' : t < RISCV_REGISTER_COUNT).
  { apply gettemp_loop_Ret_inv in Hget. tauto. }
  rewrite lah_upper_nonzero by exact Hnz.
  rewrite insert_appended by (auto; simpl; lia). run_bind.
  rewrite insert_appended by (auto; simpl; lia). run_bind.
  unfold riscv_program_puttemp.
  destruct (Nat.ltb_spec t RISCV_REGISTER_COUNT); [reflexivity|lia].
Qed.

Lemma allocated_wf p r : program_wf p -> program_wf (allocated p r).
Proof.
  intros (Hb & Hw & Hu). unfold program_wf. simpl. rewrite !length_insert. auto.
Qed.

(** The buffer after one and after two emissions. *)
Lemma appended_buffer p i :
  program_wf p -> target_wf (target p) ->
  instruction_count p < riscv_debug_buffer_size (target p) ->
  debug_buffer (appended p i) !! instruction_count p = Some i /\
  (forall j, j <> instruction_count p ->
     debug_buffer (appended p i) !! j = debug_buffer p !! j).
Proof.
  intros Hwf Ht Hlt. unfold target_wf in Ht. split.
  - rewrite appended_lookup by (auto; lia). rewrite decide_True; auto.
  - intros j Hj. rewrite appended_lookup by (auto; lia).
    rewrite decide_False; auto.
Qed.

Lemma appended_twice_buffer p i1 i2 :
  program_wf p -> target_wf (target p) ->
  instruction_count p + 2 <= riscv_debug_buffer_size (target p) ->
  debug_buffer (appended (appended p i1) i2) !! instruction_count p = Some i1 /\
  debug_buffer (appended (appended p i1) i2) !! (instruction_count p + 1) = Some i2 /\
  (forall j, j <> instruction_count p -> j <> instruction_count p + 1 ->
     debug_buffer (appended (appended p i1) i2) !! j = debug_buffer p !! j).
Proof.
  intros Hwf Ht Hlt.
  destruct (appended_buffer p i1 Hwf Ht) as (H1 & H1'); [lia|].
  destruct (appended_buffer (appended p i1) i2) as (H2 & H2');
    [apply appended_wf; exact Hwf|exact Ht|simpl; lia|].
  cbn [instruction_count appended set_instruction_count set_debug_buffer] in H2, H2'.
  split; [|split].
  - rewrite H2' by lia. exact H1.
  - rewrite Nat.add_1_r. exact H2.
  - intros j Hj1 Hj2. rewrite H2' by lia. apply H1'. exact Hj1.
Qed.

(** C4, as stated, fails: the address 0x800 has upper part 0, and the
    one instruction [riscv_program_lw] emits for it has displacement
    [0x800 & 0x7FF = 0], not the raw address. *)
Lemma riscv_program_lw_displacement_is_not_the_raw_address :
  riscv_program_gah example_program 0x800 = 0%Z /\
  exists p',
    riscv_program_lw example_program 5 0x800 = Ret (ERROR_OK, p') /\
    instruction_count p' = 1 /\
    debug_buffer p' !! 0 = Some (lw 5 GDB_REGNO_X0 0) /\
    debug_buffer p' !! 0 <> Some (lw 5 GDB_REGNO_X0 0x800).
Proof.
  split; [reflexivity|]. eexists. split; [reflexivity|].
  split; [reflexivity|]. split; [reflexivity|]. discriminate.
Qed.

(** C4, amended: when the upper part of the address is zero, an
    address-relative load or store emits exactly one instruction, with X0
    as base and the lower part [lower(a)] as displacement, which is the
    raw address for [0 <= a < 0x800]; when it is not zero, it emits exactly
    two, a [lui] of the upper part (converted to 32 bits) into [d] for a
    load, into the scratch register the allocator returns for a store,
    followed by the access with that register as base and the lower part as
    displacement.  The store releases its scratch register, which stays
    dirtied, and is fatal when the allocator is. *)
Theorem address_relative_access_shape (w : width) (p : riscv_program)
  (d : gdb_regno) (a : riscv_addr_t) :
  program_wf p -> target_wf (target p) ->
  (riscv_program_gah p a = 0%Z ->
   instruction_count p < riscv_debug_buffer_size (target p) ->
     ((0 <= a < 0x800)%Z -> riscv_program_gal p a = a) /\
     (exists p',
        riscv_program_load w p d a = Ret (ERROR_OK, p') /\
        instruction_count p' = instruction_count p + 1 /\
        debug_buffer p' !! instruction_count p =
          Some (load_insn w d GDB_REGNO_X0 (riscv_program_gal p a)) /\
        (forall j, j <> instruction_count p ->
           debug_buffer p' !! j = debug_buffer p !! j)) /\
     (exists p',
        riscv_program_store w p d a = Ret (ERROR_OK, p') /\
        instruction_count p' = instruction_count p + 1 /\
        debug_buffer p' !! instruction_count p =
          Some (store_insn w d GDB_REGNO_X0 (riscv_program_gal p a)) /\
        (forall j, j <> instruction_count p ->
           debug_buffer p' !! j = debug_buffer p !! j))) /\
  (riscv_program_gah p a <> 0%Z ->
   instruction_count p + 2 <= riscv_debug_buffer_size (target p) ->
     (exists p',
        riscv_program_load w p d a = Ret (ERROR_OK, p') /\
        instruction_count p' = instruction_count p + 2 /\
        debug_buffer p' !! instruction_count p =
          Some (lui d (to_int32 (riscv_program_gah p a))) /\
        debug_buffer p' !! (instruction_count p + 1) =
          Some (load_insn w d d (riscv_program_gal p a)) /\
        (forall j, j <> instruction_count p -> j <> instruction_count p + 1 ->
           debug_buffer p' !! j = debug_buffer p !! j)) /\
     (forall t p0, riscv_program_gettemp p = Ret (t, p0) ->
        in_use p !!! t = false /\
        exists p',
          riscv_program_store w p d a = Ret (ERROR_OK, p') /\
          instruction_count p' = instruction_count p + 2 /\
          debug_buffer p' !! instruction_count p =
            Some (lui t (to_int32 (riscv_program_gah p a))) /\
          debug_buffer p' !! (instruction_count p + 1) =
            Some (store_insn w d t (riscv_program_gal p a)) /\
          (forall j, j <> instruction_count p -> j <> instruction_count p + 1 ->
             debug_buffer p' !! j = debug_buffer p !! j) /\
          in_use p' !!! t = false /\
          writes_xreg p' !!! t = true) /\
     (forall msg, riscv_program_gettemp p = Fatal msg ->
        riscv_program_store w p d a = Fatal msg)).
Proof.
  intros Hwf Ht. split.
  - intros Hz Hlt. split; [|split].
    + intros Ha. unfold riscv_program_gal.
      destruct (Z.ltb_spec 0 a); [|lia].
      change 0x7FF%Z with (Z.ones 11). rewrite Z.land_ones by lia.
      apply Z.mod_small. lia.
    + eexists. split.
      { rewrite load_is_code_shape. apply load_code_shape_upper_zero; assumption. }
      split; [simpl; lia|]. apply appended_buffer; assumption.
    + eexists. split.
      { rewrite store_is_code_shape. apply store_code_shape_upper_zero; assumption. }
      split; [simpl; lia|].
      cbn [debug_buffer set_writes_memory set_in_use].
      apply appended_buffer; assumption.
  - intros Hnz Hlt. split; [|split].
    + eexists. split.
      { rewrite load_is_code_shape. apply load_code_shape_upper_nonzero; assumption. }
      split; [simpl; lia|]. apply appended_twice_buffer; assumption.
    + intros t p0 Hget.
      pose proof Hget as Hget'.
      apply gettemp_loop_Ret_inv in Hget' as (_ & Hr & Hfree & _ & ->).
      split; [exact Hfree|]. eexists. split.
      { rewrite store_is_code_shape.
        apply (store_code_shape_upper_nonzero _ _ _ _ t); assumption. }
      split; [simpl; lia|].
      cbn [debug_buffer set_writes_memory set_in_use].
      destruct (appended_twice_buffer (allocated p t)
                  (lui t (to_int32 (riscv_program_gah p a)))
                  (store_insn w d t (riscv_program_gal p a)))
        as (H1 & H2 & H3); [apply allocated_wf; exact Hwf|exact Ht|exact Hlt|].
      split; [exact H1|]. split; [exact H2|]. split; [exact H3|].
      destruct Hwf as (_ & Hw & Hu).
      split; simpl; apply list_lookup_total_insert_eq; rewrite ?length_insert; lia.
    + intros msg Hget. rewrite store_is_code_shape.
      unfold store_code_shape, store_base.
      destruct (Z.eqb_spec (riscv_program_gah p a) 0) as [Hz|_]; [contradiction|].
      rewrite Hget. reflexivity.
Qed.

(** The theorem at the word load of address 0x2004 into x5. *)
Lemma address_relative_access_shape_witness :
  program_wf example_program /\ target_wf (target example_program) /\
  exists p',
    riscv_program_load Word example_program 5 0x2004 = Ret (ERROR_OK, p') /\
    instruction_count p' = 2 /\
    debug_buffer p' !! 0 = Some (lui 5 2) /\
    debug_buffer p' !! 1 = Some (lw 5 5 4).
Proof.
  split; [exact example_program_wf|]. split; [exact example_target_wf|].
  destruct (address_relative_access_shape Word example_program 5 0x2004
              example_program_wf example_target_wf) as (_ & Hnz).
  destruct Hnz as ((p' & Hrun & Hcnt & H0 & H1 & _) & _);
    [vm_compute; discriminate|vm_compute; lia|].
  exists p'. split; [exact Hrun|]. split; [exact Hcnt|].
  split; [exact H0|exact H1].
Defined.

(** ** The [writes_memory] flag *)

Lemma insert_writes_memory p i rc p' :
  riscv_program_insert p i = Ret (rc, p') -> writes_memory p' = writes_memory p.
Proof. intros H. apply insert_Ret_inv in H as (_ & _ & _ & ->). reflexivity. Qed.

Lemma lah_writes_memory p d addr rc p' :
  riscv_program_lah p d addr = Ret (rc, p') -> writes_memory p' = writes_memory p.
Proof.
  unfold riscv_program_lah, riscv_program_lui. intros H.
  outcome_inv; [reflexivity|]. eapply insert_writes_memory; eassumption.
Qed.

(** The address-relative loads leave the flag alone. *)
Lemma load_keeps_writes_memory w p d addr rc p' :
  riscv_program_load w p d addr = Ret (rc, p') ->
  writes_memory p' = writes_memory p.
Proof.
  rewrite load_is_code_shape. unfold load_code_shape. intros H.
  outcome_inv; try failure_branch_dead.
  match goal with
  | H1 : riscv_program_lah _ _ _ = Ret _, H2 : riscv_program_insert _ _ = Ret _ |- _ =>
      apply lah_writes_memory in H1; apply insert_writes_memory in H2; congruence
  end.
Qed.

Lemma lx_keeps_writes_memory p d addr rc p' :
  riscv_program_lx p d addr = Ret (rc, p') -> writes_memory p' = writes_memory p.
Proof.
  unfold riscv_program_lx. intros H. outcome_inv.
  - exact (load_keeps_writes_memory Double _ _ _ _ _ H).
  - exact (load_keeps_writes_memory Word _ _ _ _ _ H).
Qed.

(** Every store sets it. *)
Lemma store_sets_writes_memory w p d addr rc p' :
  riscv_program_store w p d addr = Ret (rc, p') -> writes_memory p' = true.
Proof.
  rewrite store_is_code_shape. unfold store_code_shape. intros H.
  outcome_inv; try failure_branch_dead. reflexivity.
Qed.

Lemma sx_sets_writes_memory p d addr rc p' :
  riscv_program_sx p d addr = Ret (rc, p') -> writes_memory p' = true.
Proof.
  unfold riscv_program_sx. intros H. outcome_inv.
  - exact (store_sets_writes_memory Double _ _ _ _ _ H).
  - exact (store_sets_writes_memory Word _ _ _ _ _ H).
Qed.

Lemma register_offset_store_sets_writes_memory p d b offset rc p' :
  riscv_program_swr p d b offset = Ret (rc, p') \/
  riscv_program_shr p d b offset = Ret (rc, p') \/
  riscv_program_sbr p d b offset = Ret (rc, p') ->
  writes_memory p' = true.
Proof.
  unfold riscv_program_swr, riscv_program_shr, riscv_program_sbr.
  intros [H|[H|H]]; apply insert_writes_memory in H; exact H.
Qed.

(** So does every register-offset load. *)
Lemma register_offset_load_sets_writes_memory p d b offset rc p' :
  riscv_program_lwr p d b offset = Ret (rc, p') \/
  riscv_program_lhr p d b offset = Ret (rc, p') \/
  riscv_program_lbr p d b offset = Ret (rc, p') ->
  writes_memory p' = true.
Proof.
  unfold riscv_program_lwr, riscv_program_lhr, riscv_program_lbr.
  intros [H|[H|H]]; apply insert_writes_memory in H; exact H.
Qed.

(** C2: the claim that no load emission sets [writes_memory] fails on
    the register-offset loads.  On a fresh program, whose flag is clear,
    [riscv_program_lwr], [riscv_program_lhr] and [riscv_program_lbr] each
    return with the flag set, as the register-offset stores do; the
    address-relative load of the same width leaves it clear. *)
Theorem register_offset_loads_set_writes_memory :
  writes_memory example_program = false /\
  (exists p', riscv_program_lwr example_program 5 6 0 = Ret (ERROR_OK, p') /\
              debug_buffer p' !! 0 = Some (lw 5 6 0) /\
              writes_memory p' = true) /\
  (exists p', riscv_program_lhr example_program 5 6 0 = Ret (ERROR_OK, p') /\
              debug_buffer p' !! 0 = Some (lh 5 6 0) /\
              writes_memory p' = true) /\
  (exists p', riscv_program_lbr example_program 5 6 0 = Ret (ERROR_OK, p') /\
              debug_buffer p' !! 0 = Some (lb 5 6 0) /\
              writes_memory p' = true) /\
  (exists p', riscv_program_swr example_program 5 6 0 = Ret (ERROR_OK, p') /\
              writes_memory p' = true) /\
  (exists p', riscv_program_lw example_program 5 0x10 = Ret (ERROR_OK, p') /\
              debug_buffer p' !! 0 = Some (lw 5 GDB_REGNO_X0 0x10) /\
              writes_memory p' = false).
Proof.
  split; [reflexivity|].
  repeat split; eexists; (split; [reflexivity|]); repeat split; reflexivity.
Qed.

(** ** Execution *)

Lemma omap_map_none {A B C : Type} (f : B -> option C) (g : A -> B) (l : list A) :
  (forall x, f (g x) = None) -> omap f (map g l) = [].
Proof.
  intros Hf. induction l as [|x l IH]; [reflexivity|].
  cbn [map]. cbn. rewrite Hf. exact IH.
Qed.

Lemma omap_map_some {A B C : Type} (f : B -> option C) (g : A -> B) (h : A -> C)
  (l : list A) :
  (forall x, f (g x) = Some (h x)) -> omap f (map g l) = map h l.
Proof.
  intros Hf. induction l as [|x l IH]; [reflexivity|].
  cbn [map]. cbn. rewrite Hf. cbn. f_equal. exact IH.
Qed.

Lemma insert_writes_xreg p i rc p' :
  riscv_program_insert p i = Ret (rc, p') ->
  writes_xreg p' = writes_xreg p /\ in_use p' = in_use p.
Proof.
  intros H. apply insert_Ret_inv in H as (_ & _ & _ & ->). split; reflexivity.
Qed.

Lemma ebreak_writes_xreg p rc p' :
  riscv_program_ebreak p = Ret (rc, p') ->
  writes_xreg p' = writes_xreg p /\ in_use p' = in_use p.
Proof.
  unfold riscv_program_ebreak. intros H. outcome_inv; [split; reflexivity|].
  eapply insert_writes_xreg; eassumption.
Qed.

Lemma dirtied_between_ext p p' i n :
  writes_xreg p' = writes_xreg p -> dirtied_between p' i n = dirtied_between p i n.
Proof. unfold dirtied_between. intros ->. reflexivity. Qed.

Lemma dirtied_between_S p i n :
  dirtied_between p i (S n) =
    (if (writes_xreg p !!! i : bool) then [i] else []) ++ dirtied_between p (S i) n.
Proof.
  unfold dirtied_between. cbn [seq List.filter].
  destruct (writes_xreg p !!! i); reflexivity.
Qed.

Section ExecProperties.

Variable hart : Type.
Variable get_register : hart -> gdb_regno -> riscv_reg_t * hart.
Variable set_register : hart -> gdb_regno -> riscv_reg_t -> hart.
Variable write_debug_buffer : hart -> nat -> riscv_insn_t -> Z * hart.
Variable execute_debug_buffer : hart -> Z * hart.
Variable read_debug_buffer : hart -> nat -> riscv_insn_t * hart.

(** The guard of the read-back loop is the negation of the loop
    condition: no slot is read. *)
Lemma readback_loop_reads_nothing n : forall p t i,
  i + n <= riscv_debug_buffer_size (target p) ->
  readback_loop hart read_debug_buffer p t i n = Ret (p, t, []).
Proof.
  induction n as [|n IH]; intros p t i Hle; cbn [readback_loop]; [reflexivity|].
  destruct (Nat.leb_spec (riscv_debug_buffer_size (target p)) i); [lia|].
  apply IH. lia.
Qed.

(** The save loop reads the dirtied registers in ascending order and
    leaves each value in its slot of [saved_registers]. *)
Lemma save_loop_spec p n : forall t saved i saved' t' tr,
  i + n <= length saved ->
  save_loop hart get_register p t saved i n = (saved', t', tr) ->
  tr = map (fun j => EvGetRegister j (saved' !!! j)) (dirtied_between p i n) /\
  length saved' = length saved /\
  (forall j, j < i -> saved' !!! j = saved !!! j).
Proof.
  induction n as [|n IH]; intros t saved i saved' t' tr Hlen H.
  - cbn [save_loop] in H. injection H as <- <- <-. auto.
  - cbn [save_loop] in H. rewrite dirtied_between_S.
    destruct (writes_xreg p !!! i : bool).
    + destruct (get_register t i) as [v t1].
      destruct (save_loop hart get_register p t1 (<[i:=v]> saved) (S i) n)
        as [[s2 t2] tr2] eqn:E.
      injection H as <- <- <-.
      apply IH in E as (-> & Hl & Hlow); [|rewrite length_insert; lia].
      rewrite length_insert in Hl.
      assert (Hi : s2 !!! i = v).
      { rewrite Hlow by lia. apply list_lookup_total_insert_eq. lia. }
      split; [cbn [app map]; do 2 f_equal; symmetry; exact Hi|].
      split; [exact Hl|].
      intros j Hj. rewrite Hlow by lia.
      apply list_lookup_total_insert_ne. lia.
    + apply IH in H as (-> & Hl & Hlow); [|lia].
      split; [reflexivity|]. split; [exact Hl|].
      intros j Hj. apply Hlow. lia.
Qed.

(** The restore loop writes the slot of every dirtied register, in
    ascending order. *)
Lemma restore_loop_spec p saved n : forall t i t' tr,
  restore_loop hart set_register p saved t i n = (t', tr) ->
  tr = map (fun j => EvSetRegister j (saved !!! j)) (dirtied_between p i n).
Proof.
  induction n as [|n IH]; intros t i t' tr H.
  - cbn [restore_loop] in H. injection H as <- <-. reflexivity.
  - cbn [restore_loop] in H. rewrite dirtied_between_S.
    destruct (writes_xreg p !!! i : bool).
    + destruct (restore_loop hart set_register p saved
                  (set_register t i (saved !!! i)) (S i) n) as [t2 tr2] eqn:E.
      injection H as <- <-. apply IH in E as ->. reflexivity.
    + apply IH in H as ->. reflexivity.
Qed.

Lemma write_loop_success p n : forall t i t' tr,
  write_loop hart write_debug_buffer p t i n = (ERROR_OK, t', tr) ->
  tr = map (fun j => EvWriteDebugBuffer j (debug_buffer p !!! j)) (seq i n).
Proof.
  induction n as [|n IH]; intros t i t' tr H.
  - cbn [write_loop] in H. injection H as <- <-. reflexivity.
  - cbn [write_loop] in H. cbv zeta in H.
    destruct (write_debug_buffer t i (debug_buffer p !!! i)) as [rc t1].
    destruct (negb (rc =? ERROR_OK)%Z); [discriminate H|].
    destruct (write_loop hart write_debug_buffer p t1 (S i) n)
      as [[rc' t2] tr2] eqn:E.
    injection H as -> <- <-. apply IH in E as ->. reflexivity.
Qed.

(** The successful run of [riscv_program_exec], call by call: the
    snapshots of the dirtied registers x1..x31, the transfer of the
    program (with its fence, if any, and its breakpoint), the execution,
    no read-back, and the write-back of the slot of every dirtied register
    x0..x31. *)
Lemma exec_success_inv p t saved p' t' tr :
  length saved = S GDB_REGNO_XPR31 ->
  riscv_program_exec get_register set_register write_debug_buffer
    execute_debug_buffer read_debug_buffer p t saved
    = Ret (ERROR_OK, p', t', tr) ->
  exists (p1 : riscv_program) (vals : list riscv_reg_t),
    (if writes_memory p then riscv_program_fence p else Ret (ERROR_OK, p))
      = Ret (ERROR_OK, p1) /\
    riscv_program_ebreak p1 = Ret (ERROR_OK, p') /\
    vals !!! GDB_REGNO_X0 = saved !!! GDB_REGNO_X0 /\
    tr = run_trace vals (debug_buffer p')
           (dirtied_between p (GDB_REGNO_XPR0 + 1)
              (GDB_REGNO_XPR31 - GDB_REGNO_XPR0))
           (seq 0 (instruction_count p'))
           (dirtied_between p GDB_REGNO_XPR0
              (S GDB_REGNO_XPR31 - GDB_REGNO_XPR0))
           ERROR_OK.
Proof.
  intros Hlen. unfold riscv_program_exec.
  destruct (save_loop _ _ _ _ _ _ _) as [[vals t1] tr_save] eqn:Esave.
  apply save_loop_spec in Esave as (-> & _ & Hlow);
    [|rewrite Hlen; unfold GDB_REGNO_XPR31, GDB_REGNO_XPR0; lia].
  intros H. apply bind_Ret_inv in H as ([rc p1] & E1 & H).
  assert (Hrc : rc = ERROR_OK).
  { revert E1. destruct (writes_memory p); intros E1.
    - eapply insert_returns_ok; exact E1.
    - injection E1 as <- _. reflexivity. }
  subst rc. cbv beta iota in H. rewrite guard_ok in H.
  apply bind_Ret_inv in H as ([rc p2] & E2 & H).
  pose proof (ebreak_returns_ok _ _ _ E2) as ->.
  cbv beta iota in H. rewrite guard_ok in H. revert H.
  destruct (riscv_program_write _ p2 t1) as [[rc t2] tr_write] eqn:Ew.
  destruct (Z.eqb_spec rc ERROR_OK) as [->|Hne]; cbn [negb];
    [|intros H; injection H as H _ _ _; discriminate H].
  destruct (execute_debug_buffer t2) as [rc' t3].
  destruct (Z.eqb_spec rc' ERROR_OK) as [->|Hne]; cbn [negb];
    [|intros H; injection H as H _ _ _; discriminate H].
  rewrite readback_loop_reads_nothing by lia.
  cbn [mbind outcome_bind]. cbv beta iota.
  destruct (restore_loop _ _ _ _ _ _ _) as [t5 tr_restore] eqn:Er.
  intros H. injection H as <- <- <-.
  apply restore_loop_spec in Er as ->.
  apply write_loop_success in Ew as ->.
  assert (Hw2 : writes_xreg p2 = writes_xreg p).
  { apply ebreak_writes_xreg in E2 as (-> & _).
    revert E1. destruct (writes_memory p); intros E1.
    - apply insert_writes_xreg in E1 as (-> & _). reflexivity.
    - injection E1 as <-. reflexivity. }
  exists p1, vals. split; [exact E1|]. split; [exact E2|].
  split; [apply Hlow; unfold GDB_REGNO_X0, GDB_REGNO_XPR0; lia|].
  rewrite (dirtied_between_ext p p2) by exact Hw2.
  unfold run_trace. cbn [app]. reflexivity.
Qed.

End ExecProperties.

(** The three projections of a trace of the shape of a successful run. *)
Lemma get_register_events_run_trace vals buf lg lw ls rc :
  get_register_events (run_trace vals buf lg lw ls rc) =
    map (fun j => (j, vals !!! j)) lg.
Proof.
  unfold run_trace, get_register_events. cbn [omap list_omap].
  rewrite !omap_app.
  rewrite (omap_map_some _ _ (fun j : nat => (j, vals !!! j))) by reflexivity.
  rewrite (omap_map_none _ (fun j => EvWriteDebugBuffer j _)) by reflexivity.
  rewrite (omap_map_none _ (fun j => EvSetRegister j _)) by reflexivity.
  cbn [omap list_omap app]. apply app_nil_r.
Qed.

Lemma set_register_events_run_trace vals buf lg lw ls rc :
  set_register_events (run_trace vals buf lg lw ls rc) =
    map (fun j => (j, vals !!! j)) ls.
Proof.
  unfold run_trace, set_register_events. cbn [omap list_omap].
  rewrite !omap_app.
  rewrite (omap_map_none _ (fun j => EvGetRegister j _)) by reflexivity.
  rewrite (omap_map_none _ (fun j => EvWriteDebugBuffer j _)) by reflexivity.
  rewrite (omap_map_some _ _ (fun j : nat => (j, vals !!! j))) by reflexivity.
  reflexivity.
Qed.

Lemma read_debug_buffer_events_run_trace vals buf lg lw ls rc :
  read_debug_buffer_events (run_trace vals buf lg lw ls rc) = [].
Proof.
  unfold run_trace, read_debug_buffer_events. cbn [omap list_omap].
  rewrite !omap_app.
  rewrite (omap_map_none _ (fun j => EvGetRegister j _)) by reflexivity.
  rewrite (omap_map_none _ (fun j => EvWriteDebugBuffer j _)) by reflexivity.
  rewrite (omap_map_none _ (fun j => EvSetRegister j _)) by reflexivity.
  reflexivity.
Qed.

Lemma dirtied_between_all p :
  dirtied_between p GDB_REGNO_XPR0 (S GDB_REGNO_XPR31 - GDB_REGNO_XPR0) =
    (if (writes_xreg p !!! GDB_REGNO_X0 : bool) then [GDB_REGNO_X0] else [])
    ++ dirtied_between p (GDB_REGNO_XPR0 + 1) (GDB_REGNO_XPR31 - GDB_REGNO_XPR0).
Proof. exact (dirtied_between_S p 0 31). Qed.

Section ExecConsequences.

Variable hart : Type.
Variable get_register : hart -> gdb_regno -> riscv_reg_t * hart.
Variable set_register : hart -> gdb_regno -> riscv_reg_t -> hart.
Variable write_debug_buffer : hart -> nat -> riscv_insn_t -> Z * hart.
Variable execute_debug_buffer : hart -> Z * hart.
Variable read_debug_buffer : hart -> nat -> riscv_insn_t * hart.

(** On whatever target, a successful run writes back, in ascending
    order, exactly the values it read from the dirtied registers x1..x31
    before the execution -- preceded, when x0 is marked dirtied, by a write
    to x0 of the content [saved_registers[0]] had at entry, which no
    snapshot ever filled. *)
Lemma exec_success_restores_snapshots p t saved p' t' tr :
  length saved = S GDB_REGNO_XPR31 ->
  riscv_program_exec get_register set_register write_debug_buffer
    execute_debug_buffer read_debug_buffer p t saved
    = Ret (ERROR_OK, p', t', tr) ->
  map fst (get_register_events tr) =
    dirtied_between p (GDB_REGNO_XPR0 + 1) (GDB_REGNO_XPR31 - GDB_REGNO_XPR0) /\
  set_register_events tr =
    (if (writes_xreg p !!! GDB_REGNO_X0 : bool)
     then [(GDB_REGNO_X0, saved !!! GDB_REGNO_X0)] else [])
    ++ get_register_events tr.
Proof.
  intros Hlen H.
  apply exec_success_inv in H as (p1 & vals & _ & _ & H0 & ->); [|exact Hlen].
  rewrite get_register_events_run_trace, set_register_events_run_trace.
  rewrite dirtied_between_all, map_app, map_map.
  split; [apply map_id|]. f_equal.
  destruct (writes_xreg p !!! GDB_REGNO_X0 : bool); [|reflexivity].
  cbn [map]. do 2 f_equal. exact H0.
Qed.

(** On whatever target, a successful run reads no slot of the debug
    buffer back: the program it leaves is the program it transferred. *)
Lemma exec_success_reads_nothing_back p t saved p' t' tr :
  length saved = S GDB_REGNO_XPR31 ->
  riscv_program_exec get_register set_register write_debug_buffer
    execute_debug_buffer read_debug_buffer p t saved
    = Ret (ERROR_OK, p', t', tr) ->
  read_debug_buffer_events tr = [] /\
  exists p1,
    (if writes_memory p then riscv_program_fence p else Ret (ERROR_OK, p))
      = Ret (ERROR_OK, p1) /\
    riscv_program_ebreak p1 = Ret (ERROR_OK, p').
Proof.
  intros Hlen H.
  apply exec_success_inv in H as (p1 & vals & E1 & E2 & _ & ->); [|exact Hlen].
  split; [|exists p1; auto].
  apply read_debug_buffer_events_run_trace.
Qed.

End ExecConsequences.

(** A program that marked x0 and allocated S0. *)
Lemma example_program_x0_s0 :
  exists p,
    run_ops [OpDoRestoreRegister GDB_REGNO_X0; OpGettemp] example_program = Ret p /\
    dirtied_between p 0 32 = [GDB_REGNO_X0; GDB_REGNO_S0].
Proof. eexists. split; reflexivity. Qed.

(** C1: the claim that exactly the snapshotted registers are written
    back, with their snapshots, fails on a program that marked x0 dirtied.
    The save loop starts at x1 and the restore loop at x0: for the program
    that marks x0 and allocates S0, run on the simulated target with
    whatever content [g] in [saved_registers[0]], the only snapshot taken
    is the one of S0 (108), and the run writes [g] to x0 before it restores
    S0 to 108. *)
Theorem riscv_program_exec_writes_unsaved_x0 (g : riscv_reg_t) :
  exists p p' t' tr,
    run_ops [OpDoRestoreRegister GDB_REGNO_X0; OpGettemp] example_program = Ret p /\
    sim_exec p (sim_reset 4) (g :: replicate 31 0%Z) = Ret (ERROR_OK, p', t', tr) /\
    get_register_events tr = [(GDB_REGNO_S0, 108%Z)] /\
    set_register_events tr = [(GDB_REGNO_X0, g); (GDB_REGNO_S0, 108%Z)] /\
    sim_xregs t' !! GDB_REGNO_S0 = Some 108%Z.
Proof.
  eexists. eexists. eexists. eexists.
  split; [reflexivity|]. split; [reflexivity|].
  split; [reflexivity|]. split; reflexivity.
Qed.

(** C3: the claim that the buffer is read back after the execution
    fails.  On the simulated target, whose execution overwrites every slot
    of the buffer, [riscv_program_exec] succeeds without a single read of a
    slot, and the program still holds the words it transferred, not the
    target's. *)
Theorem riscv_program_exec_reads_no_slot_back :
  exists p' t' tr,
    sim_exec example_program (sim_reset 4) (replicate 32 0%Z)
      = Ret (ERROR_OK, p', t', tr) /\
    tr = [EvKeepAlive; EvWriteDebugBuffer 0 ebreak; EvExecuteDebugBuffer ERROR_OK] /\
    read_debug_buffer_events tr = [] /\
    debug_buffer p' !! 0 = Some ebreak /\
    fst (sim_read_debug_buffer t' 0) = word 0x13 /\
    debug_buffer p' !! 1 = Some (word 0xFFFFFFFF) /\
    fst (sim_read_debug_buffer t' 1) = word 0x13.
Proof.
  eexists. eexists. eexists.
  split; [reflexivity|]. repeat split; reflexivity.
Qed.

(** ** The paths that return a failure *)

Lemma set_register_events_app (a b : list event) :
  set_register_events (a ++ b) = set_register_events a ++ set_register_events b.
Proof. apply omap_app. Qed.

Lemma set_register_events_no_restore (a b : list event) :
  set_register_events a = [] -> set_register_events b = [] ->
  set_register_events (EvKeepAlive :: a ++ b) = [].
Proof.
  intros Ha Hb. change (set_register_events (a ++ b) = []).
  rewrite set_register_events_app, Ha, Hb. reflexivity.
Qed.

Section ExecFailure.

Variable hart : Type.
Variable get_register : hart -> gdb_regno -> riscv_reg_t * hart.
Variable set_register : hart -> gdb_regno -> riscv_reg_t -> hart.
Variable write_debug_buffer : hart -> nat -> riscv_insn_t -> Z * hart.
Variable execute_debug_buffer : hart -> Z * hart.
Variable read_debug_buffer : hart -> nat -> riscv_insn_t * hart.

Lemma write_loop_sets_no_register p n : forall t i rc t' tr,
  write_loop hart write_debug_buffer p t i n = (rc, t', tr) ->
  set_register_events tr = [].
Proof.
  induction n as [|n IH]; intros t i rc t' tr H.
  - cbn [write_loop] in H. injection H as <- <- <-. reflexivity.
  - cbn [write_loop] in H. cbv zeta in H.
    destruct (write_debug_buffer t i (debug_buffer p !!! i)) as [rc1 t1].
    destruct (negb (rc1 =? ERROR_OK)%Z).
    + injection H as <- <- <-. reflexivity.
    + destruct (write_loop hart write_debug_buffer p t1 (S i) n)
        as [[rc' t2] tr2] eqn:E.
      injection H as <- <- <-. apply IH in E. exact E.
Qed.

(** When the transfer or the execution fails, [riscv_program_exec]
    returns ERROR_FAIL at once: the snapshots were taken and no register is
    written back. *)
Lemma exec_failure_restores_nothing p t saved rc p' t' tr :
  length saved = S GDB_REGNO_XPR31 ->
  riscv_program_exec get_register set_register write_debug_buffer
    execute_debug_buffer read_debug_buffer p t saved = Ret (rc, p', t', tr) ->
  rc <> ERROR_OK ->
  rc = ERROR_FAIL /\ set_register_events tr = [].
Proof.
  intros Hlen. unfold riscv_program_exec.
  destruct (save_loop _ _ _ _ _ _ _) as [[vals t1] tr_save] eqn:Esave.
  apply save_loop_spec in Esave as (-> & _ & _);
    [|rewrite Hlen; unfold GDB_REGNO_XPR31, GDB_REGNO_XPR0; lia].
  intros H. apply bind_Ret_inv in H as ([rc1 p1] & E1 & H).
  assert (Hrc : rc1 = ERROR_OK).
  { revert E1. destruct (writes_memory p); intros E1.
    - eapply insert_returns_ok; exact E1.
    - injection E1 as <- _. reflexivity. }
  subst rc1. cbv beta iota in H. rewrite guard_ok in H.
  apply bind_Ret_inv in H as ([rc2 p2] & E2 & H).
  pose proof (ebreak_returns_ok _ _ _ E2) as ->.
  cbv beta iota in H. rewrite guard_ok in H. revert H.
  destruct (riscv_program_write _ p2 t1) as [[rcw t2] tr_write] eqn:Ew.
  apply write_loop_sets_no_register in Ew.
  assert (Hsave : forall l,
    set_register_events (map (fun j => EvGetRegister j (vals !!! j)) l) = []).
  { intros l. apply omap_map_none. reflexivity. }
  destruct (negb (rcw =? ERROR_OK)%Z).
  { intros H Hne. injection H as <- <- <- <-. split; [reflexivity|].
    apply set_register_events_no_restore; [apply Hsave|exact Ew]. }
  destruct (execute_debug_buffer t2) as [rce t3].
  destruct (negb (rce =? ERROR_OK)%Z).
  { intros H Hne. injection H as <- <- <- <-. split; [reflexivity|].
    apply set_register_events_no_restore; [apply Hsave|].
    rewrite set_register_events_app, Ew. reflexivity. }
  rewrite readback_loop_reads_nothing by lia.
  cbn [mbind outcome_bind]. cbv beta iota.
  destruct (restore_loop _ _ _ _ _ _ _) as [t5 tr_restore].
  intros H Hne. injection H as <- <- <- <-. contradiction.
Qed.

End ExecFailure.

(** ** Scenarios *)

(** Native width 64, address 0x2000: a [lui] of 2 into [d], then the load
    with [d] as base and displacement 0. *)
Example lx_0x2000 :
  exists p',
    riscv_program_lx example_program 5 0x2000 = Ret (ERROR_OK, p') /\
    instruction_count p' = 2 /\
    take 2 (debug_buffer p') = [lui 5 2; ld 5 5 0].
Proof. eexists. repeat split. Qed.

(** Address 0x500: one load, with x0 as base. *)
Example lx_0x500 :
  exists p',
    riscv_program_lx example_program 5 0x500 = Ret (ERROR_OK, p') /\
    instruction_count p' = 1 /\
    take 1 (debug_buffer p') = [ld 5 GDB_REGNO_X0 0x500].
Proof. eexists. repeat split. Qed.

(** [li] emits both instructions, also when the upper part is zero. *)
Example li_0x12345 :
  exists p',
    riscv_program_li example_program 5 0x12345 = Ret (ERROR_OK, p') /\
    instruction_count p' = 2 /\
    take 2 (debug_buffer p') = [lui 5 0x12; addi 5 5 0x345].
Proof. eexists. repeat split. Qed.

Example li_0x45 :
  exists p',
    riscv_program_li example_program 5 0x45 = Ret (ERROR_OK, p') /\
    instruction_count p' = 2 /\
    take 2 (debug_buffer p') = [lui 5 0; addi 5 5 0x45].
Proof. eexists. repeat split. Qed.

(** The fifth instruction does not fit a buffer of four slots. *)
Example five_inserts_into_four_slots :
  run_ops [OpFence; OpFence; OpFence; OpFence] example_program <> Fatal "Unable to insert instruction:" /\
  run_ops [OpFence; OpFence; OpFence; OpFence; OpFence] example_program =
    Fatal "Unable to insert instruction:".
Proof. split; [discriminate|reflexivity]. Qed.

(** A store whose data register is S0 takes S0 as scratch register too. *)
Example sw_from_s0 :
  exists p',
    riscv_program_sw example_program GDB_REGNO_S0 0x2004 = Ret (ERROR_OK, p') /\
    take 2 (debug_buffer p') = [lui GDB_REGNO_S0 2; sw GDB_REGNO_S0 GDB_REGNO_S0 4].
Proof. eexists. repeat split. Qed.

(** * Further properties *)

(** ** Invariants of every sequence of operations *)

(** A property that the six primitive steps preserve is preserved by
    every sequence of operations. *)
Lemma run_ops_preserves_all (P : riscv_program -> Prop) :
  (forall p i rc p', P p -> riscv_program_insert p i = Ret (rc, p') -> P p') ->
  (forall p b, P p -> P (set_writes_memory p b)) ->
  (forall p r p', P p -> riscv_program_gettemp p = Ret (r, p') -> P p') ->
  (forall p r p', P p -> riscv_program_puttemp p r = Ret p' -> P p') ->
  (forall p r rc p',
     P p -> riscv_program_do_restore_register p r = Ret (rc, p') -> P p') ->
  (forall p r rc p',
     P p -> riscv_program_dont_restore_register p r = Ret (rc, p') -> P p') ->
  forall l p p', P p -> run_ops l p = Ret p' -> P p'.
Proof.
  intros Hins Hwm Hget Hput Hdo Hdont.
  induction l as [|o l IH]; intros p p' HP H; simpl in H.
  - injection H as <-. exact HP.
  - apply bind_Ret_inv in H as (p1 & E & H).
    apply (IH p1 p'); [|exact H].
    destruct (is_dont_restore o) eqn:Ho.
    + destruct o; try discriminate Ho. simpl in E.
      apply program_of_Ret_inv in E as (rc & E). exact (Hdont _ _ _ _ HP E).
    + exact (run_op_preserves P Hins Hwm Hget Hput Hdo o p p1 Ho HP E).
Qed.

(** Replaces the result of a primitive call in the context by the program
    it returns. *)
Ltac primitive_inv :=
  match goal with
  | H : riscv_program_insert _ _ = Ret (_, _) |- _ =>
      apply insert_Ret_inv in H as (_ & _ & _ & ->)
  | H : riscv_program_gettemp _ = Ret (_, _) |- _ =>
      apply gettemp_loop_Ret_inv in H as (? & ? & ? & ? & ->)
  | H : riscv_program_puttemp _ _ = Ret _ |- _ =>
      apply puttemp_Ret_inv in H as (? & ->)
  | H : riscv_program_do_restore_register _ _ = Ret (_, _) |- _ =>
      apply do_restore_register_Ret_inv in H as (_ & ? & ->)
  | H : riscv_program_dont_restore_register _ _ = Ret (_, _) |- _ =>
      apply dont_restore_register_Ret_inv in H as (_ & ? & ->)
  end.

Lemma scratch_from_s0_run_ops l p p' :
  program_wf p -> scratch_from_s0 p -> run_ops l p = Ret p' ->
  program_wf p' /\ scratch_from_s0 p'.
Proof.
  intros Hwf Hs H.
  apply (run_ops_preserves_all (fun q => program_wf q /\ scratch_from_s0 q))
    with (l := l) (p := p); [..|split; assumption|exact H]; clear.
  - intros p i rc p' (Hwf & Hs) H. primitive_inv.
    split; [apply appended_wf; exact Hwf|exact Hs].
  - intros p b H. exact H.
  - intros p r p' (Hwf & Hs) H. primitive_inv.
    split; [apply allocated_wf; exact Hwf|].
    intros j Hj. simpl. rewrite list_lookup_total_insert_ne by lia. apply Hs. exact Hj.
  - intros p r p' ((Hb & Hw & Hu) & Hs) H. primitive_inv.
    split; [unfold program_wf; simpl; rewrite length_insert; auto|].
    intros j Hj. simpl. destruct (decide (r = j)) as [->|Hne].
    + apply list_lookup_total_insert_eq. lia.
    + rewrite list_lookup_total_insert_ne by exact Hne. apply Hs. exact Hj.
  - intros p r rc p' ((Hb & Hw & Hu) & Hs) H. primitive_inv.
    split; [unfold program_wf; simpl; rewrite length_insert; auto|exact Hs].
  - intros p r rc p' ((Hb & Hw & Hu) & Hs) H. primitive_inv.
    split; [unfold program_wf; simpl; rewrite length_insert; auto|exact Hs].
Qed.

Lemma scratch_from_s0_init t : scratch_from_s0 (snd (riscv_program_init t)).
Proof.
  intros r Hr. unfold riscv_program_init. cbn [snd in_use].
  apply lookup_total_replicate_2.
  unfold GDB_REGNO_S0, GDB_REGNO_XPR0, RISCV_REGISTER_COUNT in *. lia.
Qed.

(** X1: whatever the caller does with a program after its
    initialisation, no register below S0 -- x0 in particular -- is ever in
    use, so the release of x0 that the stores perform when the upper part
    is zero leaves the [in_use] array as it is. *)
Theorem registers_below_s0_never_in_use (ops : list op) (t : struct_target)
  (p' : riscv_program) :
  run_ops ops (snd (riscv_program_init t)) = Ret p' ->
  (forall r, r < GDB_REGNO_S0 -> in_use p' !!! r = false) /\
  (forall p'', riscv_program_puttemp p' GDB_REGNO_X0 = Ret p'' ->
     in_use p'' = in_use p').
Proof.
  intros H.
  destruct (scratch_from_s0_run_ops ops _ p' (proj1 (shape_ok_init t))
              (scratch_from_s0_init t) H) as ((_ & _ & Hu) & Hs).
  split; [exact Hs|].
  intros p'' Hput. primitive_inv. simpl.
  apply list_insert_id. rewrite list_lookup_lookup_total_lt.
  - f_equal. apply Hs. unfold GDB_REGNO_X0, GDB_REGNO_S0, GDB_REGNO_XPR0. lia.
  - rewrite Hu. unfold RISCV_REGISTER_COUNT, GDB_REGNO_X0, GDB_REGNO_XPR0. lia.
Qed.

(** The theorem at a store through x0 followed by two allocations. *)
Lemma registers_below_s0_never_in_use_witness :
  exists p',
    run_ops [OpStore Word 5 0x10; OpGettemp; OpGettemp]
      (snd (riscv_program_init example_target)) = Ret p' /\
    in_use p' !!! GDB_REGNO_X0 = false /\
    in_use p' !!! GDB_REGNO_S0 = true.
Proof.
  eexists. split; [reflexivity|]. split; [|reflexivity].
  refine (proj1 (registers_below_s0_never_in_use
    [OpStore Word 5 0x10%Z; OpGettemp; OpGettemp] example_target _ _) _ _).
  - reflexivity.
  - vm_compute. lia.
Defined.

Lemma extends_buffer_run_ops l p p' :
  run_ops l p = Ret p' -> extends_buffer p p'.
Proof.
  intros H.
  apply (run_ops_preserves_all (extends_buffer p)) with (l := l) (p := p);
    [..|split; [lia|reflexivity]|exact H]; clear.
  - intros q i rc q' (Hc & Hb) H. primitive_inv. split; [simpl; lia|].
    intros j Hj. simpl. rewrite list_lookup_insert_ne by lia. apply Hb. exact Hj.
  - intros q b H. exact H.
  - intros q r q' H H1. primitive_inv. exact H.
  - intros q r q' H H1. primitive_inv. exact H.
  - intros q r rc q' H H1. primitive_inv. exact H.
  - intros q r rc q' H H1. primitive_inv. exact H.
Qed.

Lemma unused_slots_untouched_run_ops l p p' :
  unused_slots_untouched p -> run_ops l p = Ret p' -> unused_slots_untouched p'.
Proof.
  apply (run_ops_preserves_all unused_slots_untouched); clear.
  - intros q i rc q' Hq H. primitive_inv.
    intros j Hj. simpl in *. rewrite list_lookup_insert_ne by lia. apply Hq. lia.
  - intros q b H. exact H.
  - intros q r q' H H1. primitive_inv. exact H.
  - intros q r q' H H1. primitive_inv. exact H.
  - intros q r rc q' H H1. primitive_inv. exact H.
  - intros q r rc q' H H1. primitive_inv. exact H.
Qed.

(** X2: the buffer is append-only.  A sequence of operations never
    lowers the instruction count and never changes a slot below the count
    it started from; on a program that was initialised, every slot from the
    count on still holds the sentinel 0xFFFFFFFF. *)
Theorem buffer_append_only (ops : list op) (p p' : riscv_program) :
  run_ops ops p = Ret p' ->
  instruction_count p <= instruction_count p' /\
  (forall j, j < instruction_count p ->
     debug_buffer p' !! j = debug_buffer p !! j) /\
  (forall t, p = snd (riscv_program_init t) ->
     forall j, instruction_count p' <= j -> j < RISCV_MAX_DEBUG_BUFFER_SIZE ->
       debug_buffer p' !! j = Some (word 0xFFFFFFFF)).
Proof.
  intros H. destruct (extends_buffer_run_ops ops p p' H) as (Hc & Hb).
  split; [exact Hc|]. split; [exact Hb|].
  intros t -> j Hj Hlt.
  assert (Hinit : unused_slots_untouched (snd (riscv_program_init t)))
    by (intros k _; reflexivity).
  rewrite (unused_slots_untouched_run_ops ops _ p' Hinit H j Hj).
  apply lookup_replicate_2. exact Hlt.
Qed.

(** The theorem at two emissions after a first one. *)
Lemma buffer_append_only_witness :
  exists p p',
    run_ops [OpFence] example_program = Ret p /\
    run_ops [OpLi 5 0x12345; OpDontRestoreRegister 5] p = Ret p' /\
    debug_buffer p' !! 0 = Some fence /\
    instruction_count p <= instruction_count p'.
Proof.
  eexists. eexists. split; [reflexivity|]. split; [reflexivity|].
  match goal with
  | |- debug_buffer ?q' !! 0 = _ /\ instruction_count ?q <= _ =>
      destruct (buffer_append_only [OpLi 5 0x12345%Z; OpDontRestoreRegister 5] q q')
        as (Hc & Hb & _); [reflexivity|]
  end.
  split; [|exact Hc]. rewrite Hb; [reflexivity|vm_compute; lia].
Defined.

Lemma same_target_run_ops l p p' :
  run_ops l p = Ret p' -> target p' = target p /\ target_xlen p' = target_xlen p.
Proof.
  intros H.
  apply (run_ops_preserves_all
           (fun q => target q = target p /\ target_xlen q = target_xlen p))
    with (l := l) (p := p); [..|split; reflexivity|exact H]; clear.
  - intros q i rc q' Hq H. primitive_inv. exact Hq.
  - intros q b H. exact H.
  - intros q r q' H H1. primitive_inv. exact H.
  - intros q r q' H H1. primitive_inv. exact H.
  - intros q r rc q' H H1. primitive_inv. exact H.
  - intros q r rc q' H H1. primitive_inv. exact H.
Qed.

(** X3: the native width of a program is the one its target reported
    at initialisation, whatever was done with the program since.  So
    [riscv_program_lx] and [riscv_program_sx] are the double-word macros on
    a 64-bit target, the word macros on a 32-bit target, and fatal ("unknown
    xlen") on a target of any other width, before anything is emitted and
    whatever room the buffer has. *)
Theorem native_width_fixed_at_init (ops : list op) (t : struct_target)
  (p' : riscv_program) :
  run_ops ops (snd (riscv_program_init t)) = Ret p' ->
  target_xlen p' = riscv_xlen t /\
  forall d a,
    if (riscv_xlen t =? 64)%Z then
      riscv_program_lx p' d a = riscv_program_ld p' d a /\
      riscv_program_sx p' d a = riscv_program_sd p' d a
    else if (riscv_xlen t =? 32)%Z then
      riscv_program_lx p' d a = riscv_program_lw p' d a /\
      riscv_program_sx p' d a = riscv_program_sw p' d a
    else
      riscv_program_lx p' d a = Fatal "unknown xlen %d" /\
      riscv_program_sx p' d a = Fatal "unknown xlen %d".
Proof.
  intros H. apply same_target_run_ops in H as (_ & Hx). simpl in Hx.
  split; [exact Hx|]. intros d a.
  unfold riscv_program_lx, riscv_program_sx. rewrite Hx.
  destruct (riscv_xlen t =? 64)%Z; [split; reflexivity|].
  destruct (riscv_xlen t =? 32)%Z; split; reflexivity.
Qed.

(** The theorem at a target of width 16, after an emission. *)
Lemma native_width_fixed_at_init_witness :
  exists p',
    run_ops [OpFence]
      (snd (riscv_program_init {| riscv_debug_buffer_size := 4; riscv_xlen := 16 |}))
      = Ret p' /\
    riscv_program_lx p' 5 0x10 = Fatal "unknown xlen %d".
Proof.
  eexists. split; [reflexivity|].
  refine (proj1 (proj2 (native_width_fixed_at_init [OpFence]
    {| riscv_debug_buffer_size := 4; riscv_xlen := 16 |} _ _) 5 0x10%Z)).
  reflexivity.
Defined.

(** ** The [writes_memory] flag along a sequence of operations *)

Lemma gettemp_writes_memory p r p' :
  riscv_program_gettemp p = Ret (r, p') -> writes_memory p' = writes_memory p.
Proof. intros H. primitive_inv. reflexivity. Qed.

Lemma run_op_writes_memory o p p' :
  run_op o p = Ret p' ->
  writes_memory p' = writes_memory p || op_writes_memory o.
Proof.
  intros H. destruct o; simpl in H; cbn [op_writes_memory];
    rewrite ?orb_false_r, ?orb_true_r;
    apply program_of_Ret_inv in H as (rc & H) || idtac.
  - primitive_inv. reflexivity.
  - eapply register_offset_store_sets_writes_memory. left. exact H.
  - eapply register_offset_store_sets_writes_memory. right. left. exact H.
  - eapply register_offset_store_sets_writes_memory. right. right. exact H.
  - eapply register_offset_load_sets_writes_memory. left. exact H.
  - eapply register_offset_load_sets_writes_memory. right. left. exact H.
  - eapply register_offset_load_sets_writes_memory. right. right. exact H.
  - eapply lx_keeps_writes_memory. exact H.
  - eapply load_keeps_writes_memory. exact H.
  - eapply sx_sets_writes_memory. exact H.
  - eapply store_sets_writes_memory. exact H.
  - unfold riscv_program_csrr in H. outcome_inv. primitive_inv. reflexivity.
  - unfold riscv_program_csrw in H. outcome_inv. primitive_inv. reflexivity.
  - unfold riscv_program_csrrw in H. outcome_inv. primitive_inv. reflexivity.
  - unfold riscv_program_fence_i in H. primitive_inv. reflexivity.
  - unfold riscv_program_fence in H. primitive_inv. reflexivity.
  - unfold riscv_program_ebreak in H. outcome_inv; [reflexivity|].
    primitive_inv. reflexivity.
  - unfold riscv_program_lui in H. primitive_inv. reflexivity.
  - unfold riscv_program_addi in H. primitive_inv. reflexivity.
  - unfold riscv_program_li, riscv_program_lui, riscv_program_addi in H.
    outcome_inv; try failure_branch_dead. repeat primitive_inv. reflexivity.
  - eapply lah_writes_memory. exact H.
  - unfold riscv_program_lal, riscv_program_addi in H. outcome_inv; [reflexivity|].
    primitive_inv. reflexivity.
  - primitive_inv. reflexivity.
  - primitive_inv. reflexivity.
  - primitive_inv. reflexivity.
  - primitive_inv. reflexivity.
Qed.

(** X4: the flag [writes_memory] after a sequence of operations is the
    flag before it or-ed with "the sequence contains a store or a
    register-offset access": the operations that assign the flag set it,
    nothing clears it, and every other operation leaves it alone. *)
Theorem writes_memory_after (ops : list op) (p p' : riscv_program) :
  run_ops ops p = Ret p' ->
  writes_memory p' = writes_memory p || existsb op_writes_memory ops.
Proof.
  revert p. induction ops as [|o ops IH]; intros p H; simpl in H.
  - injection H as <-. simpl. rewrite orb_false_r. reflexivity.
  - apply bind_Ret_inv in H as (p1 & E & H).
    rewrite (IH p1 H), (run_op_writes_memory o p p1 E). simpl.
    rewrite orb_assoc. reflexivity.
Qed.

(** The theorem at an address-relative load followed by a constant. *)
Lemma writes_memory_after_witness :
  exists p',
    run_ops [OpLoad Word 5 0x2004; OpLi 6 0x12345] example_program = Ret p' /\
    writes_memory p' = false.
Proof.
  eexists. split; [reflexivity|].
  rewrite (writes_memory_after [OpLoad Word 5 0x2004%Z; OpLi 6 0x12345%Z]
             example_program _ eq_refl).
  reflexivity.
Defined.

(** ** Edge behaviour of the emitters *)

(** X5: on a full buffer the breakpoint and the two address helpers
    with nothing to emit return ERROR_OK and leave the program as it is,
    while every load macro, the constant macro and every store macro through
    x0 are fatal with the message of [riscv_program_insert]. *)
Theorem full_buffer_emitters (p : riscv_program) :
  instruction_count p = riscv_debug_buffer_size (target p) ->
  riscv_program_ebreak p = Ret (ERROR_OK, p) /\
  (forall d a, riscv_program_gah p a = 0%Z ->
     riscv_program_lah p d a = Ret (ERROR_OK, p)) /\
  (forall d a, riscv_program_gal p a = 0%Z ->
     riscv_program_lal p d a = Ret (ERROR_OK, p)) /\
  (forall w d a,
     riscv_program_load w p d a = Fatal "Unable to insert instruction:") /\
  (forall d c, riscv_program_li p d c = Fatal "Unable to insert instruction:") /\
  (forall w d a, riscv_program_gah p a = 0%Z ->
     riscv_program_store w p d a = Fatal "Unable to insert instruction:").
Proof.
  intros Hfull.
  assert (Hins : forall i,
    riscv_program_insert p i = Fatal "Unable to insert instruction:").
  { intros i. apply insert_at_capacity. lia. }
  split; [|split; [|split; [|split; [|split]]]].
  - unfold riscv_program_ebreak. rewrite Hfull, Nat.eqb_refl. reflexivity.
  - intros d a Hz. apply lah_upper_zero. exact Hz.
  - intros d a Hz. unfold riscv_program_lal. rewrite Hz. reflexivity.
  - intros w d a. rewrite load_is_code_shape.
    unfold load_code_shape, riscv_program_lah, riscv_program_lui.
    destruct (riscv_program_gah p a =? 0)%Z.
    + run_bind. rewrite Hins. reflexivity.
    + rewrite Hins. reflexivity.
  - intros d c. unfold riscv_program_li, riscv_program_lui. rewrite Hins.
    reflexivity.
  - intros w d a Hz. rewrite store_is_code_shape.
    unfold store_code_shape, store_base. rewrite Hz. cbn [Z.eqb]. run_bind.
    rewrite lah_upper_zero by exact Hz. run_bind. rewrite Hins. reflexivity.
Qed.

(** The theorem at the example program filled with four fences. *)
Lemma full_buffer_emitters_witness :
  exists p,
    run_ops [OpFence; OpFence; OpFence; OpFence] example_program = Ret p /\
    instruction_count p = riscv_debug_buffer_size (target p) /\
    riscv_program_ebreak p = Ret (ERROR_OK, p) /\
    riscv_program_lw p 5 0x10 = Fatal "Unable to insert instruction:".
Proof.
  eexists. split; [reflexivity|]. split; [reflexivity|].
  match goal with
  | |- riscv_program_ebreak ?q = _ /\ _ =>
      destruct (full_buffer_emitters q eq_refl) as (He & _ & _ & Hl & _)
  end.
  split; [exact He|exact (Hl Word 5 0x10%Z)].
Defined.

Lemma to_int16_small z : (0 <= z < 2 ^ 15)%Z -> to_int16 z = z.
Proof. intros Hz. unfold to_int16. rewrite Z.mod_small; lia. Qed.

Lemma to_int32_small z : (0 <= z < 2 ^ 31)%Z -> to_int32 z = z.
Proof. intros Hz. unfold to_int32. rewrite Z.mod_small; lia. Qed.

(** X6: [riscv_program_li] of a constant [c] (unsigned) emits, when
    two slots are free, exactly the pair [lui d, hi] and [addi d, d, lo]
    with [lo = c mod 4096] and [hi] the 32-bit conversion of [c / 4096],
    both unconditionally; [hi] is [c / 4096] itself for [c < 2^43], and then
    [4096 * hi + lo = c].  With fewer than two free slots it is fatal. *)
Theorem riscv_program_li_pair (p : riscv_program) (d : gdb_regno) (c : riscv_reg_t) :
  target_wf (target p) -> (0 <= c)%Z ->
  (instruction_count p + 2 <= riscv_debug_buffer_size (target p) ->
     riscv_program_li p d c =
       Ret (ERROR_OK,
            appended (appended p (lui d (to_int32 (c / 4096))))
              (addi d d (c mod 4096)))) /\
  (riscv_debug_buffer_size (target p) < instruction_count p + 2 ->
     riscv_program_li p d c = Fatal "Unable to insert instruction:") /\
  ((c < 2 ^ 43)%Z ->
     to_int32 (c / 4096) = (c / 4096)%Z /\
     (4096 * (c / 4096) + c mod 4096 = c)%Z).
Proof.
  intros Ht Hc.
  assert (Hlo : to_int16 (Z.land c 0xFFF) = (c mod 4096)%Z).
  { change 0xFFF%Z with (Z.ones 12). rewrite Z.land_ones by lia.
    change (2 ^ 12)%Z with 4096%Z. apply to_int16_small.
    change (2 ^ 15)%Z with 32768%Z.
    pose proof (Z.mod_pos_bound c 4096 ltac:(lia)). lia. }
  assert (Hhi : Z.shiftr c 12 = (c / 4096)%Z).
  { rewrite Z.shiftr_div_pow2 by lia. reflexivity. }
  unfold riscv_program_li, riscv_program_lui, riscv_program_addi.
  rewrite Hlo, Hhi. split; [|split].
  - intros Hroom. rewrite insert_appended by (auto; lia). run_bind.
    rewrite insert_appended by (auto; simpl; lia). run_bind. reflexivity.
  - intros Hfull.
    destruct (Nat.le_gt_cases (riscv_debug_buffer_size (target p))
                (instruction_count p)) as [Hle|Hgt].
    + rewrite insert_at_capacity by exact Hle. reflexivity.
    + rewrite insert_appended by (auto; lia). run_bind.
      rewrite insert_at_capacity by (simpl; lia). reflexivity.
  - intros Hsmall. change (2 ^ 43)%Z with (4096 * 2147483648)%Z in Hsmall. split.
    + apply to_int32_small. change (2 ^ 31)%Z with 2147483648%Z.
      split; [apply Z.div_pos; lia|].
      apply Z.div_lt_upper_bound; lia.
    + pose proof (Z.div_mod c 4096). lia.
Qed.

(** The theorem at the constant 0x12345. *)
Lemma riscv_program_li_pair_witness :
  target_wf (target example_program) /\ (0 <= 0x12345)%Z /\
  riscv_program_li example_program 5 0x12345 =
    Ret (ERROR_OK,
         appended (appended example_program (lui 5 (to_int32 (0x12345 / 4096))))
           (addi 5 5 (0x12345 mod 4096))).
Proof.
  split; [exact example_target_wf|]. split; [lia|].
  apply (riscv_program_li_pair example_program 5 0x12345 example_target_wf);
    [lia|vm_compute; lia].
Defined.

(** X7: the two parts of an address.  The lower part is always in
    0..0x7FF, so it is a non-negative 12-bit signed displacement.  The
    value [4096 * upper + lower] is never above the address and less than
    4096 below it; it is the address itself exactly
    when, for a positive address, bit 11 is clear (the low twelve bits are
    below 0x800), and for a non-positive address, the address is a multiple
    of 4096. *)
Theorem address_split_recombine (p : riscv_program) (a : riscv_addr_t) :
  (0 <= riscv_program_gal p a <= 0x7FF)%Z /\
  (0 <= a - (4096 * riscv_program_gah p a + riscv_program_gal p a) < 4096)%Z /\
  ((0 < a)%Z ->
     ((4096 * riscv_program_gah p a + riscv_program_gal p a = a)%Z <->
      (a mod 4096 < 0x800)%Z)) /\
  ((a <= 0)%Z ->
     ((4096 * riscv_program_gah p a + riscv_program_gal p a = a)%Z <->
      (a mod 4096 = 0)%Z)).
Proof.
  unfold riscv_program_gah, riscv_program_gal.
  rewrite Z.shiftr_div_pow2 by lia. change (2 ^ 12)%Z with 4096%Z.
  pose proof (Z.div_mod a 4096 ltac:(lia)) as Hdm.
  pose proof (Z.mod_pos_bound a 4096 ltac:(lia)) as Hm.
  destruct (Z.ltb_spec 0 a) as [Hpos|Hnp].
  - change 0x7FF%Z with (Z.ones 11). rewrite Z.land_ones by lia.
    change (2 ^ 11)%Z with 2048%Z. change (Z.ones 11) with 2047%Z.
    pose proof (Z.mod_pos_bound a 2048 ltac:(lia)) as Hm2.
    assert (Hmm : (a mod 2048 = (a mod 4096) mod 2048)%Z).
    { change 4096%Z with (2 * 2048)%Z.
      rewrite Z.mul_comm, Z.rem_mul_r by lia.
      rewrite Z.mul_comm, Z.mod_add by lia. rewrite Z.mod_mod by lia. reflexivity. }
    assert (Hcase : (a mod 4096 < 2048 /\ a mod 2048 = a mod 4096 \/
                     2048 <= a mod 4096 /\ a mod 2048 = a mod 4096 - 2048)%Z).
    { destruct (Z.lt_ge_cases (a mod 4096) 2048) as [Hl|Hg].
      - left. split; [exact Hl|]. rewrite Hmm. apply Z.mod_small. lia.
      - right. split; [exact Hg|]. rewrite Hmm.
        symmetry. apply (Z.mod_unique_pos _ _ 1). lia. lia. }
    repeat split; intros; lia.
  - repeat split; intros; lia.
Qed.

(** The theorem at the addresses 0x2804 and 0x2004. *)
Lemma address_split_recombine_witness :
  (0 < 0x2804)%Z /\ (0 < 0x2004)%Z /\
  (4096 * riscv_program_gah example_program 0x2804
   + riscv_program_gal example_program 0x2804 <> 0x2804)%Z /\
  (4096 * riscv_program_gah example_program 0x2004
   + riscv_program_gal example_program 0x2004 = 0x2004)%Z.
Proof.
  split; [lia|]. split; [lia|]. split.
  - intros H.
    apply (proj1 (proj2 (proj2 (address_split_recombine example_program 0x2804)))
             ltac:(lia)) in H.
    vm_compute in H. discriminate H.
  - apply (proj1 (proj2 (proj2 (address_split_recombine example_program 0x2004)))
             ltac:(lia)).
    vm_compute. reflexivity.
Defined.

(** X8: the CSR emitters.  [riscv_program_csrr] accepts exactly the
    registers CSR0..CSR4095 and emits a [csrrs] with x0 as source and a CSR
    number in 0..4095; below CSR0 the three emitters fail their assertion
    before anything is emitted; above CSR4095 [riscv_program_csrr] fails its
    assertion while [riscv_program_csrw] and [riscv_program_csrrw], which
    check the lower bound only, go on to emit a CSR number above 4095. *)
Theorem csr_emitters_range (p : riscv_program) (d s csr : gdb_regno) :
  (forall rc p', riscv_program_csrr p d csr = Ret (rc, p') ->
     GDB_REGNO_CSR0 <= csr <= GDB_REGNO_CSR4095 /\
     csr - GDB_REGNO_CSR0 <= 4095 /\
     p' = appended p (csrrs d GDB_REGNO_X0 (csr - GDB_REGNO_CSR0))) /\
  (csr < GDB_REGNO_CSR0 ->
     riscv_program_csrr p d csr =
       Fatal "assert(csr >= GDB_REGNO_CSR0 && csr <= GDB_REGNO_CSR4095)" /\
     riscv_program_csrw p s csr = Fatal "assert(csr >= GDB_REGNO_CSR0)" /\
     riscv_program_csrrw p d s csr = Fatal "assert(csr >= GDB_REGNO_CSR0)") /\
  (GDB_REGNO_CSR4095 < csr ->
     riscv_program_csrr p d csr =
       Fatal "assert(csr >= GDB_REGNO_CSR0 && csr <= GDB_REGNO_CSR4095)" /\
     4095 < csr - GDB_REGNO_CSR0 /\
     riscv_program_csrw p s csr =
       riscv_program_insert p (csrrw GDB_REGNO_X0 s (csr - GDB_REGNO_CSR0)) /\
     riscv_program_csrrw p d s csr =
       riscv_program_insert p (csrrw d s (csr - GDB_REGNO_CSR0))).
Proof.
  unfold riscv_program_csrr, riscv_program_csrw, riscv_program_csrrw.
  unfold GDB_REGNO_CSR4095.
  destruct (Nat.leb_spec GDB_REGNO_CSR0 csr) as [Hlo|Hlo];
    destruct (Nat.leb_spec csr (GDB_REGNO_CSR0 + 4095)) as [Hhi|Hhi];
    cbn [andb]; (split; [|split]); try (intros; lia); try discriminate.
  - intros rc p' H. primitive_inv. repeat split; lia.
  - intros _. repeat split. lia.
  - intros _. repeat split.
Qed.

(** The theorem at GDB register 4161, one above the last CSR. *)
Lemma csr_emitters_range_witness :
  GDB_REGNO_CSR4095 < 4161 /\
  riscv_program_csrr example_program 5 4161 =
    Fatal "assert(csr >= GDB_REGNO_CSR0 && csr <= GDB_REGNO_CSR4095)" /\
  exists p', riscv_program_csrw example_program 5 4161 = Ret (ERROR_OK, p') /\
             debug_buffer p' !! 0 = Some (csrrw GDB_REGNO_X0 5 4096).
Proof.
  assert (Hgt : GDB_REGNO_CSR4095 < 4161) by (vm_compute; lia).
  destruct (csr_emitters_range example_program 5 5 4161) as (_ & _ & Hhi).
  destruct (Hhi Hgt) as (Hr & _ & Hw & _).
  split; [exact Hgt|]. split; [exact Hr|].
  eexists. split; [rewrite Hw; reflexivity|reflexivity].
Defined.

(** X9: a sequence of emissions into a program within its capacity
    returns exactly when the words fit; the count then grows by their
    number, and otherwise the sequence is fatal. *)
Theorem insert_all_returns_iff_fits (l : list riscv_insn_t) (p : riscv_program) :
  program_wf p -> target_wf (target p) -> count_within_capacity p ->
  (instruction_count p + length l <= riscv_debug_buffer_size (target p) ->
     exists p', insert_all p l = Ret p' /\
                instruction_count p' = instruction_count p + length l) /\
  (riscv_debug_buffer_size (target p) < instruction_count p + length l ->
     insert_all p l = Fatal "Unable to insert instruction:").
Proof.
  intros Hwf Ht Hc. split.
  - intros Hfits.
    destruct (insert_all_fits l p Hwf Ht Hfits) as (p' & Hrun & _ & _ & Hcnt & _).
    exists p'. split; assumption.
  - revert p Hwf Ht Hc. induction l as [|i l IH]; intros p Hwf Ht Hc Hover.
    + unfold count_within_capacity in Hc. simpl in Hover. lia.
    + unfold count_within_capacity in Hc. simpl in Hover. simpl.
      destruct (Nat.eq_dec (instruction_count p) (riscv_debug_buffer_size (target p)))
        as [Heq|Hne].
      * rewrite insert_at_capacity by lia. reflexivity.
      * rewrite insert_appended by (auto; lia). run_bind.
        apply IH; [apply appended_wf; exact Hwf|exact Ht| |simpl; lia].
        unfold count_within_capacity. simpl. lia.
Qed.

(** The theorem at three words in the four slots of the example. *)
Lemma insert_all_returns_iff_fits_witness :
  program_wf example_program /\ target_wf (target example_program) /\
  count_within_capacity example_program /\
  exists p', insert_all example_program [fence; fence_i; ebreak] = Ret p' /\
             instruction_count p' = 3.
Proof.
  split; [exact example_program_wf|]. split; [exact example_target_wf|].
  split; [apply shape_ok_init|].
  apply (insert_all_returns_iff_fits [fence; fence_i; ebreak] example_program
           example_program_wf example_target_wf (proj2 (shape_ok_init example_target))).
  vm_compute. lia.
Defined.

(** ** The pool of scratch registers *)

Lemma gettemp_n_allocates n : forall p k,
  program_wf p -> k + n <= 24 ->
  (forall j, j < RISCV_REGISTER_COUNT ->
     (in_use p !!! j = true <-> GDB_REGNO_S0 <= j < GDB_REGNO_S0 + k)) ->
  exists p',
    gettemp_n n p = Ret (seq (GDB_REGNO_S0 + k) n, p') /\
    program_wf p' /\
    (forall j, j < RISCV_REGISTER_COUNT ->
       (in_use p' !!! j = true <-> GDB_REGNO_S0 <= j < GDB_REGNO_S0 + k + n)).
Proof.
  induction n as [|n IH]; intros p k Hwf Hk Huse.
  - exists p. split; [reflexivity|]. split; [exact Hwf|].
    intros j Hj. rewrite Nat.add_0_r. apply Huse. exact Hj.
  - assert (HS0 : GDB_REGNO_S0 = 8) by reflexivity.
    assert (HRC : RISCV_REGISTER_COUNT = 32) by reflexivity.
    assert (Hget : riscv_program_gettemp p =
                   Ret (GDB_REGNO_S0 + k, allocated p (GDB_REGNO_S0 + k))).
    { apply gettemp_loop_first_free.
      - unfold GDB_REGNO_XPR31. lia.
      - lia.
      - destruct (in_use p !!! (GDB_REGNO_S0 + k)) eqn:E; [|reflexivity].
        apply Huse in E; lia.
      - intros j Hj. apply Huse; lia. }
    destruct (IH (allocated p (GDB_REGNO_S0 + k)) (S k)) as (p' & Hrun & Hwf' & Huse').
    + apply allocated_wf. exact Hwf.
    + lia.
    + intros j Hj. destruct Hwf as (_ & _ & Hu).
      rewrite allocated_in_use by lia. case_decide as Hd.
      * split; [lia|reflexivity].
      * rewrite Huse by exact Hj. lia.
    + exists p'. cbn [gettemp_n]. rewrite Hget. run_bind.
      replace (GDB_REGNO_S0 + S k) with (S (GDB_REGNO_S0 + k)) in Hrun by lia.
      rewrite Hrun. run_bind.
      split; [reflexivity|]. split; [exact Hwf'|].
      intros j Hj. rewrite Huse' by exact Hj. lia.
Qed.

Lemma gettemp_n_exhausts n : forall p k,
  program_wf p -> k <= 24 -> 24 - k < n ->
  (forall j, j < RISCV_REGISTER_COUNT ->
     (in_use p !!! j = true <-> GDB_REGNO_S0 <= j < GDB_REGNO_S0 + k)) ->
  gettemp_n n p =
    Fatal "You've run out of temporary registers.  This is impossible.".
Proof.
  induction n as [|n IH]; intros p k Hwf Hk Hn Huse; [lia|].
  assert (HS0 : GDB_REGNO_S0 = 8) by reflexivity.
  assert (HRC : RISCV_REGISTER_COUNT = 32) by reflexivity.
  cbn [gettemp_n].
  destruct (Nat.eq_dec k 24) as [->|Hne].
  - unfold riscv_program_gettemp. rewrite gettemp_loop_none_free; [reflexivity|].
    intros j Hj. unfold GDB_REGNO_XPR31 in Hj. apply Huse; lia.
  - assert (Hget : riscv_program_gettemp p =
                   Ret (GDB_REGNO_S0 + k, allocated p (GDB_REGNO_S0 + k))).
    { apply gettemp_loop_first_free.
      - unfold GDB_REGNO_XPR31. lia.
      - lia.
      - destruct (in_use p !!! (GDB_REGNO_S0 + k)) eqn:E; [|reflexivity].
        apply Huse in E; lia.
      - intros j Hj. apply Huse; lia. }
    rewrite Hget. run_bind.
    rewrite (IH (allocated p (GDB_REGNO_S0 + k)) (S k)); [reflexivity| | | |].
    + apply allocated_wf. exact Hwf.
    + lia.
    + lia.
    + intros j Hj. destruct Hwf as (_ & _ & Hu).
      rewrite allocated_in_use by lia. case_decide as Hd.
      * split; [lia|reflexivity].
      * rewrite Huse by exact Hj. lia.
Qed.

(** X10: the scratch pool of a fresh program is x8..x31.  Up to 24
    allocations in a row succeed and return S0, S0 + 1, ... in this order;
    any longer run of allocations is fatal. *)
Theorem scratch_pool_of_fresh_program (t : struct_target) (n : nat) :
  (n <= 24 ->
     exists p', gettemp_n n (snd (riscv_program_init t))
                = Ret (seq GDB_REGNO_S0 n, p')) /\
  (24 < n ->
     gettemp_n n (snd (riscv_program_init t)) =
       Fatal "You've run out of temporary registers.  This is impossible.").
Proof.
  assert (Hfresh : forall j, j < RISCV_REGISTER_COUNT ->
    (in_use (snd (riscv_program_init t)) !!! j = true <->
     GDB_REGNO_S0 <= j < GDB_REGNO_S0 + 0)).
  { intros j Hj. unfold riscv_program_init. cbn [snd in_use].
    rewrite lookup_total_replicate_2 by exact Hj. split; [discriminate|lia]. }
  split.
  - intros Hn.
    destruct (gettemp_n_allocates n (snd (riscv_program_init t)) 0)
      as (p' & Hrun & _); [apply shape_ok_init|lia|exact Hfresh|].
    exists p'. rewrite Nat.add_0_r in Hrun. exact Hrun.
  - intros Hn.
    apply (gettemp_n_exhausts n (snd (riscv_program_init t)) 0);
      [apply shape_ok_init|lia|lia|exact Hfresh].
Qed.

(** The theorem at three allocations. *)
Lemma scratch_pool_of_fresh_program_witness :
  3 <= 24 /\
  exists p', gettemp_n 3 (snd (riscv_program_init example_target))
             = Ret ([8; 9; 10], p').
Proof.
  split; [lia|].
  apply (proj1 (scratch_pool_of_fresh_program example_target 3)). lia.
Defined.

(** X11: the store macros take their scratch register from the
    allocator without regard to the register whose value is stored: when
    the upper part of the address is not zero, the scratch register is the
    allocator's first free register [t] for every data register [d].  For
    [d = t] the emitted [lui] overwrites the data register, which is then
    both source and base of the store. *)
Theorem store_scratch_ignores_data_register (w : width) (p p0 : riscv_program)
  (t : gdb_regno) (a : riscv_addr_t) :
  target_wf (target p) ->
  riscv_program_gah p a <> 0%Z ->
  instruction_count p + 2 <= riscv_debug_buffer_size (target p) ->
  riscv_program_gettemp p = Ret (t, p0) ->
  (forall d,
     riscv_program_store w p d a =
       Ret (ERROR_OK,
            set_writes_memory
              (set_in_use
                 (appended
                    (appended p0 (lui t (to_int32 (riscv_program_gah p a))))
                    (store_insn w d t (riscv_program_gal p a)))
                 (<[t := false]> (in_use p0)))
              true)) /\
  exists p',
    riscv_program_store w p t a = Ret (ERROR_OK, p') /\
    debug_buffer p' =
      <[S (instruction_count p) := store_insn w t t (riscv_program_gal p a)]>
        (<[instruction_count p := lui t (to_int32 (riscv_program_gah p a))]>
           (debug_buffer p)).
Proof.
  intros Ht Hnz Hroom Hget.
  pose proof Hget as Hget'.
  apply gettemp_loop_Ret_inv in Hget' as (_ & _ & _ & _ & ->).
  assert (Hall : forall d,
    riscv_program_store w p d a =
      Ret (ERROR_OK,
           set_writes_memory
             (set_in_use
                (appended
                   (appended (allocated p t)
                      (lui t (to_int32 (riscv_program_gah p a))))
                   (store_insn w d t (riscv_program_gal p a)))
                (<[t := false]> (in_use (allocated p t))))
             true)).
  { intros d. rewrite store_is_code_shape.
    exact (store_code_shape_upper_nonzero _ p d a t Ht Hnz Hroom Hget). }
  split; [exact Hall|].
  eexists. split; [apply Hall|]. reflexivity.
Qed.

(** The theorem at the word store of S0 on the example program. *)
Lemma store_scratch_ignores_data_register_witness :
  exists p',
    riscv_program_sw example_program GDB_REGNO_S0 0x2004 = Ret (ERROR_OK, p') /\
    take 2 (debug_buffer p') = [lui GDB_REGNO_S0 2; sw GDB_REGNO_S0 GDB_REGNO_S0 4].
Proof.
  destruct (store_scratch_ignores_data_register Word example_program
              (allocated example_program GDB_REGNO_S0) GDB_REGNO_S0 0x2004)
    as (_ & p' & Hrun & Hbuf).
  - exact example_target_wf.
  - vm_compute. discriminate.
  - vm_compute. lia.
  - reflexivity.
  - exists p'. split; [exact Hrun|]. rewrite Hbuf. reflexivity.
Defined.

(** ** More on the execution *)

Lemma write_debug_buffer_events_run_trace vals buf lg lw ls rc :
  write_debug_buffer_events (run_trace vals buf lg lw ls rc) =
    map (fun j => (j, buf !!! j)) lw.
Proof.
  unfold run_trace, write_debug_buffer_events. cbn [omap list_omap].
  rewrite !omap_app.
  rewrite (omap_map_none _ (fun j => EvGetRegister j _)) by reflexivity.
  rewrite (omap_map_some _ _ (fun j : nat => (j, buf !!! j))) by reflexivity.
  rewrite (omap_map_none _ (fun j => EvSetRegister j _)) by reflexivity.
  cbn [omap list_omap app]. apply app_nil_r.
Qed.

Lemma fence_step p rc p1 :
  (if writes_memory p then riscv_program_fence p else Ret (ERROR_OK, p))
    = Ret (rc, p1) ->
  rc = ERROR_OK /\ p1 = with_fence p.
Proof.
  unfold with_fence, riscv_program_fence.
  destruct (writes_memory p); intros H.
  - apply insert_Ret_inv in H as (-> & _ & _ & ->). split; reflexivity.
  - injection H as <- <-. split; reflexivity.
Qed.

Lemma ebreak_step p rc p' :
  riscv_program_ebreak p = Ret (rc, p') -> rc = ERROR_OK /\ p' = with_ebreak p.
Proof.
  unfold with_ebreak, riscv_program_ebreak.
  destruct (instruction_count p =? riscv_debug_buffer_size (target p)); intros H.
  - injection H as <- <-. split; reflexivity.
  - apply insert_Ret_inv in H as (-> & _ & _ & ->). split; reflexivity.
Qed.

Lemma with_fence_ebreak_bookkeeping p :
  same_bookkeeping p (with_ebreak (with_fence p)) /\
  extends_buffer p (with_ebreak (with_fence p)).
Proof.
  unfold with_ebreak, with_fence, same_bookkeeping, extends_buffer.
  destruct (writes_memory p) eqn:Hm;
    match goal with
    | |- context [if ?c then _ else _] => destruct c
    end; simpl; rewrite ?Hm;
    (split; [repeat split|split; [lia|]]);
    intros j Hj; rewrite ?list_lookup_insert_ne by lia; reflexivity.
Qed.

Section ExecProgram.

Variable hart : Type.
Variable get_register : hart -> gdb_regno -> riscv_reg_t * hart.
Variable set_register : hart -> gdb_regno -> riscv_reg_t -> hart.
Variable write_debug_buffer : hart -> nat -> riscv_insn_t -> Z * hart.
Variable execute_debug_buffer : hart -> Z * hart.
Variable read_debug_buffer : hart -> nat -> riscv_insn_t * hart.

Lemma exec_Ret_program p t saved rc p' t' tr :
  riscv_program_exec get_register set_register write_debug_buffer
    execute_debug_buffer read_debug_buffer p t saved = Ret (rc, p', t', tr) ->
  p' = with_ebreak (with_fence p) /\ (rc = ERROR_OK \/ rc = ERROR_FAIL).
Proof.
  unfold riscv_program_exec.
  destruct (save_loop _ _ _ _ _ _ _) as [[vals t1] tr_save].
  intros H. apply bind_Ret_inv in H as ([rc1 p1] & E1 & H).
  apply fence_step in E1 as (-> & ->).
  cbv beta iota in H. rewrite guard_ok in H.
  apply bind_Ret_inv in H as ([rc2 p2] & E2 & H).
  apply ebreak_step in E2 as (-> & ->).
  cbv beta iota in H. rewrite guard_ok in H. revert H.
  destruct (riscv_program_write _ _ t1) as [[rcw t2] tr_write].
  destruct (negb (rcw =? ERROR_OK)%Z).
  { intros H. injection H as <- <- <- <-. split; [reflexivity|right; reflexivity]. }
  destruct (execute_debug_buffer t2) as [rce t3].
  destruct (negb (rce =? ERROR_OK)%Z).
  { intros H. injection H as <- <- <- <-. split; [reflexivity|right; reflexivity]. }
  rewrite readback_loop_reads_nothing by lia.
  cbn [mbind outcome_bind]. cbv beta iota.
  destruct (restore_loop _ _ _ _ _ _ _) as [t5 tr_restore].
  intros H. injection H as <- <- <- <-. split; [reflexivity|left; reflexivity].
Qed.

(** X12: whenever [riscv_program_exec] returns, with success or with
    failure, the program it leaves is the program it was given followed by
    a fence if the program writes memory and by a breakpoint unless the
    buffer is then full; the target, the width, the flags and the words
    emitted before are unchanged.  On success the slots transferred to the
    target are exactly the slots 0 .. [instruction_count] - 1 of that
    program, each once, in ascending order. *)
Theorem exec_transfers_program_fence_breakpoint p t saved rc p' t' tr :
  length saved = S GDB_REGNO_XPR31 ->
  riscv_program_exec get_register set_register write_debug_buffer
    execute_debug_buffer read_debug_buffer p t saved = Ret (rc, p', t', tr) ->
  p' = with_ebreak (with_fence p) /\
  same_bookkeeping p p' /\
  extends_buffer p p' /\
  (rc = ERROR_OK ->
     write_debug_buffer_events tr =
       map (fun j => (j, debug_buffer p' !!! j)) (seq 0 (instruction_count p'))).
Proof.
  intros Hlen H.
  pose proof (exec_Ret_program _ _ _ _ _ _ _ H) as (Hp & _).
  split; [exact Hp|].
  split; [rewrite Hp; apply with_fence_ebreak_bookkeeping|].
  split; [rewrite Hp; apply with_fence_ebreak_bookkeeping|].
  intros ->.
  apply exec_success_inv in H as (p1 & vals & _ & _ & _ & ->); [|exact Hlen].
  apply write_debug_buffer_events_run_trace.
Qed.

(** X13: [riscv_program_exec] returns exactly when the program,
    together with the fence of a program that writes memory, fits the
    buffer -- the breakpoint needs no slot of its own.  Otherwise it is
    fatal with the message of [riscv_program_insert], before anything is
    transferred: a full program that writes memory cannot be run. *)
Theorem exec_returns_iff_room p t saved :
  target_wf (target p) ->
  (instruction_count (with_fence p) <= riscv_debug_buffer_size (target p) ->
   returns (riscv_program_exec get_register set_register write_debug_buffer
              execute_debug_buffer read_debug_buffer p t saved)) /\
  (riscv_debug_buffer_size (target p) < instruction_count (with_fence p) ->
   riscv_program_exec get_register set_register write_debug_buffer
     execute_debug_buffer read_debug_buffer p t saved
     = Fatal "Unable to insert instruction:").
Proof.
  intros Ht. unfold riscv_program_exec, with_fence, riscv_program_fence.
  destruct (save_loop _ _ _ _ _ _ _) as [[vals t1] tr_save].
  split.
  - intros Hroom.
    assert (E1 : (if writes_memory p then riscv_program_insert p fence
                  else Ret (ERROR_OK, p)) = Ret (ERROR_OK, with_fence p)).
    { unfold with_fence. revert Hroom.
      destruct (writes_memory p); [|reflexivity].
      simpl. intros Hroom. apply insert_appended; [exact Ht|lia]. }
    rewrite E1. run_bind.
    destruct (ebreak_returns (with_fence p)) as (p2 & E2).
    { unfold with_fence. destruct (writes_memory p); exact Ht. }
    { unfold count_within_capacity, with_fence in *.
      destruct (writes_memory p); simpl in *; lia. }
    rewrite E2. run_bind.
    destruct (riscv_program_write _ p2 t1) as [[rcw t2] tr_write].
    destruct (negb (rcw =? ERROR_OK)%Z); [eexists; reflexivity|].
    destruct (execute_debug_buffer t2) as [rce t3].
    destruct (negb (rce =? ERROR_OK)%Z); [eexists; reflexivity|].
    rewrite readback_loop_reads_nothing by lia.
    cbn [mbind outcome_bind]. cbv beta iota.
    destruct (restore_loop _ _ _ _ _ _ _) as [t5 tr_restore].
    eexists. reflexivity.
  - destruct (writes_memory p) eqn:Hm.
    + intros Hfull. cbn [appended instruction_count set_instruction_count] in Hfull.
      rewrite insert_at_capacity by lia. reflexivity.
    + intros Hfull. run_bind. unfold riscv_program_ebreak.
      destruct (Nat.eqb_spec (instruction_count p)
                  (riscv_debug_buffer_size (target p))); [lia|].
      rewrite insert_at_capacity by lia. reflexivity.
Qed.

End ExecProgram.

(** The theorem at a register-offset store run on the simulated target. *)
Lemma exec_transfers_program_fence_breakpoint_witness :
  exists p' t' tr,
    sim_exec (appended (set_writes_memory example_program true) (sw 5 6 0))
      (sim_reset 4) (replicate 32 0%Z) = Ret (ERROR_OK, p', t', tr) /\
    write_debug_buffer_events tr = [(0, sw 5 6 0); (1, fence); (2, ebreak)].
Proof.
  assert (H : exists p' t' tr,
    sim_exec (appended (set_writes_memory example_program true) (sw 5 6 0))
      (sim_reset 4) (replicate 32 0%Z) = Ret (ERROR_OK, p', t', tr)).
  { eexists. eexists. eexists. reflexivity. }
  destruct H as (p' & t' & tr & H). exists p', t', tr. split; [exact H|].
  destruct (exec_transfers_program_fence_breakpoint sim_hart sim_get_register
              sim_set_register sim_write_debug_buffer sim_execute_debug_buffer
              sim_read_debug_buffer _ (sim_reset 4) (replicate 32 0%Z)
              _ _ _ _ eq_refl H)
    as (Hp & _ & _ & Hw).
  rewrite (Hw eq_refl), Hp. reflexivity.
Defined.

(** The theorem at a full program that writes memory. *)
Lemma exec_returns_iff_room_witness :
  exists p,
    run_ops [OpSwr 5 6 0; OpFence; OpFence; OpFence] example_program = Ret p /\
    target_wf (target p) /\
    riscv_debug_buffer_size (target p) < instruction_count (with_fence p) /\
    sim_exec p (sim_reset 4) (replicate 32 0%Z)
      = Fatal "Unable to insert instruction:".
Proof.
  eexists. split; [reflexivity|].
  split; [exact example_target_wf|].
  assert (Hfull : 4 < 5) by lia.
  split; [exact Hfull|].
  match goal with
  | |- sim_exec ?q _ _ = _ =>
      exact (proj2 (exec_returns_iff_room sim_hart sim_get_register
        sim_set_register sim_write_debug_buffer sim_execute_debug_buffer
        sim_read_debug_buffer q (sim_reset 4) (replicate 32 0%Z)
        example_target_wf) Hfull)
  end.
Defined.

Section WriteProgram.

Variable hart : Type.
Variable write_debug_buffer : hart -> nat -> riscv_insn_t -> Z * hart.

Lemma write_loop_prefix p n : forall t i rc t' tr,
  write_loop hart write_debug_buffer p t i n = (rc, t', tr) ->
  (exists k, k <= n /\
     tr = map (fun j => EvWriteDebugBuffer j (debug_buffer p !!! j)) (seq i k) /\
     (rc = ERROR_OK /\ k = n \/ rc = ERROR_FAIL /\ 0 < k)) /\
  ((forall h j w, fst (write_debug_buffer h j w) = ERROR_OK) -> rc = ERROR_OK).
Proof.
  induction n as [|n IH]; intros t i rc t' tr H.
  - cbn [write_loop] in H. injection H as <- <- <-.
    split; [|reflexivity]. exists 0. split; [lia|]. split; [reflexivity|].
    left. split; reflexivity.
  - cbn [write_loop] in H. cbv zeta in H.
    pose proof (fun Hall : forall h j w, fst (write_debug_buffer h j w) = ERROR_OK =>
                  Hall t i (debug_buffer p !!! i)) as Hnow.
    destruct (write_debug_buffer t i (debug_buffer p !!! i)) as [rc1 t1].
    destruct (Z.eqb_spec rc1 ERROR_OK) as [->|Hne]; cbn [negb] in H.
    + destruct (write_loop hart write_debug_buffer p t1 (S i) n)
        as [[rc' t2] tr2] eqn:E.
      injection H as <- <- <-.
      apply IH in E as ((k & Hk & -> & Hrc) & Hall). split; [|exact Hall].
      exists (S k). split; [lia|]. split; [reflexivity|].
      destruct Hrc as [(-> & ->)|(-> & _)]; [left|right]; split; try reflexivity; lia.
    + injection H as <- <- <-. split.
      * exists 1. split; [lia|]. split; [reflexivity|]. right. split; [reflexivity|lia].
      * intros Hall. specialize (Hnow Hall). simpl in Hnow. contradiction.
Qed.

(** X14: [riscv_program_write] transfers the slots of the program in
    ascending order from slot 0 and stops at the first transfer that fails:
    the slots written are 0 .. k - 1 for some k up to [instruction_count],
    all of them on success, at least one on failure (ERROR_FAIL); it never
    transfers a slot at or above [instruction_count], and on a target whose
    transfers all succeed it succeeds. *)
Theorem riscv_program_write_prefix p t rc t' tr :
  riscv_program_write write_debug_buffer p t = (rc, t', tr) ->
  (exists k, k <= instruction_count p /\
     tr = map (fun j => EvWriteDebugBuffer j (debug_buffer p !!! j)) (seq 0 k) /\
     (rc = ERROR_OK /\ k = instruction_count p \/ rc = ERROR_FAIL /\ 0 < k)) /\
  ((forall h j w, fst (write_debug_buffer h j w) = ERROR_OK) -> rc = ERROR_OK).
Proof. apply write_loop_prefix. Qed.

End WriteProgram.


(** The theorem at a program of two words on the simulated target. *)
Lemma riscv_program_write_prefix_witness :
  exists t' tr,
    riscv_program_write sim_write_debug_buffer
      (appended (appended example_program fence) fence_i) (sim_reset 4)
      = (ERROR_OK, t', tr) /\
    tr = [EvWriteDebugBuffer 0 fence; EvWriteDebugBuffer 1 fence_i].
Proof.
  assert (H : exists t' tr,
    riscv_program_write sim_write_debug_buffer
      (appended (appended example_program fence) fence_i) (sim_reset 4)
      = (ERROR_OK, t', tr)).
  { eexists. eexists. reflexivity. }
  destruct H as (t' & tr & H). exists t', tr. split; [exact H|].
  destruct (riscv_program_write_prefix sim_hart sim_write_debug_buffer _ _ _ _ _ H)
    as ((k & _ & Htr & [(_ & ->)|(Hf & _)]) & _); [|discriminate Hf].
  rewrite Htr. reflexivity.
Defined.

Section ExecFresh.

Variable hart : Type.
Variable get_register : hart -> gdb_regno -> riscv_reg_t * hart.
Variable set_register : hart -> gdb_regno -> riscv_reg_t -> hart.
Variable write_debug_buffer : hart -> nat -> riscv_insn_t -> Z * hart.
Variable execute_debug_buffer : hart -> Z * hart.
Variable read_debug_buffer : hart -> nat -> riscv_insn_t * hart.

Lemma save_loop_nothing_dirtied p n : forall t saved i,
  (forall j, i <= j < i + n -> writes_xreg p !!! j = false) ->
  save_loop hart get_register p t saved i n = (saved, t, []).
Proof.
  induction n as [|n IH]; intros t saved i Hclean; cbn [save_loop]; [reflexivity|].
  rewrite (Hclean i) by lia. apply IH. intros j Hj. apply Hclean. lia.
Qed.

Lemma restore_loop_nothing_dirtied p saved n : forall t i,
  (forall j, i <= j < i + n -> writes_xreg p !!! j = false) ->
  restore_loop hart set_register p saved t i n = (t, []).
Proof.
  induction n as [|n IH]; intros t i Hclean; cbn [restore_loop]; [reflexivity|].
  rewrite (Hclean i) by lia. apply IH. intros j Hj. apply Hclean. lia.
Qed.

(** X15: the run of a freshly initialised program.  On a target with
    at least one slot it appends the breakpoint and nothing else, transfers
    that one word, executes, and reads and writes no register; when the
    transfer and the execution succeed it returns ERROR_OK.  On a target
    that reports no slot at all it transfers nothing and executes. *)
Theorem exec_fresh_program (tg : struct_target) (t t1 t2 : hart)
  (saved : list riscv_reg_t) :
  (0 < riscv_debug_buffer_size tg ->
   write_debug_buffer t 0 ebreak = (ERROR_OK, t1) ->
   execute_debug_buffer t1 = (ERROR_OK, t2) ->
   riscv_program_exec get_register set_register write_debug_buffer
     execute_debug_buffer read_debug_buffer (snd (riscv_program_init tg)) t saved
   = Ret (ERROR_OK, appended (snd (riscv_program_init tg)) ebreak, t2,
          [EvKeepAlive; EvWriteDebugBuffer 0 ebreak;
           EvExecuteDebugBuffer ERROR_OK])) /\
  (riscv_debug_buffer_size tg = 0 ->
   execute_debug_buffer t = (ERROR_OK, t2) ->
   riscv_program_exec get_register set_register write_debug_buffer
     execute_debug_buffer read_debug_buffer (snd (riscv_program_init tg)) t saved
   = Ret (ERROR_OK, snd (riscv_program_init tg), t2,
          [EvKeepAlive; EvExecuteDebugBuffer ERROR_OK])).
Proof.
  assert (Hclean : forall i n j, i <= j < i + n -> i + n <= RISCV_REGISTER_COUNT ->
    writes_xreg (snd (riscv_program_init tg)) !!! j = false).
  { intros i n j Hj Hn. unfold riscv_program_init. cbn [snd writes_xreg].
    apply lookup_total_replicate_2. lia. }
  assert (H31 : GDB_REGNO_XPR0 + 1 + (GDB_REGNO_XPR31 - GDB_REGNO_XPR0)
                <= RISCV_REGISTER_COUNT) by (vm_compute; lia).
  assert (H32 : GDB_REGNO_XPR0 + (S GDB_REGNO_XPR31 - GDB_REGNO_XPR0)
                <= RISCV_REGISTER_COUNT) by (vm_compute; lia).
  split.
  - intros Hcap Hw He. unfold riscv_program_exec.
    rewrite save_loop_nothing_dirtied by (intros j Hj; eapply Hclean; eauto).
    change (writes_memory (snd (riscv_program_init tg))) with false.
    cbv iota. run_bind.
    assert (E2 : riscv_program_ebreak (snd (riscv_program_init tg)) =
                 Ret (ERROR_OK, appended (snd (riscv_program_init tg)) ebreak)).
    { unfold riscv_program_ebreak, riscv_program_insert.
      change (instruction_count (snd (riscv_program_init tg))) with 0.
      change (target (snd (riscv_program_init tg))) with tg.
      destruct (Nat.eqb_spec 0 (riscv_debug_buffer_size tg)); [lia|].
      destruct (Nat.leb_spec (riscv_debug_buffer_size tg) 0); [lia|].
      reflexivity. }
    rewrite E2. run_bind.
    unfold riscv_program_write.
    change (instruction_count (appended (snd (riscv_program_init tg)) ebreak)) with 1.
    cbn [write_loop]. cbv zeta.
    change (debug_buffer (appended (snd (riscv_program_init tg)) ebreak) !!! 0)
      with ebreak.
    rewrite Hw. cbn [negb Z.eqb ERROR_OK]. rewrite He. cbn [negb Z.eqb ERROR_OK].
    rewrite readback_loop_reads_nothing by lia. run_bind.
    rewrite restore_loop_nothing_dirtied by (intros j Hj; eapply Hclean; eauto).
    reflexivity.
  - intros Hcap He. unfold riscv_program_exec.
    rewrite save_loop_nothing_dirtied by (intros j Hj; eapply Hclean; eauto).
    change (writes_memory (snd (riscv_program_init tg))) with false.
    cbv iota. run_bind.
    assert (E2 : riscv_program_ebreak (snd (riscv_program_init tg)) =
                 Ret (ERROR_OK, snd (riscv_program_init tg))).
    { unfold riscv_program_ebreak.
      change (instruction_count (snd (riscv_program_init tg))) with 0.
      change (target (snd (riscv_program_init tg))) with tg.
      rewrite Hcap. reflexivity. }
    rewrite E2. run_bind.
    unfold riscv_program_write.
    change (instruction_count (snd (riscv_program_init tg))) with 0.
    cbn [write_loop]. cbn [negb Z.eqb ERROR_OK]. rewrite He.
    cbn [negb Z.eqb ERROR_OK].
    rewrite readback_loop_reads_nothing by (simpl; lia). run_bind.
    rewrite restore_loop_nothing_dirtied by (intros j Hj; eapply Hclean; eauto).
    reflexivity.
Qed.

End ExecFresh.

(** The theorem on the simulated target with four slots. *)
Lemma exec_fresh_program_witness :
  0 < riscv_debug_buffer_size example_target /\
  exists t',
    sim_exec example_program (sim_reset 4) (replicate 32 0%Z)
    = Ret (ERROR_OK, appended example_program ebreak, t',
           [EvKeepAlive; EvWriteDebugBuffer 0 ebreak;
            EvExecuteDebugBuffer ERROR_OK]).
Proof.
  assert (Hcap : 0 < riscv_debug_buffer_size example_target) by (vm_compute; lia).
  split; [exact Hcap|]. eexists.
  exact (proj1 (exec_fresh_program sim_hart sim_get_register sim_set_register
    sim_write_debug_buffer sim_execute_debug_buffer sim_read_debug_buffer
    example_target (sim_reset 4)
    (snd (sim_write_debug_buffer (sim_reset 4) 0 ebreak))
    (snd (sim_execute_debug_buffer
            (snd (sim_write_debug_buffer (sim_reset 4) 0 ebreak))))
    (replicate 32 0%Z)) Hcap eq_refl eq_refl).
Defined.

Lemma In_dirtied_between p i n r :
  In r (dirtied_between p i n) <-> i <= r < i + n /\ writes_xreg p !!! r = true.
Proof.
  unfold dirtied_between. rewrite filter_In, in_seq. reflexivity.
Qed.

Section RestoreFollowsFlags.

Variable hart : Type.
Variable get_register : hart -> gdb_regno -> riscv_reg_t * hart.
Variable set_register : hart -> gdb_regno -> riscv_reg_t -> hart.
Variable write_debug_buffer : hart -> nat -> riscv_insn_t -> Z * hart.
Variable execute_debug_buffer : hart -> Z * hart.
Variable read_debug_buffer : hart -> nat -> riscv_insn_t * hart.

(** X16: opting a register out of and into restoration.  After
    [riscv_program_dont_restore_register] of [r], a successful run neither
    reads [r] before the execution nor writes it afterwards, whatever was
    done with [r] before; after [riscv_program_do_restore_register] of a
    register [r] other than x0, a successful run reads [r] before the
    execution and writes the value it read back afterwards. *)
Theorem restore_follows_opt_out_and_in p r t saved p' t' tr :
  length saved = S GDB_REGNO_XPR31 -> program_wf p ->
  (forall rc1 p1,
     riscv_program_dont_restore_register p r = Ret (rc1, p1) ->
     riscv_program_exec get_register set_register write_debug_buffer
       execute_debug_buffer read_debug_buffer p1 t saved
       = Ret (ERROR_OK, p', t', tr) ->
     ~ In r (map fst (get_register_events tr)) /\
     ~ In r (map fst (set_register_events tr))) /\
  (forall rc1 p1,
     riscv_program_do_restore_register p r = Ret (rc1, p1) ->
     GDB_REGNO_X0 < r ->
     riscv_program_exec get_register set_register write_debug_buffer
       execute_debug_buffer read_debug_buffer p1 t saved
       = Ret (ERROR_OK, p', t', tr) ->
     exists v, In (r, v) (get_register_events tr) /\
               In (r, v) (set_register_events tr)).
Proof.
  intros Hlen (_ & Hw & _). split.
  - intros rc1 p1 Hopt Hrun.
    apply dont_restore_register_Ret_inv in Hopt as (_ & Hr & ->).
    apply exec_success_restores_snapshots in Hrun as (Hget & Hset); [|exact Hlen].
    assert (Hclear :
      writes_xreg (set_writes_xreg p (<[r:=false]> (writes_xreg p))) !!! r = false).
    { simpl. apply list_lookup_total_insert_eq. lia. }
    assert (Hnot : ~ In r (map fst (get_register_events tr))).
    { rewrite Hget, In_dirtied_between. intros (_ & Hd). congruence. }
    split; [exact Hnot|].
    rewrite Hset, map_app, in_app_iff. intros [Hin|Hin]; [|exact (Hnot Hin)].
    destruct (writes_xreg _ !!! GDB_REGNO_X0) eqn:E0; [|exact Hin].
    destruct Hin as [Heq|[]]. simpl in Heq. subst r. congruence.
  - intros rc1 p1 Hopt Hpos Hrun.
    apply do_restore_register_Ret_inv in Hopt as (_ & Hr & ->).
    apply exec_success_restores_snapshots in Hrun as (Hget & Hset); [|exact Hlen].
    assert (Hin : In r (map fst (get_register_events tr))).
    { rewrite Hget, In_dirtied_between. split.
      - unfold GDB_REGNO_X0, GDB_REGNO_XPR0, GDB_REGNO_XPR31,
          RISCV_REGISTER_COUNT in *. lia.
      - simpl. apply list_lookup_total_insert_eq. lia. }
    apply in_map_iff in Hin as ([r' v] & Hfst & Hin). simpl in Hfst. subst r'.
    exists v. split; [exact Hin|]. rewrite Hset. apply in_or_app. right. exact Hin.
Qed.

End RestoreFollowsFlags.

(** The theorem at an allocation of S0 followed by its opt-out, on the
    simulated target. *)
Lemma restore_follows_opt_out_and_in_witness :
  exists p1 p' t' tr,
    riscv_program_dont_restore_register
      (allocated example_program GDB_REGNO_S0) GDB_REGNO_S0 = Ret (ERROR_OK, p1) /\
    sim_exec p1 (sim_reset 4) (replicate 32 0%Z) = Ret (ERROR_OK, p', t', tr) /\
    ~ In GDB_REGNO_S0 (map fst (set_register_events tr)).
Proof.
  assert (H : exists p' t' tr,
    sim_exec (set_writes_xreg (allocated example_program GDB_REGNO_S0)
                (<[GDB_REGNO_S0 := false]>
                   (writes_xreg (allocated example_program GDB_REGNO_S0))))
      (sim_reset 4) (replicate 32 0%Z) = Ret (ERROR_OK, p', t', tr)).
  { eexists. eexists. eexists. reflexivity. }
  destruct H as (p' & t' & tr & H).
  eexists. exists p', t', tr. split; [reflexivity|]. split; [exact H|].
  refine (proj2 (proj1 (restore_follows_opt_out_and_in sim_hart sim_get_register
    sim_set_register sim_write_debug_buffer sim_execute_debug_buffer
    sim_read_debug_buffer (allocated example_program GDB_REGNO_S0) GDB_REGNO_S0
    (sim_reset 4) (replicate 32 0%Z) p' t' tr eq_refl _) ERROR_OK _ eq_refl H)).
  apply allocated_wf. exact example_program_wf.
Defined.

(** ** The restoration flags *)

(** X17: [riscv_program_do_restore_register] and
    [riscv_program_dont_restore_register] reject a register number of
    RISCV_REGISTER_COUNT or more (failed assertion) and otherwise set,
    respectively clear, the dirtied flag of that one register: no other
    flag, no [in_use] flag and no word of the buffer changes, and of two
    calls on the same register the last one wins. *)
Theorem restore_flag_last_call_wins (p : riscv_program) (r : gdb_regno) :
  (RISCV_REGISTER_COUNT <= r ->
     riscv_program_do_restore_register p r =
       Fatal "assert(r < RISCV_REGISTER_COUNT)" /\
     riscv_program_dont_restore_register p r =
       Fatal "assert(r < RISCV_REGISTER_COUNT)") /\
  (r < RISCV_REGISTER_COUNT -> program_wf p ->
     exists p_do p_dont,
       riscv_program_do_restore_register p r = Ret (ERROR_OK, p_do) /\
       riscv_program_dont_restore_register p r = Ret (ERROR_OK, p_dont) /\
       writes_xreg p_do !!! r = true /\
       writes_xreg p_dont !!! r = false /\
       (forall j, j <> r ->
          writes_xreg p_do !!! j = writes_xreg p !!! j /\
          writes_xreg p_dont !!! j = writes_xreg p !!! j) /\
       in_use p_do = in_use p /\ in_use p_dont = in_use p /\
       debug_buffer p_do = debug_buffer p /\ debug_buffer p_dont = debug_buffer p /\
       riscv_program_dont_restore_register p_do r = Ret (ERROR_OK, p_dont) /\
       riscv_program_do_restore_register p_dont r = Ret (ERROR_OK, p_do)).
Proof.
  unfold riscv_program_do_restore_register, riscv_program_dont_restore_register.
  destruct (Nat.ltb_spec r RISCV_REGISTER_COUNT) as [Hlt|Hge].
  - split; [intros; lia|]. intros _ (_ & Hw & _).
    eexists. eexists. split; [reflexivity|]. split; [reflexivity|].
    cbn [writes_xreg in_use debug_buffer set_writes_xreg].
    split; [apply list_lookup_total_insert_eq; lia|].
    split; [apply list_lookup_total_insert_eq; lia|].
    split.
    { intros j Hj. rewrite !list_lookup_total_insert_ne by congruence. auto. }
    repeat (split; [reflexivity|]).
    unfold set_writes_xreg. cbn. rewrite !list_insert_insert_eq. split; reflexivity.
  - split; [intros _; split; reflexivity|]. intros; lia.
Qed.

(** The theorem at register 5 of the example program. *)
Lemma restore_flag_last_call_wins_witness :
  5 < RISCV_REGISTER_COUNT /\ program_wf example_program /\
  exists p_do p_dont,
    riscv_program_do_restore_register example_program 5 = Ret (ERROR_OK, p_do) /\
    riscv_program_dont_restore_register p_do 5 = Ret (ERROR_OK, p_dont) /\
    writes_xreg p_dont !!! 5 = false.
Proof.
  assert (H5 : 5 < RISCV_REGISTER_COUNT) by (vm_compute; lia).
  split; [exact H5|]. split; [exact example_program_wf|].
  destruct (proj2 (restore_flag_last_call_wins example_program 5) H5
              example_program_wf)
    as (p_do & p_dont & Hdo & _ & _ & Hclear & _ & _ & _ & _ & _ & Hlast & _).
  exists p_do, p_dont. split; [exact Hdo|]. split; [exact Hlast|exact Hclear].
Defined.

(** ** Materialising an address in a register *)

Lemma lah_result p d a :
  target_wf (target p) ->
  instruction_count p < riscv_debug_buffer_size (target p) ->
  riscv_program_lah p d a =
    Ret (ERROR_OK,
         if (riscv_program_gah p a =? 0)%Z then p
         else appended p (lui d (to_int32 (riscv_program_gah p a)))).
Proof.
  intros Ht Hroom. unfold riscv_program_lah, riscv_program_lui. cbv zeta.
  destruct (riscv_program_gah p a =? 0)%Z; [reflexivity|].
  apply insert_appended; assumption.
Qed.

Lemma gal_fits_int16 p a :
  to_int16 (riscv_program_gal p a) = riscv_program_gal p a.
Proof.
  apply to_int16_small. change (2 ^ 15)%Z with 32768%Z.
  unfold riscv_program_gal. destruct (0 <? a)%Z; [|lia].
  change 0x7FF%Z with (Z.ones 11). rewrite Z.land_ones by lia.
  pose proof (Z.mod_pos_bound a (2 ^ 11) ltac:(lia)).
  change (2 ^ 11)%Z with 2048%Z in *. lia.
Qed.

Lemma lal_result p d a :
  target_wf (target p) ->
  instruction_count p < riscv_debug_buffer_size (target p) ->
  riscv_program_lal p d a =
    Ret (ERROR_OK,
         if (riscv_program_gal p a =? 0)%Z then p
         else appended p (addi d d (riscv_program_gal p a))).
Proof.
  intros Ht Hroom. unfold riscv_program_lal, riscv_program_addi. cbv zeta.
  rewrite gal_fits_int16.
  destruct (riscv_program_gal p a =? 0)%Z; [reflexivity|].
  apply insert_appended; assumption.
Qed.

(** X18: [riscv_program_lah] followed by [riscv_program_lal] on the
    same register and address emits, when two slots are free, a [lui] of
    the upper part if it is not zero and then an [addi] of the lower part
    if it is not zero -- two, one or no instruction; nothing at all for the
    address 0. *)
Theorem lah_then_lal (p : riscv_program) (d : gdb_regno) (a : riscv_addr_t) :
  target_wf (target p) ->
  instruction_count p + 2 <= riscv_debug_buffer_size (target p) ->
  exists p1 p2,
    riscv_program_lah p d a = Ret (ERROR_OK, p1) /\
    riscv_program_lal p1 d a = Ret (ERROR_OK, p2) /\
    p1 = (if (riscv_program_gah p a =? 0)%Z then p
          else appended p (lui d (to_int32 (riscv_program_gah p a)))) /\
    p2 = (if (riscv_program_gal p a =? 0)%Z then p1
          else appended p1 (addi d d (riscv_program_gal p a))) /\
    instruction_count p2 =
      instruction_count p
      + (if (riscv_program_gah p a =? 0)%Z then 0 else 1)
      + (if (riscv_program_gal p a =? 0)%Z then 0 else 1) /\
    (a = 0%Z -> p2 = p).
Proof.
  intros Ht Hroom.
  set (p1 := if (riscv_program_gah p a =? 0)%Z then p
             else appended p (lui d (to_int32 (riscv_program_gah p a)))).
  assert (Hp1 : target p1 = target p /\
                instruction_count p1 <= instruction_count p + 1).
  { unfold p1. destruct (riscv_program_gah p a =? 0)%Z; simpl; split; auto; lia. }
  destruct Hp1 as (Htg & Hc1).
  exists p1. eexists.
  split; [unfold p1; apply lah_result; [exact Ht|lia]|].
  split; [apply (lal_result p1 d a); [rewrite Htg; exact Ht|rewrite Htg; lia]|].
  split; [reflexivity|]. split; [reflexivity|]. split.
  - change (riscv_program_gal p1 a) with (riscv_program_gal p a). unfold p1.
    destruct (riscv_program_gah p a =? 0)%Z;
      destruct (riscv_program_gal p a =? 0)%Z; simpl; lia.
  - intros ->. reflexivity.
Qed.

(** The theorem at the address 0x2004 and register 5. *)
Lemma lah_then_lal_witness :
  target_wf (target example_program) /\
  exists p1 p2,
    riscv_program_lah example_program 5 0x2004 = Ret (ERROR_OK, p1) /\
    riscv_program_lal p1 5 0x2004 = Ret (ERROR_OK, p2) /\
    instruction_count p2 = 2.
Proof.
  split; [exact example_target_wf|].
  destruct (lah_then_lal example_program 5 0x2004 example_target_wf)
    as (p1 & p2 & H1 & H2 & _ & _ & Hc & _); [vm_compute; lia|].
  exists p1, p2. split; [exact H1|]. split; [exact H2|]. rewrite Hc. reflexivity.
Defined.

(** ** The run that fails *)

(** The projections of the trace of a run that stops after the transfer
    ([tail] empty) or after the execution ([tail] the execution). *)
Lemma failed_run_projections (vals : list riscv_reg_t) (buf : list riscv_insn_t)
  (lg lw : list nat) (tail : list event) :
  tail = [] \/ (exists rc, tail = [EvExecuteDebugBuffer rc]) ->
  let tr := EvKeepAlive
            :: map (fun j => EvGetRegister j (vals !!! j)) lg
            ++ map (fun j => EvWriteDebugBuffer j (buf !!! j)) lw
            ++ tail in
  get_register_events tr = map (fun j => (j, vals !!! j)) lg /\
  set_register_events tr = [] /\
  read_debug_buffer_events tr = [] /\
  write_debug_buffer_events tr = map (fun j => (j, buf !!! j)) lw.
Proof.
  intros Htail. cbv zeta.
  assert (Hg : forall l, get_register_events l = [] ->
    get_register_events
      (EvKeepAlive :: map (fun j => EvGetRegister j (vals !!! j)) lg ++ l)
    = map (fun j => (j, vals !!! j)) lg).
  { intros l Hl. unfold get_register_events in *. cbn [omap list_omap].
    rewrite omap_app, Hl, app_nil_r.
    apply omap_map_some. reflexivity. }
  assert (Hn : forall (C : Type) (f : event -> option C) l,
    f EvKeepAlive = None -> (forall j v, f (EvGetRegister j v) = None) ->
    omap f (EvKeepAlive :: map (fun j => EvGetRegister j (vals !!! j)) lg ++ l)
    = omap f l).
  { intros C f l Hk Hget. cbn [omap list_omap]. rewrite Hk, omap_app.
    rewrite (omap_map_none f) by (intros; apply Hget). reflexivity. }
  assert (Htl : get_register_events tail = [] /\ set_register_events tail = [] /\
                read_debug_buffer_events tail = [] /\
                write_debug_buffer_events tail = []).
  { destruct Htail as [->|(rc & ->)]; repeat split. }
  destruct Htl as (Ht1 & Ht2 & Ht3 & Ht4).
  split; [|split; [|split]].
  - apply Hg. unfold get_register_events in *. rewrite omap_app, Ht1.
    rewrite (omap_map_none _ (fun j => EvWriteDebugBuffer j _)) by reflexivity.
    reflexivity.
  - unfold set_register_events in *. rewrite Hn by reflexivity.
    rewrite omap_app, Ht2.
    rewrite (omap_map_none _ (fun j => EvWriteDebugBuffer j _)) by reflexivity.
    reflexivity.
  - unfold read_debug_buffer_events in *. rewrite Hn by reflexivity.
    rewrite omap_app, Ht3.
    rewrite (omap_map_none _ (fun j => EvWriteDebugBuffer j _)) by reflexivity.
    reflexivity.
  - unfold write_debug_buffer_events in *. rewrite Hn by reflexivity.
    rewrite omap_app, Ht4, app_nil_r.
    apply omap_map_some. reflexivity.
Qed.

Section ExecFailureTrace.

Variable hart : Type.
Variable get_register : hart -> gdb_regno -> riscv_reg_t * hart.
Variable set_register : hart -> gdb_regno -> riscv_reg_t -> hart.
Variable write_debug_buffer : hart -> nat -> riscv_insn_t -> Z * hart.
Variable execute_debug_buffer : hart -> Z * hart.
Variable read_debug_buffer : hart -> nat -> riscv_insn_t * hart.

Lemma exec_failure_inv p t saved rc p' t' tr :
  length saved = S GDB_REGNO_XPR31 ->
  riscv_program_exec get_register set_register write_debug_buffer
    execute_debug_buffer read_debug_buffer p t saved = Ret (rc, p', t', tr) ->
  rc <> ERROR_OK ->
  exists (vals : list riscv_reg_t) k tail,
    k <= instruction_count p' /\
    (tail = [] \/ exists rce, tail = [EvExecuteDebugBuffer rce]) /\
    tr = EvKeepAlive
         :: map (fun j => EvGetRegister j (vals !!! j))
              (dirtied_between p (GDB_REGNO_XPR0 + 1)
                 (GDB_REGNO_XPR31 - GDB_REGNO_XPR0))
         ++ map (fun j => EvWriteDebugBuffer j (debug_buffer p' !!! j)) (seq 0 k)
         ++ tail.
Proof.
  intros Hlen. unfold riscv_program_exec.
  destruct (save_loop _ _ _ _ _ _ _) as [[vals t1] tr_save] eqn:Esave.
  apply save_loop_spec in Esave as (-> & _ & _);
    [|rewrite Hlen; unfold GDB_REGNO_XPR31, GDB_REGNO_XPR0; lia].
  intros H. apply bind_Ret_inv in H as ([rc1 p1] & E1 & H).
  apply fence_step in E1 as (-> & ->).
  cbv beta iota in H. rewrite guard_ok in H.
  apply bind_Ret_inv in H as ([rc2 p2] & E2 & H).
  apply ebreak_step in E2 as (-> & ->).
  cbv beta iota in H. rewrite guard_ok in H. revert H.
  destruct (riscv_program_write _ _ t1) as [[rcw t2] tr_write] eqn:Ew.
  apply riscv_program_write_prefix in Ew as ((k & Hk & -> & Hrc) & _).
  destruct (Z.eqb_spec rcw ERROR_OK) as [->|Hne]; cbn [negb].
  - destruct Hrc as [(_ & ->)|(Hf & _)]; [|discriminate Hf].
    destruct (execute_debug_buffer t2) as [rce t3].
    destruct (Z.eqb_spec rce ERROR_OK) as [->|Hne]; cbn [negb].
    + rewrite readback_loop_reads_nothing by lia.
      cbn [mbind outcome_bind]. cbv beta iota.
      destruct (restore_loop _ _ _ _ _ _ _) as [t5 tr_restore].
      intros H Hfail. injection H as <- <- <- <-. contradiction.
    + intros H _. injection H as <- <- <- <-.
      exists vals, (instruction_count (with_ebreak (with_fence p))),
        [EvExecuteDebugBuffer rce].
      split; [lia|]. split; [right; eexists; reflexivity|].
      reflexivity.
  - destruct Hrc as [(Hok & _)|(_ & Hpos)]; [contradiction|].
    intros H _. injection H as <- <- <- <-.
    exists vals, k, []. split; [exact Hk|]. split; [left; reflexivity|].
    rewrite app_nil_r. reflexivity.
Qed.

(** X19: when the transfer or the execution fails,
    [riscv_program_exec] returns ERROR_FAIL at once.  By then it has taken
    the snapshots of the dirtied registers x1..x31 and transferred slots
    0 .. k - 1 of the program (all of them if it was the execution that
    failed); it writes no register back and reads no slot. *)
Theorem exec_failure_restores_no_register p t saved rc p' t' tr :
  length saved = S GDB_REGNO_XPR31 ->
  riscv_program_exec get_register set_register write_debug_buffer
    execute_debug_buffer read_debug_buffer p t saved = Ret (rc, p', t', tr) ->
  rc <> ERROR_OK ->
  rc = ERROR_FAIL /\
  map fst (get_register_events tr) =
    dirtied_between p (GDB_REGNO_XPR0 + 1) (GDB_REGNO_XPR31 - GDB_REGNO_XPR0) /\
  set_register_events tr = [] /\
  read_debug_buffer_events tr = [] /\
  exists k, k <= instruction_count p' /\
    write_debug_buffer_events tr =
      map (fun j => (j, debug_buffer p' !!! j)) (seq 0 k).
Proof.
  intros Hlen H Hfail.
  pose proof (exec_Ret_program _ _ _ _ _ _ _ _ _ _ _ _ _ H) as (_ & [Hok|Hrc]);
    [contradiction|].
  split; [exact Hrc|].
  destruct (exec_failure_inv _ _ _ _ _ _ _ Hlen H Hfail)
    as (vals & k & tail & Hk & Htail & ->).
  destruct (failed_run_projections vals (debug_buffer p')
              (dirtied_between p (GDB_REGNO_XPR0 + 1)
                 (GDB_REGNO_XPR31 - GDB_REGNO_XPR0))
              (seq 0 k) tail Htail) as (Hg & Hs & Hr & Hw).
  rewrite Hg, Hs, Hr, Hw. rewrite map_map.
  split; [apply map_id|]. split; [reflexivity|]. split; [reflexivity|].
  exists k. split; [exact Hk|reflexivity].
Qed.

End ExecFailureTrace.

(** The theorem at a program that allocated S0, on the simulated target
    with an execution that fails. *)
Lemma exec_failure_restores_no_register_witness :
  ERROR_FAIL <> ERROR_OK /\
  exists p' t' tr,
    riscv_program_exec sim_get_register sim_set_register sim_write_debug_buffer
      (fun h : sim_hart => (ERROR_FAIL, h)) sim_read_debug_buffer
      (allocated example_program GDB_REGNO_S0) (sim_reset 4) (replicate 32 0%Z)
      = Ret (ERROR_FAIL, p', t', tr) /\
    set_register_events tr = [].
Proof.
  assert (Hne : ERROR_FAIL <> ERROR_OK) by discriminate.
  split; [exact Hne|].
  assert (H : exists p' t' tr,
    riscv_program_exec sim_get_register sim_set_register sim_write_debug_buffer
      (fun h : sim_hart => (ERROR_FAIL, h)) sim_read_debug_buffer
      (allocated example_program GDB_REGNO_S0) (sim_reset 4) (replicate 32 0%Z)
      = Ret (ERROR_FAIL, p', t', tr)).
  { eexists. eexists. eexists. reflexivity. }
  destruct H as (p' & t' & tr & H). exists p', t', tr. split; [exact H|].
  exact (proj1 (proj2 (proj2
    (exec_failure_restores_no_register sim_hart sim_get_register
       sim_set_register sim_write_debug_buffer
       (fun h : sim_hart => (ERROR_FAIL, h)) sim_read_debug_buffer
       _ (sim_reset 4) (replicate 32 0%Z) _ _ _ _ eq_refl H Hne)))).
Defined.

(** ** The order of the calls *)

Section ExecCallOrder.

Variable hart : Type.
Variable get_register : hart -> gdb_regno -> riscv_reg_t * hart.
Variable set_register : hart -> gdb_regno -> riscv_reg_t -> hart.
Variable write_debug_buffer : hart -> nat -> riscv_insn_t -> Z * hart.
Variable execute_debug_buffer : hart -> Z * hart.
Variable read_debug_buffer : hart -> nat -> riscv_insn_t * hart.

(** X20: the calls of a successful run, in order: the keep-alive, one
    read of each dirtied register x1..x31 in ascending order, the transfer
    of the slots 0 .. [instruction_count] - 1 in ascending order, the
    execution, and one write of each dirtied register x0..x31 in ascending
    order, with the content of its slot of [saved_registers] -- for x0 the
    content the slot had at entry. *)
Theorem exec_call_order p t saved p' t' tr :
  length saved = S GDB_REGNO_XPR31 ->
  riscv_program_exec get_register set_register write_debug_buffer
    execute_debug_buffer read_debug_buffer p t saved
    = Ret (ERROR_OK, p', t', tr) ->
  exists vals : list riscv_reg_t,
    vals !!! GDB_REGNO_X0 = saved !!! GDB_REGNO_X0 /\
    tr = [EvKeepAlive]
         ++ map (fun j => EvGetRegister j (vals !!! j))
              (dirtied_between p (GDB_REGNO_XPR0 + 1)
                 (GDB_REGNO_XPR31 - GDB_REGNO_XPR0))
         ++ map (fun j => EvWriteDebugBuffer j (debug_buffer p' !!! j))
              (seq 0 (instruction_count p'))
         ++ [EvExecuteDebugBuffer ERROR_OK]
         ++ map (fun j => EvSetRegister j (vals !!! j))
              (dirtied_between p GDB_REGNO_XPR0
                 (S GDB_REGNO_XPR31 - GDB_REGNO_XPR0)).
Proof.
  intros Hlen H.
  apply exec_success_inv in H as (p1 & vals & _ & _ & H0 & ->); [|exact Hlen].
  exists vals. split; [exact H0|]. reflexivity.
Qed.

End ExecCallOrder.

(** The theorem at a program that allocated S0, on the simulated
    target. *)
Lemma exec_call_order_witness :
  exists p' t' tr,
    sim_exec (allocated example_program GDB_REGNO_S0) (sim_reset 4)
      (replicate 32 0%Z) = Ret (ERROR_OK, p', t', tr) /\
    tr = [EvKeepAlive; EvGetRegister GDB_REGNO_S0 108;
          EvWriteDebugBuffer 0 ebreak; EvExecuteDebugBuffer ERROR_OK;
          EvSetRegister GDB_REGNO_S0 108] /\
    exists vals : list riscv_reg_t,
      tr = [EvKeepAlive]
           ++ map (fun j => EvGetRegister j (vals !!! j))
                (dirtied_between (allocated example_program GDB_REGNO_S0)
                   (GDB_REGNO_XPR0 + 1) (GDB_REGNO_XPR31 - GDB_REGNO_XPR0))
           ++ map (fun j => EvWriteDebugBuffer j (debug_buffer p' !!! j))
                (seq 0 (instruction_count p'))
           ++ [EvExecuteDebugBuffer ERROR_OK]
           ++ map (fun j => EvSetRegister j (vals !!! j))
                (dirtied_between (allocated example_program GDB_REGNO_S0)
                   GDB_REGNO_XPR0 (S GDB_REGNO_XPR31 - GDB_REGNO_XPR0)).
Proof.
  eexists. eexists. eexists. split; [reflexivity|]. split; [reflexivity|].
  destruct (exec_call_order sim_hart sim_get_register sim_set_register
              sim_write_debug_buffer sim_execute_debug_buffer
              sim_read_debug_buffer (allocated example_program GDB_REGNO_S0)
              (sim_reset 4) (replicate 32 0%Z) _ _ _ eq_refl eq_refl)
    as (vals & _ & Htr).
  exists vals. exact Htr.
Defined.
